(** * ION-Bus Connect: the transfer-opportunity engine

    A shallow embedding of the three pipelines of the repository
    ([build_transfer_index.py], [build_transfer_index_interactive.py] and
    [ion_bus_connect.py]) and the properties of their common core: the
    time-window filter on clock strings, the buffer/within proximity
    match, the pairing of rail arrivals with bus departures, and the
    reduction to one distinct-route count per rail stop.  Around the
    core: the tables of the feed, the maps and their markers, the summary
    of the command-line script, the data of the interactive map, the runs
    of the scripts to their end, and the sweep of [generate_maps.py].

    Data is kept as the scripts have it.  A data frame is the list of its
    rows, a cell read with [dtype=str] is a [string] and a missing cell
    (NaN) is [None]; a string is kept as its UTF-8 encoding.  Projected
    coordinates are floating-point numbers, each of which is a rational:
    they are [Q].  A [Series] keyed by stop id and the dictionary the
    interactive script returns are [gmap]s.  An exception that reaches the
    top of a script ends the run: it is a [Raise] in the [result] type. *)

From Stdlib Require Import ZArith QArith Lqa Lia String Ascii List.
From stdpp Require Import gmap strings list fin_maps pretty sorting.

Open Scope string_scope.

(* ===================================================================== *)
(** * Clock strings *)
(* ===================================================================== *)

Module Clock.

#[local] Open Scope Z_scope.

(** ** Characters

    A cell is a Python string, a sequence of code points.  The tables are
    read as UTF-8 and a cell is kept as its encoding, a [string] of bytes:
    comparing two encodings byte by byte is comparing the two strings
    code point by code point, which is how Python orders strings. *)

(** The six bits of a continuation byte. *)
Definition continuation (c : ascii) : option N :=
  let n := N_of_ascii c in
  if ((128 <=? n) && (n <? 192))%N then Some (n - 128)%N else None.

(** The first code point of a string, and what follows it. *)
Definition code_point (s : string) : option (N * string) :=
  match s with
  | EmptyString => None
  | String a s1 =>
      let n := N_of_ascii a in
      if (n <? 128)%N then Some (n, s1)
      else if (n <? 192)%N then None
      else if (n <? 224)%N then
        match s1 with
        | String b s2 =>
            match continuation b with
            | Some x => Some ((n - 192) * 64 + x, s2)%N
            | None => None
            end
        | _ => None
        end
      else if (n <? 240)%N then
        match s1 with
        | String b (String c s3) =>
            match continuation b, continuation c with
            | Some x, Some y => Some ((n - 224) * 4096 + x * 64 + y, s3)%N
            | _, _ => None
            end
        | _ => None
        end
      else if (n <? 248)%N then
        match s1 with
        | String b (String c (String d s4)) =>
            match continuation b, continuation c, continuation d with
            | Some x, Some y, Some z =>
                Some ((n - 240) * 262144 + x * 4096 + y * 64 + z, s4)%N
            | _, _, _ => None
            end
        | _ => None
        end
      else None
  end.

(** The decimal digits (category Nd, Unicode 14.0): sixty-six runs of ten
    code points, each from the zero to the nine of a script, listed by
    their zeros.  They are what [\d] matches in a pattern and what [int]
    reads; the first run is [0-9]. *)
Definition decimal_zeros : list N :=
  [48; 1632; 1776; 1984; 2406; 2534; 2662; 2790; 2918; 3046; 3174; 3302;
   3430; 3558; 3664; 3792; 3872; 4160; 4240; 6112; 6160; 6470; 6608; 6784;
   6800; 6992; 7088; 7232; 7248; 42528; 43216; 43264; 43472; 43504; 43600;
   44016; 65296; 66720; 68912; 69734; 69872; 69942; 70096; 70384; 70736;
   70864; 71248; 71360; 71472; 71904; 72016; 72784; 73040; 73120; 92768;
   92864; 93008; 120782; 120792; 120802; 120812; 120822; 123200; 123632;
   125264; 130032]%N.

(** The value of a code point that is a decimal digit. *)
Definition decimal (n : N) : option Z :=
  match List.find (fun z => (z <=? n) && (n <? z + 10))%N decimal_zeros with
  | Some z => Some (Z.of_N (n - z))
  | None => None
  end.

(** The class [0-9] of the ASCII digits, and the value of one. *)
Definition is_digit (c : ascii) : bool :=
  ((48 <=? N_of_ascii c) && (N_of_ascii c <=? 57))%N.

Definition digit (c : ascii) : Z := Z.of_N (N_of_ascii c) - 48.

(** ** Matching at the start of a string

    A matcher answers the value of the digit it takes and what is left of
    the string. *)

Definition matcher : Type := string -> option (Z * string).

(** [\d] *)
Definition decimal_digit : matcher := fun s =>
  match code_point s with
  | Some (n, rest) =>
      match decimal n with
      | Some v => Some (v, rest)
      | None => None
      end
  | None => None
  end.

(** A class [[lo-hi]] of ASCII digits. *)
Definition in_class (lo hi : ascii) : matcher := fun s =>
  match s with
  | String c rest =>
      if ((N_of_ascii lo <=? N_of_ascii c)
          && (N_of_ascii c <=? N_of_ascii hi))%N
      then Some (digit c, rest) else None
  | EmptyString => None
  end.

(** ** The shape test [str.match(r'^\d{2}:\d{2}:\d{2}$', na=False)] *)

Inductive atom : Type :=
  | Digit
  | Lit (c : ascii).

(** [\d{2}:\d{2}:\d{2}] *)
Definition time_pattern : list atom :=
  [Digit; Digit; Lit ":"; Digit; Digit; Lit ":"; Digit; Digit].

(** Matches the atoms at the start of [s]; answers what is left of [s]. *)
Fixpoint match_atoms (p : list atom) (s : string) : option string :=
  match p with
  | [] => Some s
  | Digit :: p' =>
      match decimal_digit s with
      | Some (_, rest) => match_atoms p' rest
      | None => None
      end
  | Lit l :: p' =>
      match s with
      | String c rest => if Ascii.eqb l c then match_atoms p' rest else None
      | EmptyString => None
      end
  end.

(** [$] outside MULTILINE mode: the end of the string, or the position
    just before a line feed that ends the string. *)
Definition at_dollar (s : string) : bool :=
  match s with
  | EmptyString => true
  | String c EmptyString => Ascii.eqb c "010"
  | String _ (String _ _) => false
  end.

Definition str_match (s : string) : bool :=
  match match_atoms time_pattern s with
  | Some rest => at_dollar rest
  | None => false
  end.

(** ** The mask of the time-window filter

    [mask = col.notna() & col.str.match(pat, na=False)
            & (col >= start) & (col <= end)], cell by cell.  Strings
    compare as Python compares them, code point by code point
    ([String.leb] on the encodings); a comparison with a missing cell is
    [False]. *)

Definition notna (v : option string) : bool :=
  match v with Some _ => true | None => false end.

Definition str_match_na (v : option string) : bool :=
  match v with Some s => str_match s | None => false end.

Definition ge (v : option string) (bound : string) : bool :=
  match v with Some s => String.leb bound s | None => false end.

Definition le (v : option string) (bound : string) : bool :=
  match v with Some s => String.leb s bound | None => false end.

Definition mask (start stop : string) (v : option string) : bool :=
  notna v && str_match_na v && ge v start && le v stop.

(** ** The three fields of an eight-character clock string

    Eight ASCII characters [dd:dd:dd], the digits being [0-9]. *)

Definition two_digits (a b : ascii) : Z := 10 * digit a + digit b.

Definition fields (s : string) : option (Z * Z * Z) :=
  match s with
  | String h1 (String h2 (String c1 (String m1 (String m2
      (String c2 (String s1 (String s2 EmptyString))))))) =>
      if forallb is_digit [h1; h2; m1; m2; s1; s2]
         && Ascii.eqb ":" c1 && Ascii.eqb ":" c2
      then Some (two_digits h1 h2, two_digits m1 m2, two_digits s1 s2)
      else None
  | _ => None
  end.

(** ** The parser [pd.to_datetime(s, format='%H:%M:%S')] on a string

    The format is compiled to the regular expression
    [(?P<H>2[0-3]|[0-1]\d|\d):(?P<M>[0-5]\d|\d):(?P<S>6[0-1]|[0-5]\d|\d)],
    matched at the start of the string. *)

(** Two matchers in a row; the value is what [int] makes of the two
    characters. *)
Definition pair (tens units : matcher) : matcher := fun s =>
  match tens s with
  | Some (a, s1) =>
      match units s1 with
      | Some (b, s2) => Some (10 * a + b, s2)
      | None => None
      end
  | None => None
  end.

(** The alternatives of the three directives, in the order in which they
    are tried. *)
Definition directive_H : list matcher :=
  [pair (in_class "2" "2") (in_class "0" "3");
   pair (in_class "0" "1") decimal_digit;
   decimal_digit].

Definition directive_M : list matcher :=
  [pair (in_class "0" "5") decimal_digit; decimal_digit].

Definition directive_S : list matcher :=
  [pair (in_class "6" "6") (in_class "0" "1");
   pair (in_class "0" "5") decimal_digit;
   decimal_digit].

(** A group followed by the rest [k] of the expression: the first
    alternative after which the rest matches. *)
Fixpoint group {A : Type} (alts : list matcher)
    (k : Z -> string -> option A) (s : string) : option A :=
  match alts with
  | [] => None
  | m :: alts' =>
      match m s with
      | Some (v, rest) =>
          match k v rest with
          | Some a => Some a
          | None => group alts' k s
          end
      | None => group alts' k s
      end
  end.

Definition colon {A : Type} (k : string -> option A) (s : string)
    : option A :=
  match s with
  | String c rest => if Ascii.eqb c ":" then k rest else None
  | EmptyString => None
  end.

(** [format_regex.match(s)]: the three groups as numbers, and what the
    match leaves of the string. *)
Definition format_regex (s : string) : option (Z * Z * Z * string) :=
  group directive_H (fun hh =>
    colon (group directive_M (fun mm =>
      colon (group directive_S (fun ss rest => Some (hh, mm, ss, rest)))))) s.

(** The value is the number of seconds between 1900-01-01 00:00:00, the
    date the parser fills in, and the parsed instant, the fields being
    added up as they are (a second field of 60 is the next minute);
    [None] is the [ValueError] of a string that the expression does not
    match, or that it does not match to the end. *)
Definition strptime (s : string) : option Z :=
  match format_regex s with
  | Some (hh, mm, ss, EmptyString) => Some (3600 * hh + 60 * mm + ss)
  | _ => None
  end.

(** The strings that stand for a missing time. *)
Definition nat_strings : list string :=
  ["NaT"; "nat"; "NAT"; "nan"; "NaN"; "NAN"]%string.

(** ** Elapsed seconds *)

(** The elapsed-seconds reading of a clock string, as a schedule feed
    means it: seconds past the midnight that starts the service day, the
    hour field running past 24 for trips after midnight. *)
Definition clock_seconds (s : string) : option Z :=
  match fields s with
  | Some (hh, mm, ss) => Some (3600 * hh + 60 * mm + ss)
  | None => None
  end.

(** A clock string whose minute and second fields are below 60. *)
Definition sexagesimal (s : string) : bool :=
  match fields s with
  | Some (_, mm, ss) => (mm <=? 59) && (ss <=? 59)
  | None => false
  end.

End Clock.

(* ===================================================================== *)
(** * Buffers and containment *)
(* ===================================================================== *)

Module Geometry.

Definition Point : Type := Q * Q.
Definition Polygon : Type := list Point.

Definition Qltb (x y : Q) : bool := negb (Qle_bool y x).

Definition vec (a b : Point) : Point := (b.1 - a.1, b.2 - a.2)%Q.
Definition cross (u v : Point) : Q := (u.1 * v.2 - u.2 * v.1)%Q.
Definition dist2 (a b : Point) : Q :=
  ((b.1 - a.1) * (b.1 - a.1) + (b.2 - a.2) * (b.2 - a.2))%Q.

(** The point of the unit circle with half-angle tangent [p/q]. *)
Definition circle_point (t : Z * Z) : Point :=
  let '(p, q) := t in
  (inject_Z (q * q - p * p) / inject_Z (q * q + p * p),
   inject_Z (2 * p * q) / inject_Z (q * q + p * p))%Q.

(** [tan (k * pi / 64)] for [k = 0 .. 15], as fractions that put every
    point of the ring within [3e-7] of its exact direction. *)
Definition half_tangents : list (Z * Z) :=
  [(0, 1); (166, 3379); (346, 3513); (468, 3155); (695, 3494);
   (643, 2567); (1133, 3735); (1311, 3664); (1393, 3363); (1557, 3292);
   (1301, 2434); (962, 1605); (1915, 2866); (2687, 3623); (3167, 3859);
   (2913, 3214)]%Z.

Definition quarter_turn (u : Point) : Point := (- u.2, u.1)%Q.

Definition quadrant : list Point := map circle_point half_tangents.

(** The directions of the vertices of a buffer with the default
    resolution, sixteen segments to a quarter circle: sixty-four points
    of the unit circle at the angles [k * pi / 32], and the first one
    again, which closes the ring.  The ring is listed counterclockwise
    (the library lists it clockwise; the set of points is the same). *)
Definition unit_ring : list Point :=
  quadrant
  ++ map quarter_turn quadrant
  ++ map (quarter_turn ∘ quarter_turn) quadrant
  ++ map (quarter_turn ∘ quarter_turn ∘ quarter_turn) quadrant
  ++ take 1 quadrant.

Definition scale (c : Point) (r : Q) (u : Point) : Point :=
  (c.1 + r * u.1, c.2 + r * u.2)%Q.

(** [Point.buffer(distance)]: the polygon inscribed in the circle of that
    radius around the point, as its closed ring of vertices; the empty
    polygon when the distance is not positive.  The vertices are the
    ideal ones; those of the library are rounded, see [rounded] below.
    The distance is an integer that a float can hold. *)
Definition buffer (c : Point) (distance : Z) : Polygon :=
  if (distance <=? 0)%Z then []
  else map (scale c (inject_Z distance)) unit_ring.

Fixpoint edges (ring : Polygon) : list (Point * Point) :=
  match ring with
  | a :: (b :: _) as rest => (a, b) :: edges rest
  | _ => []
  end.

Definition left_of (e : Point * Point) (p : Point) : bool :=
  Qltb 0 (cross (vec e.1 e.2) (vec e.1 p)).

(** The predicate [within] of a point and a buffer polygon: the point is
    in the interior, not on the boundary.  The ring is convex and
    counterclockwise, so the interior is what lies strictly to the left
    of every edge; nothing is within the empty polygon. *)
Definition within (p : Point) (poly : Polygon) : bool :=
  match poly with
  | [] => false
  | _ :: _ => forallb (fun e => left_of e p) (edges poly)
  end.

(** ** Checks on the table of directions *)

(** The two ends of an edge are on the unit circle, and the edge turns
    left. *)
Definition edge_ok (e : Point * Point) : bool :=
  Qeq_bool (e.1.1 * e.1.1 + e.1.2 * e.1.2) 1
  && Qeq_bool (e.2.1 * e.2.1 + e.2.2 * e.2.2) 1
  && Qltb 0 (cross e.1 e.2).

(** The part of the disc that the polygon is sure to cover: its edges
    stay farther than 499/500 of the radius from the centre. *)
Definition inner : Q := 499 # 500.

Definition edge_far (e : Point * Point) : bool :=
  Qltb (inner * inner * ((vec e.1 e.2).1 * (vec e.1 e.2).1
                         + (vec e.1 e.2).2 * (vec e.1 e.2).2))
       (cross e.1 e.2 * cross e.1 e.2).

(** ** The ring as the library has it

    The library computes the vertices of a buffer in floating point, and
    the directions of [unit_ring] are fractions close to the angles: the
    ring of the library is the ring of [buffer] up to a small displacement
    of every vertex.  What is stated of the proximity match is stated of
    every ring of this kind: a closed ring whose vertices are, coordinate
    by coordinate, within a millionth of the radius of the vertices of
    [buffer], listed like them counterclockwise from the east point. *)








End Geometry.

(* ===================================================================== *)
(** * The engine: proximity match, pairing, aggregation *)
(* ===================================================================== *)

Module Engine.

Import Clock Geometry.

#[local] Open Scope list_scope.

(** ** Runs that may end in an exception *)

Inductive exn : Type :=
  | ValueError (time_data : string)
  | KeyError (label : string)
  | SystemExit (code : Z).

Inductive result (A : Type) : Type :=
  | Ok (a : A)
  | Raise (e : exn).

Arguments Ok {A} a.
Arguments Raise {A} e.

#[export] Instance result_ret : MRet result := fun A a => Ok a.
#[export] Instance result_bind : MBind result := fun A B k m =>
  match m with
  | Ok a => k a
  | Raise e => Raise e
  end.

(** [for row in rows: body], the body updating the state [s]. *)
Fixpoint for_each {A S : Type} (rows : list A) (body : A -> S -> result S)
    (s : S) : result S :=
  match rows with
  | [] => Ok s
  | row :: rest => s' ← body row s; for_each rest body s'
  end.

(** ** Rows *)

(** A row of [ion_stops] or [bus_stops]: the stop, with its point in the
    projected plane (EPSG:26917, metres). *)
Record StopRow : Type := mkStop {
  stop_id : string;
  stop_name : string;
  geometry : Point
}.

(** A row of [st_with_routes], hence of [ion_times] and [bus_times]. *)
Record TimeRow : Type := mkTime {
  trip_id : string;
  at_stop_id : string;   (* column [stop_id] *)
  arrival_time : option string;
  departure_time : option string;
  route_id : string
}.

(** A row of [nearby]: the bus stop ([stop_id_left]) and the rail stop
    whose buffer it is within ([stop_id_right]). *)
Record NearRow : Type := mkNear {
  stop_id_left : string;
  stop_id_right : string
}.

(** An element of [transfers]. *)
Record Transfer : Type := mkTransfer {
  ion_stop_id : string;
  bus_route_id : string
}.

(** A row of [output]. *)
Record IndexRow : Type := mkIndexRow {
  stop : StopRow;
  bus_xfer_routes : nat
}.

#[export] Instance Transfer_eq_dec : EqDecision Transfer.
Proof. solve_decision. Defined.

(** ** Proximity match *)

Definition ion_buffers (ion_stops : list StopRow) (buffer_m : Z)
    : list (StopRow * Polygon) :=
  map (fun s => (s, buffer (geometry s) buffer_m)) ion_stops.

(** [gpd.sjoin(left, right, predicate='within', how='inner')]: one row for
    every left point and right polygon such that the point is within the
    polygon. *)
Definition sjoin_within (left : list StopRow)
    (right : list (StopRow * Polygon)) : list NearRow :=
  flat_map (fun l =>
    flat_map (fun r =>
      if within (geometry l) r.2 then [mkNear (stop_id l) (stop_id r.1)]
      else []) right) left.

Definition nearby (ion_stops bus_stops : list StopRow) (buffer_m : Z)
    : list NearRow :=
  sjoin_within bus_stops (ion_buffers ion_stops buffer_m).


(** ** Pairing of arrivals and departures *)

(** [pd.to_datetime(cell, format='%H:%M:%S')] on a cell: a missing cell,
    the empty string and the strings that stand for a missing time give
    [NaT] ([None]); any other string that the format refuses raises. *)
Definition to_datetime (cell : option string) : result (option Z) :=
  match cell with
  | None => Ok None
  | Some s =>
      if bool_decide (s = "" \/ s ∈ nat_strings) then Ok None
      else
        match strptime s with
        | Some t => Ok (Some t)
        | None => Raise (ValueError s)
        end
  end.

(** [(bus_time - ion_time).total_seconds() / 60]; [None] is the [nan] of a
    difference with [NaT].  The quotient of a whole number of seconds by
    60 is kept exact: rounding it to the nearest float is monotone and
    leaves whole minutes unchanged, so the two comparisons with integers
    below come out the same. *)
Definition diff_minutes (bus_time ion_time : option Z) : option Q :=
  match bus_time, ion_time with
  | Some b, Some a => Some (inject_Z (b - a) / 60)%Q
  | _, _ => None
  end.

(** [0 <= diff_minutes <= max_transfer] *)
Definition in_window (diff : option Q) (max_transfer : Z) : bool :=
  match diff with
  | Some m => Qle_bool 0 m && Qle_bool m (inject_Z max_transfer)
  | None => false
  end.

(** The loop over [nearby] that fills [transfers]. *)
Definition calculate_transfers (nearby : list NearRow)
    (ion_times bus_times : list TimeRow) (max_transfer : Z)
    : result (list Transfer) :=
  for_each nearby (fun row transfers =>
    let ion_stop_id := stop_id_right row in
    let bus_stop_id := stop_id_left row in
    let ion_arr := filter (fun t => at_stop_id t = ion_stop_id) ion_times in
    let bus_dep := filter (fun t => at_stop_id t = bus_stop_id) bus_times in
    if (length ion_arr =? 0)%nat || (length bus_dep =? 0)%nat
    then Ok transfers
    else
      for_each ion_arr (fun i_row transfers =>
        ion_time ← to_datetime (arrival_time i_row);
        for_each bus_dep (fun b_row transfers =>
          bus_time ← to_datetime (departure_time b_row);
          if in_window (diff_minutes bus_time ion_time) max_transfer
          then Ok (transfers ++ [mkTransfer ion_stop_id (route_id b_row)])
          else Ok transfers) transfers) transfers) [].

(** ** Aggregation *)

(** [transfers_df.groupby('ion_stop_id')['bus_route_id'].nunique()]: the
    series that gives, for every stop id that occurs, the number of
    distinct route ids in its group. *)
Definition groups (transfers : list Transfer) : gmap string (gset string) :=
  foldl (fun g t =>
           <[ion_stop_id t :=
               {[bus_route_id t]} ∪ default ∅ (g !! ion_stop_id t)]> g)
        ∅ transfers.

Definition groupby_nunique (transfers : list Transfer) : gmap string nat :=
  size <$> groups transfers.

(** [xfer_counts] of the batch scripts: the series as a frame with the
    columns [stop_id] and [bus_xfer_routes]; an empty frame when there is
    no transfer. *)
Definition xfer_counts (transfers : list Transfer) : list (string * nat) :=
  match transfers with
  | [] => []
  | _ :: _ => map_to_list (groupby_nunique transfers)
  end.

(** [left.merge(right, on='stop_id', how='left')]: every left row, once
    for each right row with its key, or once with a missing count. *)
Definition merge_left (left : list StopRow) (right : list (string * nat))
    : list (StopRow * option nat) :=
  flat_map (fun l =>
    match filter (fun r => r.1 = stop_id l) right with
    | [] => [(l, None)]
    | matches => map (fun r => (l, Some r.2)) matches
    end) left.

(** [output]: the merge, with [fillna(0).astype(int)] on the count. *)
Definition output (ion_stops : list StopRow) (transfers : list Transfer)
    : list IndexRow :=
  map (fun r => mkIndexRow r.1 (default 0%nat r.2))
      (merge_left ion_stops (xfer_counts transfers)).

(** The batch scripts from the spatial join to [output]. *)
Definition transfer_index (ion_stops bus_stops : list StopRow)
    (ion_times bus_times : list TimeRow) (buffer_m max_transfer : Z)
    : result (list IndexRow) :=
  transfers ← calculate_transfers (nearby ion_stops bus_stops buffer_m)
                ion_times bus_times max_transfer;
  mret (output ion_stops transfers).

(** ** The interactive script's engine *)

Definition MAX_TRANSFER_M : Z := 6.

(** [frame.loc[counts.index, 'bus_xfer_routes'] = counts.values]: a label
    that the frame does not have is a [KeyError]. *)
Definition loc_assign (frame counts : gmap string nat)
    : result (gmap string nat) :=
  match filter (fun k => frame !! k = None) (map fst (map_to_list counts)) with
  | [] => Ok (counts ∪ frame)
  | k :: _ => Raise (KeyError k)
  end.

Definition calculate_transfers_for_distance (ion_stops bus_stops : list StopRow)
    (ion_times bus_times : list TimeRow) (buffer_m : Z)
    : result (gmap string nat) :=
  transfers ← calculate_transfers (nearby ion_stops bus_stops buffer_m)
                ion_times bus_times MAX_TRANSFER_M;
  let frame : gmap string nat :=
    list_to_map (map (fun s => (stop_id s, 0%nat)) ion_stops) in
  match transfers with
  | [] => Ok frame
  | _ :: _ => loc_assign frame (groupby_nunique transfers)
  end.

(** ** The loops and the counts, read

    What each loop adds to [transfers], and the propositions and counts
    in which the properties below are stated. *)

(** What a loop adds to its list, when every turn adds [g row]. *)
Fixpoint collect {A B : Type} (g : A -> result (list B)) (rows : list A)
    : result (list B) :=
  match rows with
  | [] => Ok []
  | row :: rest => l ← g row; ls ← collect g rest; mret (l ++ ls)
  end.

(** What one departure adds. *)
Definition bus_turn (ion_stop_id : string) (ion_time : option Z)
    (max_transfer : Z) (b_row : TimeRow) : result (list Transfer) :=
  bus_time ← to_datetime (departure_time b_row);
  mret (if in_window (diff_minutes bus_time ion_time) max_transfer
        then [mkTransfer ion_stop_id (route_id b_row)] else []).

(** What one arrival adds. *)
Definition arrival_turn (ion_stop_id : string) (bus_dep : list TimeRow)
    (max_transfer : Z) (i_row : TimeRow) : result (list Transfer) :=
  ion_time ← to_datetime (arrival_time i_row);
  collect (bus_turn ion_stop_id ion_time max_transfer) bus_dep.

(** What one row of [nearby] adds. *)
Definition pair_turn (ion_times bus_times : list TimeRow) (max_transfer : Z)
    (row : NearRow) : result (list Transfer) :=
  let ion_arr := filter (fun t => at_stop_id t = stop_id_right row) ion_times in
  let bus_dep := filter (fun t => at_stop_id t = stop_id_left row) bus_times in
  if (length ion_arr =? 0)%nat || (length bus_dep =? 0)%nat then Ok []
  else collect (arrival_turn (stop_id_right row) bus_dep max_transfer) ion_arr.

(** The cell can be read as a time (or is missing). *)
Definition parses (cell : option string) : Prop :=
  exists t, to_datetime cell = Ok t.

(** The arrival and the departure are both read, and the departure is
    within the window after the arrival. *)
Definition qualifies (max_transfer : Z) (i_row b_row : TimeRow) : Prop :=
  exists a d,
    to_datetime (arrival_time i_row) = Ok (Some a)
    /\ to_datetime (departure_time b_row) = Ok (Some d)
    /\ in_window (diff_minutes (Some d) (Some a)) max_transfer = true.

(** An arrival at the rail stop and a departure from the bus stop of a row
    of [nearby]. *)
Definition meets (ion_times bus_times : list TimeRow) (row : NearRow)
    (i_row b_row : TimeRow) : Prop :=
  i_row ∈ ion_times /\ at_stop_id i_row = stop_id_right row
  /\ b_row ∈ bus_times /\ at_stop_id b_row = stop_id_left row.

(** Whether the loop adds a record for this arrival and this departure:
    both cells are read, neither is missing, and the wait is in the
    window. *)
Definition emitted (max_transfer : Z) (i_row b_row : TimeRow) : bool :=
  match to_datetime (arrival_time i_row),
        to_datetime (departure_time b_row) with
  | Ok ion_time, Ok bus_time =>
      in_window (diff_minutes bus_time ion_time) max_transfer
  | _, _ => false
  end.

(** One record for every row of [nearby], arrival at its rail stop and
    departure from its bus stop such that a record is added, in the order
    of the loops. *)
Definition opportunities (nearby : list NearRow)
    (ion_times bus_times : list TimeRow) (max_transfer : Z) : list Transfer :=
  flat_map (fun row =>
    flat_map (fun i_row =>
      flat_map (fun b_row =>
        if emitted max_transfer i_row b_row
        then [mkTransfer (stop_id_right row) (route_id b_row)] else [])
        (filter (fun t => at_stop_id t = stop_id_left row) bus_times))
      (filter (fun t => at_stop_id t = stop_id_right row) ion_times))
    nearby.

(** The route ids of the records of one stop, in the order of the
    records. *)
Definition routes_at (s : string) (transfers : list Transfer) : list string :=
  map bus_route_id (filter (fun t => ion_stop_id t = s) transfers).

(** The number of distinct route ids among the records of one stop. *)
Definition count_at (transfers : list Transfer) (s : string) : nat :=
  size (list_to_set (routes_at s transfers) : gset string).

(** The dictionary of the counts of the stops. *)
Definition index_dict (ion_stops : list StopRow) (transfers : list Transfer)
    : gmap string nat :=
  list_to_map (map (fun s => (stop_id s, count_at transfers (stop_id s)))
                   ion_stops).

End Engine.

(* ===================================================================== *)
(** * The scripts around the engine *)
(* ===================================================================== *)

Module Scripts.

Import Clock Geometry Engine.

#[local] Open Scope list_scope.

(** ** The tables of the feed

    Identifiers are present in every row.  [route_type] is the column
    after [astype(int)]; a stop carries its projected point. *)

Record RouteRow : Type := mkRoute {
  r_route_id : string;
  route_type : Z
}.

Record TripRow : Type := mkTrip {
  t_trip_id : string;
  t_route_id : string;
  service_id : string
}.

Record StopTimeRow : Type := mkStopTime {
  st_trip_id : string;
  st_stop_id : string;
  st_arrival_time : option string;
  st_departure_time : option string
}.

Record CalendarDateRow : Type := mkCalendarDate {
  cd_service_id : string;
  cd_date : string
}.

Record Feed : Type := mkFeed {
  routes : list RouteRow;
  trips : list TripRow;
  stop_times : list StopTimeRow;
  calendar_dates : list CalendarDateRow;
  stops : list StopRow
}.

(** ** From the tables to the engine's inputs *)

(** [date.replace('-', '')] *)
Fixpoint remove_dashes (s : string) : string :=
  match s with
  | EmptyString => EmptyString
  | String c s' =>
      if Ascii.eqb c "-" then remove_dashes s' else String c (remove_dashes s')
  end.

(** [calendar_dates[calendar_dates['date'] == target_date]['service_id']
    .unique()]; of the distinct values only their number and membership
    in them are used. *)
Definition service_ids (feed : Feed) (date : string) : list string :=
  remove_dups
    (map cd_service_id
       (filter (fun c => cd_date c = remove_dashes date) (calendar_dates feed))).

(** [trips] once filtered by service. *)
Definition trips_of_day (feed : Feed) (date : string) : list TripRow :=
  filter (fun t => service_id t ∈ service_ids feed date) (trips feed).

Definition ion_routes (feed : Feed) : list string :=
  map r_route_id (filter (fun r => r_route_id r = "301") (routes feed)).

Definition bus_routes (feed : Feed) : list string :=
  map r_route_id (filter (fun r => route_type r = 3%Z) (routes feed)).

Definition ion_trips (feed : Feed) (date : string) : list TripRow :=
  filter (fun t => t_route_id t ∈ ion_routes feed) (trips_of_day feed date).

Definition bus_trips (feed : Feed) (date : string) : list TripRow :=
  filter (fun t => t_route_id t ∈ bus_routes feed) (trips_of_day feed date).

(** [stop_times[stop_times['trip_id'].isin(ts['trip_id'])]['stop_id'].unique()] *)
Definition stop_ids_of (feed : Feed) (ts : list TripRow) : list string :=
  remove_dups
    (map st_stop_id
       (filter (fun st => st_trip_id st ∈ map t_trip_id ts) (stop_times feed))).

Definition ion_stops (feed : Feed) (date : string) : list StopRow :=
  filter (fun s => stop_id s ∈ stop_ids_of feed (ion_trips feed date))
         (stops feed).

Definition bus_stops (feed : Feed) (date : string) : list StopRow :=
  filter (fun s => stop_id s ∈ stop_ids_of feed (bus_trips feed date))
         (stops feed).

(** [stop_times.merge(trips[['trip_id', 'route_id']], on='trip_id')] *)
Definition st_with_routes (feed : Feed) (date : string) : list TimeRow :=
  flat_map (fun st =>
    map (fun t => mkTime (st_trip_id st) (st_stop_id st)
                    (st_arrival_time st) (st_departure_time st) (t_route_id t))
        (filter (fun t => t_trip_id t = st_trip_id st) (trips_of_day feed date)))
    (stop_times feed).

Definition ion_times (feed : Feed) (date start stop : string) : list TimeRow :=
  filter (fun e => route_id e ∈ ion_routes feed
                   ∧ mask start stop (arrival_time e) = true)
         (st_with_routes feed date).

Definition bus_times (feed : Feed) (date start stop : string) : list TimeRow :=
  filter (fun e => route_id e ∈ bus_routes feed
                   ∧ mask start stop (departure_time e) = true)
         (st_with_routes feed date).

(** The part the three scripts share, from the loaded tables to
    [output]. *)
Definition analysis (feed : Feed) (date start stop : string)
    (buffer_m max_transfer : Z) : result (list IndexRow) :=
  transfer_index (ion_stops feed date) (bus_stops feed date)
    (ion_times feed date start stop) (bus_times feed date start stop)
    buffer_m max_transfer.

(** ** [build_transfer_index.py] *)

Module build_transfer_index.

Definition SERVICE_DATE : string := "2025-06-10".
Definition PEAK_START : string := "07:00:00".
Definition PEAK_END : string := "09:00:00".
Definition BUFFER_METRES : Z := 100.
Definition MAX_TRANSFER_M : Z := 6.

(** What the script leaves: the rows of [output], and whether it printed
    its warning that no rail stop was found. *)
Record Report : Type := mkReport {
  rows : list IndexRow;
  no_stops_warning : bool
}.

Definition main (feed : Feed) : result Report :=
  output ← analysis feed SERVICE_DATE PEAK_START PEAK_END BUFFER_METRES
             MAX_TRANSFER_M;
  mret (mkReport output (negb (0 <? length output)%nat)).

End build_transfer_index.

(** ** [build_transfer_index_interactive.py] *)

Module build_transfer_index_interactive.

Definition SERVICE_DATE : string := "2025-06-10".
Definition PEAK_START : string := "07:00:00".
Definition PEAK_END : string := "09:00:00".

(** [range(50, 501, 50)] *)
Definition distances : list Z := (fun k => 50 * k)%Z <$> seqZ 1 10.

(** [main], up to [transfer_data], one dictionary for every distance;
    the script to its end, with its map, is
    [Runs.build_transfer_index_interactive.main]. *)
Definition main (feed : Feed) : result (gmap Z (gmap string nat)) :=
  for_each distances (fun dist transfer_data =>
    counts ← calculate_transfers_for_distance
               (ion_stops feed SERVICE_DATE) (bus_stops feed SERVICE_DATE)
               (ion_times feed SERVICE_DATE PEAK_START PEAK_END)
               (bus_times feed SERVICE_DATE PEAK_START PEAK_END) dist;
    mret (<[dist := counts]> transfer_data)) ∅.

End build_transfer_index_interactive.

(** ** [ion_bus_connect.py] *)

Module ion_bus_connect.

(** The parsed command line: [--date], [--time START END], [--buffer] and
    [--transfer-time], the last two read with [type=int]. *)
Record Args : Type := mkArgs {
  date : string;
  time : string * string;
  buffer : Z;
  transfer_time : Z
}.

Section Main.

(** Whether [dt.date.fromisoformat] takes the string. *)
Variable fromisoformat : string -> bool.

(** [main], up to [output]: the date is the one argument that is
    validated ([parser.error] leaves with status 2); a date without
    service leaves with status 1.  The script to its end, with its map
    and its summary, is [Runs.ion_bus_connect.main]. *)
Definition main (args : Args) (feed : Feed) : result (list IndexRow) :=
  if negb (fromisoformat (date args)) then Raise (SystemExit 2)
  else if (length (service_ids feed (date args)) =? 0)%nat
  then Raise (SystemExit 1)
  else analysis feed (date args) (time args).1 (time args).2
         (buffer args) (transfer_time args).

End Main.

End ion_bus_connect.

End Scripts.

(* ===================================================================== *)
(** * Windows, dates and cells: the vocabulary of the script properties *)
(* ===================================================================== *)

Module Windows.

Import Clock.

#[local] Open Scope Z_scope.

(** The two fields of a five-character clock string [dd:dd]. *)
Definition short_fields (s : string) : option (Z * Z) :=
  match s with
  | String h1 (String h2 (String c (String m1 (String m2 EmptyString)))) =>
      if forallb is_digit [h1; h2; m1; m2] && Ascii.eqb ":" c
      then Some (two_digits h1 h2, two_digits m1 m2)
      else None
  | _ => None
  end.

(** Whether a string holds the character that [replace('-', '')]
    removes. *)
Fixpoint has_dash (s : string) : bool :=
  match s with
  | EmptyString => false
  | String c s' => Ascii.eqb c "-" || has_dash s'
  end.

(** The encoding of one decimal digit, of any script. *)
Definition decimal_char (d : string) : Prop :=
  exists v, decimal_digit d = Some (v, EmptyString).

(** A radius up to this size is converted to a float when the buffers
    are made; the conversion of one beyond the largest float, about
    1.8e308, is an [OverflowError], which is left out of the model: the
    properties of the scripts are stated for radii within the limit. *)
Definition float_limit : Z := 10 ^ 308.

(** A time cell that the shape test refuses, or whose minute and second
    fields are below 60. *)
Definition well_timed (cell : option string) : bool :=
  match cell with
  | Some s => implb (str_match s) (sexagesimal s)
  | None => true
  end.

End Windows.

(* ===================================================================== *)
(** * What the scripts write: maps, summary, map data *)
(* ===================================================================== *)

Module Reports.

Import Clock Geometry Engine Scripts.

#[local] Open Scope list_scope.

(** ** The map of the batch script and of the command-line script

    [create_map] centres a map on the mean of the coordinates of the rows
    of [output] and draws one circle marker for every row; the two
    scripts have the same function, but for the caption of the legend.
    The rows carry the points of the stops as the engine has them; the
    reprojection of [ion_stops_wgs] changes the coordinates only. *)

(** [series.mean()]: [nan], here [None], for a series without a value.
    The quotient is kept exact. *)
Definition mean (values : list Q) : option Q :=
  match values with
  | [] => None
  | _ :: _ =>
      Some (foldr Qplus 0 values / inject_Z (Z.of_nat (length values)))%Q
  end.

(** [folium.Map(location=[lat, lon])]: a location with a [nan] is
    refused. *)
Definition nan_location : exn :=
  ValueError "Location values cannot contain NaNs.".

Definition folium_Map (lat lon : option Q) : result (Q * Q) :=
  match lat, lon with
  | Some y, Some x => Ok (y, x)
  | _, _ => Raise nan_location
  end.

(** [column.max()]: [nan], here [None], for a column without a row. *)
Definition series_max (values : list nat) : option nat :=
  match values with
  | [] => None
  | v :: rest => Some (foldl Nat.max v rest)
  end.

(** The fill colour of a marker: ['#505050'], or the colour that the
    colormap running from 0 to [vmax] gives to a value. *)
Inductive Colour : Type :=
  | Grey
  | Scale (value vmax : nat).

Record CircleMarker : Type := mkCircleMarker {
  location : Q * Q;
  radius : Q;
  color : string;
  fill : bool;
  fillColor : Colour;
  fillOpacity : Q;
  weight : Z;
  tooltip : string
}.

(** The map: its centre, the colormap added as a legend, if any, by its
    [vmax], and the markers. *)
Record TransferMap : Type := mkTransferMap {
  centre : Q * Q;
  colormap : option nat;
  markers : list CircleMarker
}.

(** One turn of the loop over the rows.  The quotient
    [value / max(max_routes, 1)] is kept exact; the script has the float
    nearest to it. *)
Definition marker (max_routes : nat) (row : IndexRow) : CircleMarker :=
  let value := bus_xfer_routes row in
  mkCircleMarker
    ((geometry (stop row)).2, (geometry (stop row)).1)
    (if (value =? 0)%nat then 6
     else 8 + inject_Z (Z.of_nat value)
              / inject_Z (Z.of_nat (Nat.max max_routes 1)) * 12)%Q
    "#000000" true
    (if (0 <? max_routes)%nat && (0 <? value)%nat
     then Scale value max_routes else Grey)
    (9 # 10)%Q 2%Z
    (stop_name (stop row) ++ ": " ++ pretty value ++ " bus routes")%string.

(** A frame without a row has [nan] for the centre of the map, which
    [folium.Map] refuses, before anything is drawn.  (It also has [nan]
    for [max_routes]: no legend, [nan > 0] being false, and no turn of
    the loop.) *)
Definition create_map (gdf : list IndexRow) : result TransferMap :=
  location ← folium_Map
               (mean (map (fun row => (geometry (stop row)).2) gdf))
               (mean (map (fun row => (geometry (stop row)).1) gdf));
  match series_max (map bus_xfer_routes gdf) with
  | None => mret (mkTransferMap location None [])
  | Some max_routes =>
      mret (mkTransferMap location
              (if (0 <? max_routes)%nat then Some max_routes else None)
              (map (marker max_routes) gdf))
  end.

(** ** The summary of the command-line script *)

(** [frame.nlargest(n, 'bus_xfer_routes')]: the first [n] rows in
    descending order of the count, rows with the same count in the order
    of the frame. *)
Fixpoint insert_desc (row : IndexRow) (sorted : list IndexRow)
    : list IndexRow :=
  match sorted with
  | [] => [row]
  | r :: rest =>
      if (bus_xfer_routes r <=? bus_xfer_routes row)%nat then row :: sorted
      else r :: insert_desc row rest
  end.

Definition nlargest (n : nat) (frame : list IndexRow) : list IndexRow :=
  take n (foldr insert_desc [] frame).

(** A row that may come before another in descending order. *)
Definition desc (a b : IndexRow) : Prop :=
  (bus_xfer_routes b <= bus_xfer_routes a)%nat.

(** The dictionary written to [analysis_summary.json], but for the time
    of the run. *)
Record Summary : Type := mkSummary {
  service_date : string;
  time_window : string;
  buffer_metres : Z;
  max_transfer_minutes : Z;
  total_ion_stops : nat;
  stops_with_transfers : nat;
  max_routes_at_stop : nat;
  total_transfer_opportunities : nat;
  top_stations : list (string * nat)
}.

(** [int(output['bus_xfer_routes'].max())] raises on the [nan] of a frame
    without a row. *)
Definition summary (args : ion_bus_connect.Args) (output : list IndexRow)
    (transfers : list Transfer) : result Summary :=
  let total := length output in
  let with_transfers :=
    length (filter (fun row => (0 < bus_xfer_routes row)%nat) output) in
  match series_max (map bus_xfer_routes output) with
  | None => Raise (ValueError "cannot convert float NaN to integer")
  | Some max_routes =>
      Ok (mkSummary
            (ion_bus_connect.date args)
            ((ion_bus_connect.time args).1 ++ " - "
             ++ (ion_bus_connect.time args).2)%string
            (ion_bus_connect.buffer args)
            (ion_bus_connect.transfer_time args)
            total with_transfers max_routes (length transfers)
            (map (fun row => (stop_name (stop row), bus_xfer_routes row))
                 (nlargest 5 output)))
  end.

(** ** The data of the interactive map *)

(** An element of [stops_data]. *)
Record StopData : Type := mkStopData {
  sd_stop_id : string;
  sd_stop_name : string;
  lat : Q;
  lon : Q;
  transfers : gmap Z nat
}.

(** The first loop of [create_interactive_map], which prepares the data
    that the page reads by stop and by distance:
    [stop_transfers[dist] = transfers.get(stop['stop_id'], 0)] for every
    distance of [transfer_data_by_distance]. *)
Definition stops_data (ion_stops_wgs : list StopRow)
    (transfer_data_by_distance : gmap Z (gmap string nat)) : list StopData :=
  map (fun stop =>
         mkStopData (stop_id stop) (stop_name stop)
           (geometry stop).2 (geometry stop).1
           ((fun counts => default 0%nat (counts !! stop_id stop))
              <$> transfer_data_by_distance))
      ion_stops_wgs.

(** The interactive map: its centre and the data that its page reads. *)
Record InteractiveMap : Type := mkInteractiveMap {
  im_centre : Q * Q;
  im_stops_data : list StopData
}.

(** [create_interactive_map]: the map is centred on the mean of the
    coordinates of the rail stops, then the data is prepared. *)
Definition create_interactive_map (ion_stops_wgs : list StopRow)
    (transfer_data_by_distance : gmap Z (gmap string nat))
    : result InteractiveMap :=
  location ← folium_Map (mean (map (fun stop => (geometry stop).2) ion_stops_wgs))
               (mean (map (fun stop => (geometry stop).1) ion_stops_wgs));
  mret (mkInteractiveMap location
          (stops_data ion_stops_wgs transfer_data_by_distance)).

End Reports.

(* ===================================================================== *)
(** * The scripts to their end *)
(* ===================================================================== *)

(** [main] of the command-line script and of the interactive script,
    from the loaded tables to the last file written: the analysis, then
    the map, and for the command-line script the summary. *)

Module Runs.

Import Clock Geometry Engine Scripts Reports.

#[local] Open Scope list_scope.

(** ** [ion_bus_connect.py] *)

Module ion_bus_connect.

(** What the script writes: the index of [ion_transfer_index.csv], the
    map and the summary. *)
Record Outcome : Type := mkOutcome {
  index : list IndexRow;
  transfer_map : TransferMap;
  report : Summary
}.

Section Main.

(** Whether [dt.date.fromisoformat] takes the string. *)
Variable fromisoformat : string -> bool.

Definition main (args : Scripts.ion_bus_connect.Args) (feed : Feed)
    : result Outcome :=
  let date := Scripts.ion_bus_connect.date args in
  let start := (Scripts.ion_bus_connect.time args).1 in
  let stop := (Scripts.ion_bus_connect.time args).2 in
  if negb (fromisoformat date) then Raise (SystemExit 2)
  else if (length (service_ids feed date) =? 0)%nat
  then Raise (SystemExit 1)
  else
    transfers ← calculate_transfers
                  (nearby (ion_stops feed date) (bus_stops feed date)
                     (Scripts.ion_bus_connect.buffer args))
                  (ion_times feed date start stop)
                  (bus_times feed date start stop)
                  (Scripts.ion_bus_connect.transfer_time args);
    let output := output (ion_stops feed date) transfers in
    m ← create_map output;
    summary ← summary args output transfers;
    mret (mkOutcome output m summary).

End Main.

End ion_bus_connect.

(** ** [build_transfer_index_interactive.py] *)

Module build_transfer_index_interactive.

Definition main (feed : Feed) : result InteractiveMap :=
  transfer_data ← Scripts.build_transfer_index_interactive.main feed;
  create_interactive_map
    (ion_stops feed Scripts.build_transfer_index_interactive.SERVICE_DATE)
    transfer_data.

End build_transfer_index_interactive.

End Runs.

(* ===================================================================== *)
(** * The command line without options, and the sweep of batch runs *)
(* ===================================================================== *)

(** ** The defaults of [ion_bus_connect.py] *)

Module defaults.

Import Scripts.

Definition DEFAULT_SERVICE_DATE : string := "2025-06-10".
Definition DEFAULT_PEAK_START : string := "07:00:00".
Definition DEFAULT_PEAK_END : string := "09:00:00".
Definition DEFAULT_BUFFER_METRES : Z := 100.
Definition DEFAULT_MAX_TRANSFER_MINUTES : Z := 6.

(** The parsed command line when no option is given. *)
Definition args : ion_bus_connect.Args :=
  ion_bus_connect.mkArgs DEFAULT_SERVICE_DATE
    (DEFAULT_PEAK_START, DEFAULT_PEAK_END) DEFAULT_BUFFER_METRES
    DEFAULT_MAX_TRANSFER_MINUTES.

End defaults.

(** ** [generate_maps.py] *)

Module generate_maps.

Import Engine Scripts.

#[local] Open Scope list_scope.

Definition distances : list Z :=
  [50; 100; 150; 200; 250; 300; 350; 400; 450; 500]%Z.

(** The temporary script: [build_transfer_index.py] with the line
    [BUFFER_METRES = 100] replaced by [BUFFER_METRES = dist]. *)
Definition temp_build (dist : Z) (feed : Feed)
    : result build_transfer_index.Report :=
  output ← analysis feed build_transfer_index.SERVICE_DATE
             build_transfer_index.PEAK_START build_transfer_index.PEAK_END
             dist build_transfer_index.MAX_TRANSFER_M;
  mret (build_transfer_index.mkReport output (negb (0 <? length output)%nat)).

(** The loop: every distance with the outcome of its run, all runs on
    the same feed; a run that ends in an exception has a return code
    other than 0, its error is printed and the loop goes on. *)
Definition main (feed : Feed)
    : list (Z * result build_transfer_index.Report) :=
  map (fun dist => (dist, temp_build dist feed)) distances.

End generate_maps.

(* ===================================================================== *)
(** * Stops, events and feeds to run the scripts on *)
(* ===================================================================== *)

Module Examples.

Import Clock Geometry Engine Scripts.

#[local] Open Scope list_scope.

(** A rail stop and three bus stops in the projected plane: [B1] is 50 m
    and [B2] 60 m from [R1]; [B9] is 499.63 m from it, 0.37 m inside the
    circle of radius 500 m. *)
Definition R1 : StopRow := mkStop "R1" "Rail 1" (0, 0)%Q.
Definition B1 : StopRow := mkStop "B1" "Bus 1" (50, 0)%Q.
Definition B2 : StopRow := mkStop "B2" "Bus 2" (0, 60)%Q.

(** A morning arrival and departures 3, 5 and 10 minutes later. *)
Definition arrival_0700 : TimeRow :=
  mkTime "T1" "R1" (Some "07:00:00") (Some "07:00:30") "301".
Definition departure_0703 : TimeRow :=
  mkTime "T2" "B1" (Some "07:02:30") (Some "07:03:00") "X".
Definition departure_0710 : TimeRow :=
  mkTime "T3" "B1" (Some "07:09:30") (Some "07:10:00") "X".
Definition departure_0705 : TimeRow :=
  mkTime "T4" "B2" (Some "07:04:30") (Some "07:05:00") "X".

(** A feed with one rail trip and one bus trip, both after midnight of the
    service day: the train calls at 25:30:00, the bus leaves three minutes
    later. *)
Definition night_feed : Feed :=
  mkFeed
    [mkRoute "301" 0; mkRoute "X" 3]
    [mkTrip "T1" "301" "S1"; mkTrip "T2" "X" "S1"]
    [mkStopTime "T1" "R1" (Some "25:30:00") (Some "25:30:30");
     mkStopTime "T2" "B1" (Some "25:32:30") (Some "25:33:00")]
    [mkCalendarDate "S1" "20250610"]
    [R1; B1].

(** The same trips in the morning peak. *)
Definition morning_feed : Feed :=
  mkFeed
    [mkRoute "301" 0; mkRoute "X" 3]
    [mkTrip "T1" "301" "S1"; mkTrip "T2" "X" "S1"]
    [mkStopTime "T1" "R1" (Some "07:00:00") (Some "07:00:30");
     mkStopTime "T2" "B1" (Some "07:02:30") (Some "07:03:00")]
    [mkCalendarDate "S1" "20250610"]
    [R1; B1].

(** [--time 25:00:00 26:00:00] *)
Definition night_args : ion_bus_connect.Args :=
  ion_bus_connect.mkArgs "2025-06-10" ("25:00:00", "26:00:00") 100 6.

(** [--buffer -5] and [--transfer-time -1] *)
Definition negative_buffer_args : ion_bus_connect.Args :=
  ion_bus_connect.mkArgs "2025-06-10" ("07:00:00", "09:00:00") (-5) 6.
Definition negative_wait_args : ion_bus_connect.Args :=
  ion_bus_connect.mkArgs "2025-06-10" ("07:00:00", "09:00:00") 100 (-1).
Definition default_args : ion_bus_connect.Args :=
  ion_bus_connect.mkArgs "2025-06-10" ("07:00:00", "09:00:00") 100 6.

(** The morning feed with a bus departure whose minute field is 75. *)
Definition late_minute_feed : Feed :=
  mkFeed
    [mkRoute "301" 0; mkRoute "X" 3]
    [mkTrip "T1" "301" "S1"; mkTrip "T2" "X" "S1"]
    [mkStopTime "T1" "R1" (Some "07:00:00") (Some "07:00:30");
     mkStopTime "T2" "B1" (Some "07:02:30") (Some "07:75:00")]
    [mkCalendarDate "S1" "20250610"]
    [R1; B1].

(** The morning feed without the rail route, and without the bus route. *)
Definition no_rail_feed : Feed :=
  mkFeed
    [mkRoute "X" 3]
    [mkTrip "T1" "301" "S1"; mkTrip "T2" "X" "S1"]
    [mkStopTime "T1" "R1" (Some "07:00:00") (Some "07:00:30");
     mkStopTime "T2" "B1" (Some "07:02:30") (Some "07:03:00")]
    [mkCalendarDate "S1" "20250610"]
    [R1; B1].

Definition no_bus_feed : Feed :=
  mkFeed
    [mkRoute "301" 0]
    [mkTrip "T1" "301" "S1"; mkTrip "T2" "X" "S1"]
    [mkStopTime "T1" "R1" (Some "07:00:00") (Some "07:00:30");
     mkStopTime "T2" "B1" (Some "07:02:30") (Some "07:03:00")]
    [mkCalendarDate "S1" "20250610"]
    [R1; B1].

(** 07:05:00 with the five written as the Arabic-Indic digit U+0665,
    encoded as the two bytes D9 A5. *)
Definition arabic_five : string := String "217" (String "165" EmptyString).
Definition time_0705_arabic : string := "07:0" ++ arabic_five ++ ":00".

(** An arrival written with a one-digit hour, and a departure whose
    second field is 60. *)
Definition arrival_7 : TimeRow :=
  mkTime "T1" "R1" (Some "7:00:00") (Some "7:00:30") "301".
Definition departure_070360 : TimeRow :=
  mkTime "T2" "B1" (Some "07:02:30") (Some "07:03:60") "X".

(** Six rail stops and the records of a run that give them the counts
    1, 0, 2, 2, 0 and 3. *)
Definition rail (n : string) (x : Z) : StopRow :=
  mkStop ("R" ++ n) ("Rail " ++ n) (inject_Z x, 0)%Q.
Definition sample_stops : list StopRow :=
  [rail "1" 0; rail "2" 1000; rail "3" 2000; rail "4" 3000; rail "5" 4000;
   rail "6" 5000].
Definition sample_transfers : list Transfer :=
  [mkTransfer "R1" "7"; mkTransfer "R3" "7"; mkTransfer "R3" "8";
   mkTransfer "R3" "7"; mkTransfer "R4" "8"; mkTransfer "R4" "9";
   mkTransfer "R6" "7"; mkTransfer "R6" "8"; mkTransfer "R6" "9"].
Definition sample_output : list IndexRow :=
  output sample_stops sample_transfers.

End Examples.

(* ===================================================================== *)
(** * Facts about clock strings *)
(* ===================================================================== *)

Module ClockFacts.

Import Clock.

#[local] Open Scope Z_scope.

Lemma is_digit_range (c : ascii) :
  is_digit c = true ->
  0 <= digit c <= 9 /\ Z.of_N (N_of_ascii c) = 48 + digit c.
Proof.
  unfold is_digit, digit. intros H.
  apply andb_true_iff in H as [H1 H2].
  apply N.leb_le in H1, H2. lia.
Qed.

(** What a string with three fields looks like. *)
Lemma fields_inv (s : string) (hh mm ss : Z) :
  fields s = Some (hh, mm, ss) ->
  exists h1 h2 m1 m2 s1 s2 : ascii,
    s = String h1 (String h2 (String ":" (String m1 (String m2
          (String ":" (String s1 (String s2 EmptyString)))))))
    /\ Forall (fun c => is_digit c = true) [h1; h2; m1; m2; s1; s2]
    /\ hh = two_digits h1 h2 /\ mm = two_digits m1 m2 /\ ss = two_digits s1 s2.
Proof.
  unfold fields. intros H.
  do 8 (destruct s as [|? s]; [discriminate|]).
  destruct s; [|discriminate].
  destruct (forallb _ _ && _ && _) eqn:E; [|discriminate].
  apply andb_true_iff in E as [E Ec2].
  apply andb_true_iff in E as [E Ec1].
  apply Ascii.eqb_eq in Ec1, Ec2. subst.
  rewrite forallb_forall in E.
  injection H as Hh Hm Hs. subst hh mm ss.
  eexists _, _, _, _, _, _. split; [reflexivity|]. split; [|auto].
  rewrite Forall_forall. intros c Hc. apply E. now apply list_elem_of_In.
Qed.

Lemma fields_ranges (s : string) (hh mm ss : Z) :
  fields s = Some (hh, mm, ss) ->
  0 <= hh <= 99 /\ 0 <= mm <= 99 /\ 0 <= ss <= 99.
Proof.
  intros H. apply fields_inv in H as (h1&h2&m1&m2&s1&s2&_&Hd&->&->&->).
  repeat match goal with
  | H : Forall _ (_ :: _) |- _ =>
      apply Forall_cons in H as [?%is_digit_range ?]
  end.
  unfold two_digits. lia.
Qed.

(** ** Matchers on ASCII digits *)

Lemma decimal_digit_ascii (c : ascii) (s : string) :
  is_digit c = true -> decimal_digit (String c s) = Some (digit c, s).
Proof.
  intros H. destruct (is_digit_range c H) as [Hr Hn].
  unfold decimal_digit, code_point.
  assert (Hlt : (N_of_ascii c <? 128)%N = true) by (apply N.ltb_lt; lia).
  rewrite Hlt. unfold decimal, decimal_zeros. cbn [List.find].
  assert (Hz : ((48 <=? N_of_ascii c) && (N_of_ascii c <? 48 + 10))%N = true).
  { apply andb_true_iff. rewrite N.leb_le, N.ltb_lt. lia. }
  rewrite Hz. unfold digit. do 2 f_equal. lia.
Qed.

Lemma colon_digit {A : Type} (k : string -> option A) (c : ascii) (s : string) :
  is_digit c = true -> colon k (String c s) = None.
Proof.
  intros H. unfold colon.
  destruct (Ascii.eqb_spec c ":") as [->|]; [|done]. discriminate.
Qed.

(** A string with three fields has the shape the filter asks for. *)
Lemma fields_str_match (s : string) (f : Z * Z * Z) :
  fields s = Some f -> str_match s = true.
Proof.
  destruct f as [[hh mm] ss]. intros H.
  apply fields_inv in H as (h1&h2&m1&m2&s1&s2&->&Hd&_).
  repeat match goal with
  | H : Forall _ (_ :: _) |- _ => apply Forall_cons in H as [? ?]
  end.
  unfold str_match, time_pattern.
  repeat first [ rewrite decimal_digit_ascii by assumption
               | progress cbn [match_atoms Ascii.eqb Bool.eqb] ].
  reflexivity.
Qed.

(** ** The language of the shape test *)

(** The encoding of the first code point of a string, apart. *)
Lemma code_point_split (s rest : string) (n : N) :
  code_point s = Some (n, rest) ->
  exists d, s = (d ++ rest)%string /\ code_point d = Some (n, EmptyString).
Proof.
  unfold code_point. destruct s as [|a s1]; [discriminate|].
  destruct (N_of_ascii a <? 128)%N eqn:E1.
  { intros [= <- <-]. exists (String a EmptyString). split; [done|].
    now rewrite E1. }
  destruct (N_of_ascii a <? 192)%N eqn:E2; [discriminate|].
  destruct (N_of_ascii a <? 224)%N eqn:E3.
  { destruct s1 as [|b s2]; [discriminate|].
    destruct (continuation b) as [x|] eqn:Eb; [|discriminate].
    intros [= <- <-]. exists (String a (String b EmptyString)).
    split; [done|]. now rewrite E1, E2, E3, Eb. }
  destruct (N_of_ascii a <? 240)%N eqn:E4.
  { destruct s1 as [|b [|c s3]]; [discriminate..|].
    destruct (continuation b) as [x|] eqn:Eb; [|discriminate].
    destruct (continuation c) as [y|] eqn:Ec; [|discriminate].
    intros [= <- <-]. exists (String a (String b (String c EmptyString))).
    split; [done|]. now rewrite E1, E2, E3, E4, Eb, Ec. }
  destruct (N_of_ascii a <? 248)%N eqn:E5; [|discriminate].
  destruct s1 as [|b [|c [|d s4]]]; [discriminate..|].
  destruct (continuation b) as [x|] eqn:Eb; [|discriminate].
  destruct (continuation c) as [y|] eqn:Ec; [|discriminate].
  destruct (continuation d) as [z|] eqn:Ed; [|discriminate].
  intros [= <- <-].
  exists (String a (String b (String c (String d EmptyString)))).
  split; [done|]. now rewrite E1, E2, E3, E4, E5, Eb, Ec, Ed.
Qed.

Lemma code_point_app (d rest : string) (n : N) :
  code_point d = Some (n, EmptyString) ->
  code_point (d ++ rest) = Some (n, rest).
Proof.
  unfold code_point. destruct d as [|a s1]; [discriminate|].
  cbv [String.append]. fold String.append.
  destruct (N_of_ascii a <? 128)%N eqn:E1.
  { now intros [= <- ->]. }
  destruct (N_of_ascii a <? 192)%N eqn:E2; [discriminate|].
  destruct (N_of_ascii a <? 224)%N eqn:E3.
  { destruct s1 as [|b s2]; [discriminate|].
    cbv [String.append]. fold String.append.
    destruct (continuation b) as [x|] eqn:Eb; [|discriminate].
    now intros [= <- ->]. }
  destruct (N_of_ascii a <? 240)%N eqn:E4.
  { destruct s1 as [|b [|c s3]]; [discriminate..|].
    cbv [String.append]. fold String.append.
    destruct (continuation b) as [x|] eqn:Eb; [|discriminate].
    destruct (continuation c) as [y|] eqn:Ec; [|discriminate].
    now intros [= <- ->]. }
  destruct (N_of_ascii a <? 248)%N eqn:E5; [|discriminate].
  destruct s1 as [|b [|c [|e s4]]]; [discriminate..|].
  cbv [String.append]. fold String.append.
  destruct (continuation b) as [x|] eqn:Eb; [|discriminate].
  destruct (continuation c) as [y|] eqn:Ec; [|discriminate].
  destruct (continuation e) as [z|] eqn:Ee; [|discriminate].
  now intros [= <- ->].
Qed.

Lemma decimal_digit_split (s rest : string) (v : Z) :
  decimal_digit s = Some (v, rest)
  <-> exists d, s = (d ++ rest)%string
                /\ decimal_digit d = Some (v, EmptyString).
Proof.
  unfold decimal_digit. split.
  - destruct (code_point s) as [[n r]|] eqn:E; [|discriminate].
    destruct (decimal n) as [v'|] eqn:Ev; [|discriminate].
    intros [= <- <-]. apply code_point_split in E as (d&->&Hd).
    exists d. split; [done|]. now rewrite Hd, Ev.
  - intros (d&->&Hd).
    destruct (code_point d) as [[n r]|] eqn:E; [|discriminate].
    destruct (decimal n) as [v'|] eqn:Ev; [|discriminate].
    injection Hd as <- ->.
    now rewrite (code_point_app d rest n E), Ev.
Qed.

Lemma decimal_range (n : N) (v : Z) : decimal n = Some v -> 0 <= v <= 9.
Proof.
  unfold decimal.
  destruct (List.find _ decimal_zeros) as [z|] eqn:E; [|discriminate].
  intros [= <-]. apply List.find_some in E as [_ E].
  apply andb_true_iff in E as [E1 E2].
  apply N.leb_le in E1. apply N.ltb_lt in E2. lia.
Qed.

Lemma decimal_digit_range (s rest : string) (v : Z) :
  decimal_digit s = Some (v, rest) -> 0 <= v <= 9.
Proof.
  unfold decimal_digit. destruct (code_point s) as [[n r]|]; [|discriminate].
  destruct (decimal n) as [v'|] eqn:E; [|discriminate].
  intros [= <- _]. now apply (decimal_range n).
Qed.

Lemma in_class_range (lo hi : ascii) (s rest : string) (v : Z) :
  in_class lo hi s = Some (v, rest) ->
  Z.of_N (N_of_ascii lo) - 48 <= v <= Z.of_N (N_of_ascii hi) - 48.
Proof.
  unfold in_class. destruct s as [|c r]; [discriminate|].
  destruct (_ && _) eqn:E; [|discriminate].
  intros [= <- _]. apply andb_true_iff in E as [E1 E2].
  apply N.leb_le in E1, E2. unfold digit. lia.
Qed.

(** ** The parser *)

Lemma group_inv {A : Type} (alts : list matcher) (k : Z -> string -> option A)
    (s : string) (a : A) :
  group alts k s = Some a ->
  exists m v rest, In m alts /\ m s = Some (v, rest) /\ k v rest = Some a.
Proof.
  induction alts as [|m alts IH]; cbn [group]; [discriminate|].
  destruct (m s) as [[v rest]|] eqn:Em.
  - destruct (k v rest) as [a'|] eqn:Ek.
    + intros [= <-]. exists m, v, rest. split; [now left|done].
    + intros (m'&v'&r'&Hin&H)%IH. exists m', v', r'. split; [now right|done].
  - intros (m'&v'&r'&Hin&H)%IH. exists m', v', r'. split; [now right|done].
Qed.

Lemma pair_range (tens units : matcher) (a1 a2 b1 b2 : Z) (s rest : string)
    (v : Z) :
  (forall s r x, tens s = Some (x, r) -> a1 <= x <= a2) ->
  (forall s r x, units s = Some (x, r) -> b1 <= x <= b2) ->
  pair tens units s = Some (v, rest) ->
  10 * a1 + b1 <= v <= 10 * a2 + b2.
Proof.
  intros Ht Hu. unfold pair.
  destruct (tens s) as [[a s1]|] eqn:Ea; [|discriminate].
  destruct (units s1) as [[b s2]|] eqn:Eb; [|discriminate].
  intros [= <- _]. apply Ht in Ea. apply Hu in Eb. lia.
Qed.

Ltac matcher_range :=
  repeat match goal with
  | H : In _ (_ :: _) |- _ => destruct H as [<-|H]
  | H : In _ [] |- _ => destruct H
  | H : pair (in_class ?lo ?hi) (in_class ?lo' ?hi') _ = Some _ |- _ =>
      apply (pair_range _ _ (Z.of_N (N_of_ascii lo) - 48)
               (Z.of_N (N_of_ascii hi) - 48)
               (Z.of_N (N_of_ascii lo') - 48)
               (Z.of_N (N_of_ascii hi') - 48)) in H;
      [cbn in H; lia
      | intros ? ? ?; apply in_class_range
      | intros ? ? ?; apply in_class_range]
  | H : pair (in_class ?lo ?hi) decimal_digit _ = Some _ |- _ =>
      apply (pair_range _ _ (Z.of_N (N_of_ascii lo) - 48)
               (Z.of_N (N_of_ascii hi) - 48) 0 9) in H;
      [cbn in H; lia
      | intros ? ? ?; apply in_class_range
      | intros ? ? ?; apply decimal_digit_range]
  | H : decimal_digit _ = Some _ |- _ =>
      apply decimal_digit_range in H; lia
  end.

Lemma directive_H_range (m : matcher) (s rest : string) (v : Z) :
  In m directive_H -> m s = Some (v, rest) -> 0 <= v <= 23.
Proof. unfold directive_H. intros Hin H. matcher_range. Qed.

Lemma directive_M_range (m : matcher) (s rest : string) (v : Z) :
  In m directive_M -> m s = Some (v, rest) -> 0 <= v <= 59.
Proof. unfold directive_M. intros Hin H. matcher_range. Qed.

Lemma directive_S_range (m : matcher) (s rest : string) (v : Z) :
  In m directive_S -> m s = Some (v, rest) -> 0 <= v <= 61.
Proof. unfold directive_S. intros Hin H. matcher_range. Qed.

Lemma colon_inv {A : Type} (k : string -> option A) (s : string) (a : A) :
  colon k s = Some a -> exists rest, s = String ":" rest /\ k rest = Some a.
Proof.
  unfold colon. destruct s as [|c rest]; [discriminate|].
  destruct (Ascii.eqb_spec c ":") as [->|]; [|discriminate]. eauto.
Qed.

(** What the expression matches: an hour up to 23, a minute up to 59 and
    a second up to 61. *)
Lemma format_regex_range (s rest : string) (hh mm ss : Z) :
  format_regex s = Some (hh, mm, ss, rest) ->
  0 <= hh <= 23 /\ 0 <= mm <= 59 /\ 0 <= ss <= 61.
Proof.
  unfold format_regex.
  intros (mh&vh&r1&Hh&Eh&H)%group_inv.
  apply colon_inv in H as (r2&->&H).
  apply group_inv in H as (mm'&vm&r3&Hm&Em&H).
  apply colon_inv in H as (r4&->&H).
  apply group_inv in H as (ms&vs&r5&Hs&Es&H).
  injection H as <- <- <- <-.
  apply (directive_H_range mh s _ vh Hh) in Eh.
  apply (directive_M_range mm' r2 _ vm Hm) in Em.
  apply (directive_S_range ms r4 _ vs Hs) in Es. auto.
Qed.

(** The parser's value never reaches the second minute past 24 hours. *)
Lemma strptime_range (s : string) (t : Z) :
  strptime s = Some t -> 0 <= t <= 86401.
Proof.
  unfold strptime.
  destruct (format_regex s) as [[[[hh mm] ss] rest]|] eqn:E; [|discriminate].
  destruct rest; [|discriminate]. intros [= <-].
  apply format_regex_range in E. lia.
Qed.

(** A group at two ASCII digits: the alternatives of two characters are
    tried first, then the one of a single character. *)
Lemma group_two_digits {A : Type} (alts : list matcher) (bound : Z)
    (k : Z -> string -> option A) (c1 c2 : ascii) (rest : string) :
  (alts = directive_H /\ bound = 23) \/ (alts = directive_M /\ bound = 59)
  \/ (alts = directive_S /\ bound = 61) ->
  is_digit c1 = true -> is_digit c2 = true ->
  group alts k (String c1 (String c2 rest))
  = if two_digits c1 c2 <=? bound
    then match k (two_digits c1 c2) rest with
         | Some a => Some a
         | None => k (digit c1) (String c2 rest)
         end
    else k (digit c1) (String c2 rest).
Proof.
  intros Halts H1 H2.
  pose proof (decimal_digit_ascii c1 (String c2 rest) H1) as D1.
  pose proof (decimal_digit_ascii c2 rest H2) as D2.
  destruct (is_digit_range c1 H1) as [R1 N1].
  destruct (is_digit_range c2 H2) as [R2 N2].
  unfold two_digits.
  destruct Halts as [[-> ->]|[[-> ->]|[-> ->]]];
    unfold directive_H, directive_M, directive_S;
    cbn [group]; unfold pair, in_class; rewrite ?D1, ?D2;
    change (N_of_ascii "0") with 48%N; change (N_of_ascii "1") with 49%N;
    change (N_of_ascii "2") with 50%N; change (N_of_ascii "3") with 51%N;
    change (N_of_ascii "5") with 53%N; change (N_of_ascii "6") with 54%N;
    repeat first
      [ progress cbn [andb]
      | rewrite D2
      | match goal with
        | |- context [(?a <=? ?b)%N] => destruct (N.leb_spec a b)
        end ];
    match goal with
    | |- context [(?a <=? ?b)%Z] => destruct (Z.leb_spec a b) as [Hb|Hb]
    end;
    try (exfalso; lia);
    repeat match goal with
    | |- context [k ?v ?r] => destruct (k v r)
    end; reflexivity.
Qed.

Lemma format_regex_digits (h1 h2 m1 m2 s1 s2 : ascii) (tail : string) :
  Forall (fun c => is_digit c = true) [h1; h2; m1; m2; s1; s2] ->
  format_regex (String h1 (String h2 (String ":" (String m1 (String m2
                  (String ":" (String s1 (String s2 tail))))))))
  = if (two_digits h1 h2 <=? 23) && (two_digits m1 m2 <=? 59)
    then if two_digits s1 s2 <=? 61
         then Some (two_digits h1 h2, two_digits m1 m2, two_digits s1 s2, tail)
         else Some (two_digits h1 h2, two_digits m1 m2, digit s1,
                    String s2 tail)
    else None.
Proof.
  intros Hd.
  repeat match goal with
  | H : Forall _ (_ :: _) |- _ => apply Forall_cons in H as [? ?]
  end.
  unfold format_regex.
  rewrite (group_two_digits directive_H 23) by auto.
  rewrite (colon_digit _ h2) by assumption.
  destruct (two_digits h1 h2 <=? 23); [|reflexivity].
  cbn [colon Ascii.eqb Bool.eqb andb].
  rewrite (group_two_digits directive_M 59) by auto.
  rewrite (colon_digit _ m2) by assumption.
  destruct (two_digits m1 m2 <=? 59); [|reflexivity].
  cbn [colon Ascii.eqb Bool.eqb andb].
  rewrite (group_two_digits directive_S 61) by auto.
  destruct (two_digits s1 s2 <=? 61); reflexivity.
Qed.

(** Of the characters of one byte, the decimal digits are [0-9]. *)
Lemma decimal_ascii (n : N) (v : Z) :
  (n < 128)%N -> decimal n = Some v -> (48 <= n <= 57)%N.
Proof.
  intros Hn. unfold decimal.
  destruct (List.find _ decimal_zeros) as [z|] eqn:E; [|discriminate].
  intros _. apply List.find_some in E as [Hz E].
  apply andb_true_iff in E as [E1 E2].
  apply N.leb_le in E1. apply N.ltb_lt in E2.
  assert (Hz' : z = 48%N \/ (1632 <= z)%N).
  { apply list_elem_of_In in Hz. unfold decimal_zeros in Hz.
    repeat (apply elem_of_cons in Hz as [->|Hz]; [lia|]). inversion Hz. }
  lia.
Qed.

Lemma decimal_digit_byte (c : ascii) :
  (exists v, decimal_digit (String c EmptyString) = Some (v, EmptyString))
  <-> is_digit c = true.
Proof.
  split.
  - intros [v H]. unfold decimal_digit, code_point in H.
    destruct (N_of_ascii c <? 128)%N eqn:E1.
    + destruct (decimal (N_of_ascii c)) as [v'|] eqn:Ev; [|discriminate].
      apply N.ltb_lt in E1. apply (decimal_ascii _ _ E1) in Ev.
      unfold is_digit. apply andb_true_iff. rewrite !N.leb_le. lia.
    + repeat match type of H with
      | context [if ?b then _ else _] => destruct b
      end; discriminate.
  - intros H. exists (digit c). now apply decimal_digit_ascii.
Qed.

(** The parser on a string with three fields. *)
Lemma strptime_fields (s : string) (hh mm ss : Z) :
  fields s = Some (hh, mm, ss) ->
  strptime s
  = if (hh <=? 23) && (mm <=? 59) && (ss <=? 61)
    then Some (3600 * hh + 60 * mm + ss) else None.
Proof.
  intros H. apply fields_inv in H as (h1&h2&m1&m2&s1&s2&->&Hd&->&->&->).
  unfold strptime. rewrite (format_regex_digits _ _ _ _ _ _ _ Hd).
  destruct (_ && _); [|reflexivity].
  destruct (two_digits s1 s2 <=? 61); reflexivity.
Qed.

(** On a string with three fields, the parser's value is the
    elapsed-seconds reading when it has one. *)
Lemma strptime_Some (s : string) (hh mm ss t : Z) :
  fields s = Some (hh, mm, ss) ->
  strptime s = Some t
  <-> hh <= 23 /\ mm <= 59 /\ ss <= 61 /\ t = 3600 * hh + 60 * mm + ss.
Proof.
  intros Hf. rewrite (strptime_fields s hh mm ss Hf).
  destruct (Z.leb_spec hh 23), (Z.leb_spec mm 59), (Z.leb_spec ss 61);
    cbn [andb]; split; try discriminate; try lia.
  - intros [= <-]. auto.
  - now intros (_&_&_&->).
Qed.

Lemma strptime_clock_seconds (s : string) (f : Z * Z * Z) (t : Z) :
  fields s = Some f -> strptime s = Some t -> clock_seconds s = Some t.
Proof.
  destruct f as [[hh mm] ss]. intros Hf Ht.
  apply (strptime_Some s hh mm ss t Hf) in Ht as (_&_&_&->).
  unfold clock_seconds. now rewrite Hf.
Qed.

(** An hour field of 24 or more is refused. *)
Lemma strptime_past_midnight (s : string) (hh mm ss : Z) :
  fields s = Some (hh, mm, ss) -> 24 <= hh -> strptime s = None.
Proof.
  intros Hf Hh. rewrite (strptime_fields s hh mm ss Hf).
  destruct (Z.leb_spec hh 23); [lia|reflexivity].
Qed.

Lemma ascii_compare_digits (a b : ascii) :
  is_digit a = true -> is_digit b = true ->
  Ascii.compare a b = (digit a ?= digit b).
Proof.
  intros [_ Ha]%is_digit_range [_ Hb]%is_digit_range.
  unfold Ascii.compare.
  rewrite <- N2Z.inj_compare, Ha, Hb.
  apply Z.add_compare_mono_l.
Qed.

(** On strings with three fields whose minute and second are below 60,
    the character-by-character order is the order of elapsed seconds. *)
Lemma leb_clock_seconds (s t : string) (x y : Z) :
  sexagesimal s = true -> sexagesimal t = true ->
  clock_seconds s = Some x -> clock_seconds t = Some y ->
  String.leb s t = true <-> x <= y.
Proof.
  unfold sexagesimal, clock_seconds.
  destruct (fields s) as [[[hs ms] ss]|] eqn:Fs; [|discriminate].
  destruct (fields t) as [[[ht mt] st]|] eqn:Ft; [|discriminate].
  intros [Hms Hss]%andb_true_iff [Hmt Hst]%andb_true_iff [= <-] [= <-].
  apply Z.leb_le in Hms, Hss, Hmt, Hst.
  apply fields_inv in Fs as (a1&a2&a3&a4&a5&a6&->&Ha&->&->&->).
  apply fields_inv in Ft as (b1&b2&b3&b4&b5&b6&->&Hb&->&->&->).
  repeat match goal with
  | H : Forall _ (_ :: _) |- _ => apply Forall_cons in H as [? ?]
  end.
  unfold String.leb. cbn [String.compare].
  change (Ascii.compare ":" ":") with Eq. cbv iota.
  rewrite !ascii_compare_digits by assumption.
  repeat match goal with
  | H : is_digit _ = true |- _ => apply is_digit_range in H as [? _]
  end.
  unfold two_digits in *.
  repeat match goal with
  | |- context [?a ?= ?b] => destruct (Z.compare_spec a b)
  end; split; intros; try discriminate; try reflexivity; lia.
Qed.

End ClockFacts.

(* ===================================================================== *)
(** * Facts about buffers *)
(* ===================================================================== *)

Module GeometryFacts.

Import Geometry.

#[local] Open Scope Q_scope.
#[local] Open Scope list_scope.

Lemma Qltb_lt (x y : Q) : Qltb x y = true <-> x < y.
Proof.
  unfold Qltb. rewrite negb_true_iff, <- not_true_iff_false, Qle_bool_iff.
  split; [apply Qnot_le_lt | apply Qlt_not_le].
Qed.

(** ** Rings and their edges *)

Lemma edges_map (f : Point -> Point) (ring : Polygon) :
  edges (map f ring) = map (fun e => (f e.1, f e.2)) (edges ring).
Proof.
  induction ring as [|a [|b ring] IH]; [done..|].
  cbn [map edges] in *. now rewrite IH.
Qed.

Lemma edges_middle (l1 l2 : Polygon) (u v : Point) :
  In (u, v) (edges (l1 ++ u :: v :: l2)).
Proof.
  induction l1 as [|a [|b l1] IH]; cbn [app edges] in *.
  - now left.
  - right. now left.
  - right. exact IH.
Qed.

Lemma last_default (l : Polygon) (a b : Point) :
  l <> [] -> List.last l a = List.last l b.
Proof.
  induction l as [|x [|y l] IH]; intros Hne; [done | done |].
  change (List.last (y :: l) a = List.last (y :: l) b). now apply IH.
Qed.

(** Along a list of directions that starts on one side of [d] and ends on
    the other, two neighbours have [d] between them. *)
Lemma turning_point (d a : Point) (l : Polygon) :
  l <> [] -> 0 <= cross a d -> cross (List.last l a) d <= 0 ->
  exists l1 u v l2,
    a :: l = l1 ++ u :: v :: l2 /\ 0 <= cross u d /\ cross v d <= 0.
Proof.
  revert a. induction l as [|b l IH]; intros a Hne Ha Hlast; [done|].
  destruct (Qlt_le_dec 0 (cross b d)) as [Hb|Hb].
  - destruct l as [|b' l].
    + cbn in Hlast. lra.
    + destruct (IH b) as (l1&u&v&l2&E&Hu&Hv); [done | lra | |].
      { rewrite (last_default _ b a) by done. exact Hlast. }
      exists (a :: l1), u, v, l2. cbn. now rewrite E.
  - exists [], a, b, l. auto.
Qed.

(** ** The table of directions *)

Lemma unit_ring_edges_ok : forallb edge_ok (edges unit_ring) = true.
Proof. vm_compute. reflexivity. Qed.

(** Every edge of the ring joins two points of the unit circle and turns
    left. *)
Lemma unit_ring_edge (u v : Point) :
  In (u, v) (edges unit_ring) ->
  u.1 * u.1 + u.2 * u.2 == 1 /\ v.1 * v.1 + v.2 * v.2 == 1 /\ 0 < cross u v.
Proof.
  intros H. pose proof unit_ring_edges_ok as Hok.
  rewrite forallb_forall in Hok. apply Hok in H.
  unfold edge_ok in H. cbn [fst snd] in H.
  apply andb_true_iff in H as [[H1 H2]%andb_true_iff H3].
  apply Qeq_bool_iff in H1, H2. apply Qltb_lt in H3. auto.
Qed.

(** Whatever the direction [d], some edge of the ring has it between its
    two ends. *)
Lemma unit_ring_sector (d : Point) :
  exists u v, In (u, v) (edges unit_ring) /\ 0 <= cross u d /\ cross v d <= 0.
Proof.
  set (east := (1, 0) : Point).
  destruct (Qlt_le_dec (cross east d) 0) as [Hneg|Hpos].
  - (* the lower half, from the west point round to the east point *)
    destruct (turning_point d (-(1), 0) (tail (drop 32 unit_ring)))
      as (l1&u&v&l2&E&Hu&Hv).
    + now vm_compute.
    + revert Hneg. unfold cross, east. cbn [fst snd]. lra.
    + change (List.last (tail (drop 32 unit_ring)) (- (1), 0)) with (1 # 1, 0 # 1).
      revert Hneg. unfold cross, east. cbn [fst snd]. lra.
    + exists u, v. split; [|auto].
      assert (Hs : unit_ring = take 32 unit_ring ++ (l1 ++ u :: v :: l2))
        by (rewrite <- E; vm_compute; reflexivity).
      rewrite Hs, app_assoc. apply edges_middle.
  - (* the upper half, from the east point round to the west point *)
    destruct (turning_point d (1 # 1, 0 # 1) (tail (take 33 unit_ring)))
      as (l1&u&v&l2&E&Hu&Hv).
    + now vm_compute.
    + revert Hpos. unfold cross, east. cbn [fst snd]. lra.
    + change (List.last (tail (take 33 unit_ring)) (1 # 1, 0 # 1)) with (- (1), 0).
      revert Hpos. unfold cross, east. cbn [fst snd]. lra.
    + exists u, v. split; [|auto].
      assert (Hs : unit_ring = (l1 ++ u :: v :: l2) ++ drop 33 unit_ring)
        by (rewrite <- E; vm_compute; reflexivity).
      rewrite Hs, <- app_assoc. cbn [app]. apply edges_middle.
Qed.

(** ** Containment in a buffer *)

Lemma sq_nonneg (x : Q) : 0 <= x * x.
Proof. nra. Qed.

Lemma dot_le_1 (ux uy vx vy : Q) :
  ux * ux + uy * uy == 1 -> vx * vx + vy * vy == 1 -> ux * vx + uy * vy <= 1.
Proof.
  intros. pose proof (sq_nonneg (ux - vx)). pose proof (sq_nonneg (uy - vy)).
  nra.
Qed.

(** [n] is the squared length of a vector with the coordinates [A / D] and
    [B / D] in a basis of two unit vectors whose scalar product is [c]. *)
Lemma cone_bound (A B D c n r : Q) :
  0 <= A -> 0 <= B -> 0 < D -> 0 < r -> c <= 1 ->
  A + B < r * D ->
  D * D * n == A * A + B * B + 2 * A * B * c ->
  n < r * r.
Proof.
  intros HA HB HD Hr Hc Hsum Hid.
  assert (HAB : 0 <= A * B) by nra.
  assert (HABc : A * B * c <= A * B) by nra.
  assert (H1 : D * D * n <= (A + B) * (A + B)) by nra.
  assert (H2 : (A + B) * (A + B) < (r * D) * (r * D)) by nra.
  assert (HD2 : 0 < D * D) by nra.
  assert (H3 : D * D * n < D * D * (r * r)) by nra.
  nra.
Qed.

(** A point between the two ends of a chord of the circle of radius [r],
    and on the centre's side of the chord, is closer than [r] to the
    centre. *)
Lemma chord_inside (u v d : Point) (r : Q) :
  u.1 * u.1 + u.2 * u.2 == 1 -> v.1 * v.1 + v.2 * v.2 == 1 ->
  0 < cross u v -> 0 < r ->
  0 <= cross u d -> cross v d <= 0 ->
  - cross (vec u v) d < r * cross u v ->
  d.1 * d.1 + d.2 * d.2 < r * r.
Proof.
  destruct u as [ux uy], v as [vx vy], d as [dx dy].
  unfold cross, vec. cbn [fst snd]. intros Hu Hv HD Hr HB HA He.
  apply (cone_bound (vy * dx - vx * dy) (ux * dy - uy * dx)
           (ux * vy - uy * vx) (ux * vx + uy * vy)).
  - lra.
  - lra.
  - lra.
  - lra.
  - now apply dot_le_1.
  - lra.
  - assert (Hid : (ux * vy - uy * vx) * (ux * vy - uy * vx) * (dx * dx + dy * dy)
        == (vy * dx - vx * dy) * (vy * dx - vx * dy) * (ux * ux + uy * uy)
           + (ux * dy - uy * dx) * (ux * dy - uy * dx) * (vx * vx + vy * vy)
           + 2 * (vy * dx - vx * dy) * (ux * dy - uy * dx) * (ux * vx + uy * vy))
      by ring.
    rewrite Hid, Hu, Hv. ring.
Qed.

(** The edge test of a buffer, in terms of the direction table. *)
Lemma left_of_scaled (c p u v : Point) (r : Q) :
  0 < r ->
  left_of (scale c r u, scale c r v) p = true
  <-> - cross (vec u v) (vec c p) < r * cross u v.
Proof.
  intros Hr. unfold left_of. rewrite Qltb_lt.
  assert (E : cross (vec (scale c r u, scale c r v).1 (scale c r u, scale c r v).2)
                    (vec (scale c r u, scale c r v).1 p)
              == r * (r * cross u v + cross (vec u v) (vec c p))).
  { destruct c, p, u, v. unfold cross, vec, scale. cbn [fst snd]. ring. }
  rewrite E. split; intros H; nra.
Qed.

Lemma inject_Z_pos (r : Z) : (0 < r)%Z -> 0 < inject_Z r.
Proof. intros H. change 0 with (inject_Z 0). now rewrite <- Zlt_Qlt. Qed.

(** Being within a buffer, edge by edge. *)
Lemma within_buffer_iff (c p : Point) (r : Z) :
  within p (buffer c r) = true
  <-> (0 < r)%Z
      /\ forall u v, In (u, v) (edges unit_ring) ->
           - cross (vec u v) (vec c p) < inject_Z r * cross u v.
Proof.
  unfold buffer. destruct (Z.leb_spec r 0) as [Hr|Hr].
  - cbn. split; [discriminate | lia].
  - pose proof (inject_Z_pos r Hr) as Hq.
    assert (Hw : within p (map (scale c (inject_Z r)) unit_ring)
                 = forallb (fun e => left_of e p)
                     (edges (map (scale c (inject_Z r)) unit_ring))).
    { unfold within. now destruct (map _ unit_ring) eqn:E. }
    rewrite Hw, edges_map, forallb_forall. split.
    + intros H. split; [exact Hr|]. intros u v Huv.
      apply (left_of_scaled c p u v _ Hq). apply H.
      apply in_map_iff. now exists (u, v).
    + intros [_ H] e He. apply in_map_iff in He as ([u v]&<-&Huv).
      apply (left_of_scaled c p u v _ Hq). auto.
Qed.

(** Whatever is within a buffer is closer to its centre than the radius. *)
Lemma within_buffer_inside (c p : Point) (r : Z) :
  within p (buffer c r) = true ->
  (0 < r)%Z /\ dist2 c p < inject_Z r * inject_Z r.
Proof.
  intros [Hr H]%within_buffer_iff. split; [exact Hr|].
  destruct (unit_ring_sector (vec c p)) as (u&v&Huv&Hu&Hv).
  destruct (unit_ring_edge u v Huv) as (Nu&Nv&HD).
  apply (chord_inside u v (vec c p) (inject_Z r) Nu Nv HD
           (inject_Z_pos r Hr) Hu Hv (H u v Huv)).
Qed.

(** A larger buffer around the same point holds whatever a smaller one
    does. *)
Lemma within_buffer_mono (c p : Point) (r1 r2 : Z) :
  (r1 <= r2)%Z -> within p (buffer c r1) = true -> within p (buffer c r2) = true.
Proof.
  intros Hle [Hr H]%within_buffer_iff. apply within_buffer_iff.
  split; [lia|]. intros u v Huv.
  destruct (unit_ring_edge u v Huv) as (_&_&HD).
  specialize (H u v Huv).
  assert (inject_Z r1 <= inject_Z r2) by now rewrite <- Zle_Qle.
  nra.
Qed.

Lemma unit_ring_edges_far : forallb edge_far (edges unit_ring) = true.
Proof. vm_compute. reflexivity. Qed.

Lemma cross_bound (w d : Point) (m r D : Q) :
  0 < r -> 0 < D -> 0 <= m ->
  d.1 * d.1 + d.2 * d.2 < m * (r * r) ->
  m * (w.1 * w.1 + w.2 * w.2) < D * D ->
  - cross w d < r * D.
Proof.
  destruct w as [wx wy], d as [dx dy]. unfold cross. cbn [fst snd].
  intros Hr HD Hm Hd Hw.
  destruct (Qlt_le_dec 0 (- (wx * dy - wy * dx))) as [Hpos|Hneg]; [|nra].
  assert (Hlag : (wx * dy - wy * dx) * (wx * dy - wy * dx)
                 <= (wx * wx + wy * wy) * (dx * dx + dy * dy)).
  { pose proof (sq_nonneg (wx * dx + wy * dy)). nra. }
  pose proof (sq_nonneg wx). pose proof (sq_nonneg wy).
  assert (H1 : (wx * wx + wy * wy) * (dx * dx + dy * dy)
               <= (wx * wx + wy * wy) * (m * (r * r))) by nra.
  assert (H2 : m * (wx * wx + wy * wy) * (r * r) < D * D * (r * r)) by nra.
  assert (H3 : (wx * dy - wy * dx) * (wx * dy - wy * dx) < (r * D) * (r * D))
    by nra.
  assert (0 < r * D) by nra.
  nra.
Qed.

(** Whatever is closer to the centre than 499/500 of the radius is within
    the buffer. *)
Lemma disc_in_buffer (c p : Point) (r : Z) :
  (0 < r)%Z ->
  dist2 c p < inner * inner * (inject_Z r * inject_Z r) ->
  within p (buffer c r) = true.
Proof.
  intros Hr Hd. apply within_buffer_iff. split; [exact Hr|].
  intros u v Huv.
  destruct (unit_ring_edge u v Huv) as (_&_&HD).
  pose proof unit_ring_edges_far as Hfar.
  rewrite forallb_forall in Hfar. apply Hfar in Huv.
  unfold edge_far in Huv. cbn [fst snd] in Huv. apply Qltb_lt in Huv.
  apply (cross_bound (vec u v) (vec c p) (inner * inner)).
  - now apply inject_Z_pos.
  - exact HD.
  - now vm_compute.
  - exact Hd.
  - exact Huv.
Qed.

Lemma buffer_nonpositive (c p : Point) (r : Z) :
  (r <= 0)%Z -> within p (buffer c r) = false.
Proof.
  intros Hr. destruct (within p (buffer c r)) eqn:E; [|done].
  apply within_buffer_iff in E as [? _]. lia.
Qed.

(** ** Rings up to rounding *)
























Lemma Forall2_edges (P : Point -> Point -> Prop) (l k : Polygon) :
  Forall2 P l k ->
  Forall2 (fun e e' => P e.1 e'.1 /\ P e.2 e'.2) (edges l) (edges k).
Proof.
  intros H. induction H as [|a a' l k Ha H IH]; [constructor|].
  destruct H as [|b b' l k Hb H]; [constructor|].
  cbn [edges]. constructor; [done|exact IH].
Qed.




End GeometryFacts.

(* ===================================================================== *)
(** * Facts about the pairing loop *)
(* ===================================================================== *)

Module PairingFacts.

Import Clock Geometry Engine.

#[local] Open Scope list_scope.
#[local] Open Scope Z_scope.

(** ** Loops that only append *)

Lemma for_each_collect {A B : Type} (g : A -> result (list B))
    (body : A -> list B -> result (list B)) (rows : list A) (s : list B) :
  (forall row s, body row s = (l ← g row; mret (s ++ l))) ->
  for_each rows body s = (l ← collect g rows; mret (s ++ l)).
Proof.
  intros Hbody. revert s. induction rows as [|row rest IH]; intros s; cbn.
  - unfold mret, result_ret. now rewrite app_nil_r.
  - rewrite Hbody. destruct (g row) as [l|e]; cbn; [|done].
    rewrite IH. destruct (collect g rest) as [ls|e]; cbn; [|done].
    unfold mret, result_ret. now rewrite app_assoc.
Qed.

(** The loop completes exactly when every turn does. *)
Lemma collect_Ok {A B : Type} (g : A -> result (list B)) (rows : list A) :
  (exists l, collect g rows = Ok l)
  <-> forall row, row ∈ rows -> exists l, g row = Ok l.
Proof.
  induction rows as [|row rest IH]; cbn.
  - split; [intros _ r Hr; inversion Hr | eauto].
  - split.
    + intros [l Hl] r Hr.
      destruct (g row) as [l0|e] eqn:Eg; cbn in Hl; [|discriminate].
      destruct (collect g rest) as [ls|e] eqn:Ec; cbn in Hl; [|discriminate].
      apply elem_of_cons in Hr as [->|Hr]; [eauto|].
      apply IH; eauto.
    + intros H. destruct (H row) as [l0 ->]; [left|]. cbn.
      destruct (proj2 IH) as [ls ->]; [|cbn; eauto].
      intros r Hr. apply H. now right.
Qed.

(** What it has added then: what its turns added. *)
Lemma collect_elem_of {A B : Type} (g : A -> result (list B)) (rows : list A)
    (l : list B) (x : B) :
  collect g rows = Ok l ->
  x ∈ l <-> exists row lr, row ∈ rows /\ g row = Ok lr /\ x ∈ lr.
Proof.
  revert l. induction rows as [|row rest IH]; intros l; cbn.
  - intros [= <-]. split; [intros H; inversion H|].
    intros (?&?&H&_). inversion H.
  - destruct (g row) as [l0|e] eqn:Eg; cbn; [|discriminate].
    destruct (collect g rest) as [ls|e] eqn:Ec; cbn; [|discriminate].
    intros [= <-]. rewrite elem_of_app, (IH ls eq_refl). split.
    + intros [H|(r&lr&Hr&Hg&Hx)].
      * exists row, l0. split; [left|]. auto.
      * exists r, lr. split; [now right|]. auto.
    + intros (r&lr&Hr&Hg&Hx). apply elem_of_cons in Hr as [->|Hr].
      * left. rewrite Eg in Hg. now injection Hg as ->.
      * right. eauto.
Qed.

(** It ends as the first of its turns that ends in an exception. *)
Lemma collect_Raise {A B : Type} (g : A -> result (list B)) (rows : list A)
    (e : exn) :
  collect g rows = Raise e -> exists row, row ∈ rows /\ g row = Raise e.
Proof.
  induction rows as [|row rest IH]; cbn; [discriminate|].
  destruct (g row) as [l|e'] eqn:Eg; cbn.
  - destruct (collect g rest) as [ls|e'']; cbn; [discriminate|].
    intros [= <-]. destruct (IH eq_refl) as (r&Hr&Hg).
    exists r. split; [now right|done].
  - intros [= <-]. exists row. split; [left|done].
Qed.

(** ** The three loops *)

Lemma bind_mret {A : Type} (m : result A) : (x ← m; mret x) = m.
Proof. now destruct m. Qed.

Lemma calculate_transfers_collect (nearby : list NearRow)
    (ion_times bus_times : list TimeRow) (max_transfer : Z) :
  calculate_transfers nearby ion_times bus_times max_transfer
  = collect (pair_turn ion_times bus_times max_transfer) nearby.
Proof.
  unfold calculate_transfers.
  rewrite (for_each_collect (pair_turn ion_times bus_times max_transfer)).
  - cbn [app]. apply bind_mret.
  - intros row s. unfold pair_turn. cbv zeta.
    destruct (_ || _).
    + cbn. unfold mret, result_ret. now rewrite app_nil_r.
    + apply for_each_collect. intros i_row s'. unfold arrival_turn.
      destruct (to_datetime (arrival_time i_row)) as [ion_time|e]; cbn; [|done].
      apply for_each_collect. intros b_row s''. unfold bus_turn.
      destruct (to_datetime (departure_time b_row)) as [bus_time|e]; cbn; [|done].
      destruct (in_window _ _); unfold mret, result_ret; [done|].
      now rewrite app_nil_r.
Qed.

(** ** The wait-time test *)

(** The comparison of [diff_minutes] with the threshold, in seconds. *)
Lemma in_window_seconds (d a max_transfer : Z) :
  in_window (diff_minutes (Some d) (Some a)) max_transfer = true
  <-> 0 <= d - a <= 60 * max_transfer.
Proof.
  unfold in_window, diff_minutes.
  rewrite andb_true_iff, !Qle_bool_iff.
  unfold Qle, Qdiv, Qmult, Qinv, inject_Z. cbn. lia.
Qed.

Lemma in_window_minutes (d a max_transfer : Z) :
  in_window (diff_minutes (Some d) (Some a)) max_transfer = true
  <-> (0 <= inject_Z (d - a) / 60 /\ inject_Z (d - a) / 60 <= inject_Z max_transfer)%Q.
Proof.
  unfold in_window, diff_minutes. now rewrite andb_true_iff, !Qle_bool_iff.
Qed.

Lemma in_window_Some (bus_time ion_time : option Z) (max_transfer : Z) :
  in_window (diff_minutes bus_time ion_time) max_transfer = true ->
  exists d a, bus_time = Some d /\ ion_time = Some a.
Proof. destruct bus_time, ion_time; cbn; try discriminate. eauto. Qed.

(** ** Which records the loop adds, and when it completes *)

(** A string with three fields is not one that stands for a missing
    time. *)
Lemma fields_not_nat (s : string) (f : Z * Z * Z) :
  fields s = Some f -> bool_decide (s = "" \/ s ∈ nat_strings) = false.
Proof.
  destruct f as [[hh mm] ss].
  intros (h1&h2&m1&m2&s1&s2&->&_)%ClockFacts.fields_inv.
  apply bool_decide_eq_false. intros [?|Hin]; [discriminate|].
  unfold nat_strings in Hin.
  repeat (apply elem_of_cons in Hin as [?|Hin]; [discriminate|]).
  inversion Hin.
Qed.

Lemma to_datetime_fields (s : string) (f : Z * Z * Z) :
  fields s = Some f ->
  to_datetime (Some s)
  = match strptime s with
    | Some t => Ok (Some t)
    | None => Raise (ValueError s)
    end.
Proof. intros Hf. unfold to_datetime. now rewrite (fields_not_nat s f). Qed.

(** For cells with three fields that the parser takes, the wait is the
    difference of the elapsed-seconds readings; an hour field of 24 or more
    raises, and no value of the parser is past 24:00:01. *)
Lemma to_datetime_elapsed (s : string) (f : Z * Z * Z) (t : Z) :
  fields s = Some f ->
  to_datetime (Some s) = Ok (Some t) -> clock_seconds s = Some t.
Proof.
  intros Hf. rewrite (to_datetime_fields s f Hf).
  destruct (strptime s) as [t'|] eqn:E; [|discriminate].
  intros [= <-]. now apply (ClockFacts.strptime_clock_seconds s f).
Qed.

Lemma to_datetime_past_midnight (s : string) (hh mm ss : Z) :
  fields s = Some (hh, mm, ss) -> 24 <= hh ->
  to_datetime (Some s) = Raise (ValueError s).
Proof.
  intros Hf Hh. rewrite (to_datetime_fields s _ Hf).
  now rewrite (ClockFacts.strptime_past_midnight s hh mm ss).
Qed.

(** Every time that the parser returns is the sum of the three fields
    that the format's expression matched: an hour up to 23, a minute up to
    59 and a second up to 61, hence at most 24:00:01. *)
Lemma to_datetime_value (cell : option string) (t : Z) :
  to_datetime cell = Ok (Some t) ->
  exists s hh mm ss,
    cell = Some s /\ format_regex s = Some (hh, mm, ss, EmptyString)
    /\ 0 <= hh <= 23 /\ 0 <= mm <= 59 /\ 0 <= ss <= 61
    /\ t = 3600 * hh + 60 * mm + ss /\ 0 <= t <= 86401.
Proof.
  unfold to_datetime. destruct cell as [s|]; [|discriminate].
  destruct (bool_decide _); [discriminate|].
  unfold strptime.
  destruct (format_regex s) as [[[[hh mm] ss] rest]|] eqn:E; [|discriminate].
  destruct rest; [|discriminate]. intros [= <-].
  pose proof (ClockFacts.format_regex_range _ _ _ _ _ E) as (?&?&?).
  exists s, hh, mm, ss. repeat split; try lia; done.
Qed.

Lemma length_zero_false {A : Type} (l : list A) :
  (length l =? 0)%nat = false <-> l <> [].
Proof. destruct l; cbn; split; intros H; try done. Qed.

Lemma guard_false {A : Type} (l1 l2 : list A) :
  (length l1 =? 0)%nat || (length l2 =? 0)%nat = false <-> l1 <> [] /\ l2 <> [].
Proof. now rewrite orb_false_iff, !length_zero_false. Qed.

Lemma bus_turn_elem (sid : string) (ion_time : option Z) (max_transfer : Z)
    (b_row : TimeRow) (lb : list Transfer) (t : Transfer) :
  bus_turn sid ion_time max_transfer b_row = Ok lb ->
  t ∈ lb <->
  exists a d, ion_time = Some a
    /\ to_datetime (departure_time b_row) = Ok (Some d)
    /\ in_window (diff_minutes (Some d) (Some a)) max_transfer = true
    /\ t = mkTransfer sid (route_id b_row).
Proof.
  unfold bus_turn.
  destruct (to_datetime (departure_time b_row)) as [bus_time|e]; cbn;
    [|discriminate].
  destruct (in_window (diff_minutes bus_time ion_time) max_transfer) eqn:W;
    intros [= <-].
  - destruct (in_window_Some _ _ _ W) as (d&a&->&->).
    rewrite list_elem_of_singleton. split.
    + intros ->. exists a, d. auto.
    + now intros (?&?&_&_&_&->).
  - split; [intros H; inversion H|].
    intros (a&d&->&[= ->]&W'&_). cbn in W. congruence.
Qed.

Lemma arrival_turn_elem (sid : string) (bus_dep : list TimeRow)
    (max_transfer : Z) (i_row : TimeRow) (li : list Transfer) (t : Transfer) :
  arrival_turn sid bus_dep max_transfer i_row = Ok li ->
  t ∈ li <->
  exists b_row, b_row ∈ bus_dep /\ qualifies max_transfer i_row b_row
    /\ t = mkTransfer sid (route_id b_row).
Proof.
  unfold arrival_turn, qualifies.
  destruct (to_datetime (arrival_time i_row)) as [ion_time|e]; cbn;
    [|discriminate].
  intros Hc. rewrite (collect_elem_of _ _ _ _ Hc). split.
  - intros (b_row&lb&Hb&Hturn&Ht).
    apply (bus_turn_elem _ _ _ _ _ _ Hturn) in Ht as (a&d&->&Hd&W&->).
    exists b_row. split; [done|]. split; [|done]. exists a, d. auto.
  - intros (b_row&Hb&(a&d&[= ->]&Hd&W)&->).
    destruct (proj1 (collect_Ok _ _) (ex_intro _ _ Hc) b_row Hb) as [lb Hlb].
    exists b_row, lb. split; [done|]. split; [done|].
    apply (bus_turn_elem _ _ _ _ _ _ Hlb). exists a, d. auto.
Qed.

Lemma pair_turn_elem (ion_times bus_times : list TimeRow) (max_transfer : Z)
    (row : NearRow) (lr : list Transfer) (t : Transfer) :
  pair_turn ion_times bus_times max_transfer row = Ok lr ->
  t ∈ lr <->
  exists i_row b_row, meets ion_times bus_times row i_row b_row
    /\ qualifies max_transfer i_row b_row
    /\ t = mkTransfer (stop_id_right row) (route_id b_row).
Proof.
  unfold pair_turn, meets. cbv zeta.
  destruct (_ || _) eqn:G.
  - intros [= <-]. split; [intros H; inversion H|].
    intros (i_row&b_row&(Hi&Hir&Hb&Hbr)&_).
    apply orb_true_iff in G as [G|G]; apply Nat.eqb_eq, nil_length_inv in G.
    + assert (Hin : i_row ∈ filter (fun t => at_stop_id t = stop_id_right row)
                             ion_times) by now apply list_elem_of_filter.
      rewrite G in Hin. inversion Hin.
    + assert (Hin : b_row ∈ filter (fun t => at_stop_id t = stop_id_left row)
                             bus_times) by now apply list_elem_of_filter.
      rewrite G in Hin. inversion Hin.
  - intros Hc. rewrite (collect_elem_of _ _ _ _ Hc). split.
    + intros (i_row&li&Hi&Hturn&Ht).
      apply (arrival_turn_elem _ _ _ _ _ _ Hturn) in Ht as (b_row&Hb&Hq&->).
      apply list_elem_of_filter in Hi as [? ?], Hb as [? ?].
      exists i_row, b_row. auto.
    + intros (i_row&b_row&(Hi&Hir&Hb&Hbr)&Hq&->).
      assert (Hi' : i_row ∈ filter (fun t => at_stop_id t = stop_id_right row)
                              ion_times) by now apply list_elem_of_filter.
      destruct (proj1 (collect_Ok _ _) (ex_intro _ _ Hc) i_row Hi') as [li Hli].
      exists i_row, li. split; [done|]. split; [done|].
      apply (arrival_turn_elem _ _ _ _ _ _ Hli).
      exists b_row. split; [now apply list_elem_of_filter|]. auto.
Qed.

(** The records of a run that completes: one reason for each is an
    arrival and a departure that meet at a row of [nearby] and qualify. *)
Lemma calculate_transfers_elem (nearby : list NearRow)
    (ion_times bus_times : list TimeRow) (max_transfer : Z)
    (transfers : list Transfer) (t : Transfer) :
  calculate_transfers nearby ion_times bus_times max_transfer = Ok transfers ->
  t ∈ transfers <->
  exists row i_row b_row,
    row ∈ nearby /\ meets ion_times bus_times row i_row b_row
    /\ qualifies max_transfer i_row b_row
    /\ t = mkTransfer (stop_id_right row) (route_id b_row).
Proof.
  rewrite calculate_transfers_collect. intros Hc.
  rewrite (collect_elem_of _ _ _ _ Hc). split.
  - intros (row&lr&Hrow&Hturn&Ht).
    apply (pair_turn_elem _ _ _ _ _ _ Hturn) in Ht as (i_row&b_row&?&?&?).
    exists row, i_row, b_row. auto.
  - intros (row&i_row&b_row&Hrow&Hm&Hq&->).
    destruct (proj1 (collect_Ok _ _) (ex_intro _ _ Hc) row Hrow) as [lr Hlr].
    exists row, lr. split; [done|]. split; [done|].
    apply (pair_turn_elem _ _ _ _ _ _ Hlr). exists i_row, b_row. auto.
Qed.

Lemma bus_turn_Ok (sid : string) (ion_time : option Z) (max_transfer : Z)
    (b_row : TimeRow) :
  (exists lb, bus_turn sid ion_time max_transfer b_row = Ok lb)
  <-> parses (departure_time b_row).
Proof.
  unfold bus_turn, parses.
  destruct (to_datetime (departure_time b_row)) as [bus_time|e]; cbn.
  - split; eauto.
  - split; intros [? ?]; discriminate.
Qed.

Lemma pair_turn_Ok (ion_times bus_times : list TimeRow) (max_transfer : Z)
    (row : NearRow) :
  (exists lr, pair_turn ion_times bus_times max_transfer row = Ok lr)
  <-> forall i_row b_row, meets ion_times bus_times row i_row b_row ->
        parses (arrival_time i_row) /\ parses (departure_time b_row).
Proof.
  unfold pair_turn, meets. cbv zeta.
  destruct (_ || _) eqn:G.
  - split; [|eauto]. intros _ i_row b_row (Hi&Hir&Hb&Hbr).
    apply orb_true_iff in G as [G|G]; apply Nat.eqb_eq, nil_length_inv in G.
    + assert (Hin : i_row ∈ filter (fun t => at_stop_id t = stop_id_right row)
                             ion_times) by now apply list_elem_of_filter.
      rewrite G in Hin. inversion Hin.
    + assert (Hin : b_row ∈ filter (fun t => at_stop_id t = stop_id_left row)
                             bus_times) by now apply list_elem_of_filter.
      rewrite G in Hin. inversion Hin.
  - apply guard_false in G as [Gi Gb]. rewrite collect_Ok. split.
    + intros H i_row b_row (Hi&Hir&Hb&Hbr).
      destruct (H i_row) as [li Hli]; [now apply list_elem_of_filter|].
      unfold arrival_turn in Hli.
      destruct (to_datetime (arrival_time i_row)) as [ion_time|e] eqn:Ea;
        cbn in Hli; [|discriminate].
      split; [now exists ion_time|].
      apply (bus_turn_Ok (stop_id_right row) ion_time max_transfer).
      apply (proj1 (collect_Ok _ _) (ex_intro _ _ Hli)).
      now apply list_elem_of_filter.
    + intros H i_row [Hi Hir]%list_elem_of_filter.
      destruct (filter _ bus_times) as [|b0 bus_dep] eqn:Eb; [done|].
      assert (Hb0 : b0 ∈ filter (fun t => at_stop_id t = stop_id_left row)
                             bus_times) by (rewrite Eb; left).
      apply list_elem_of_filter in Hb0 as [Hb0r Hb0].
      destruct (H i_row b0) as [[ion_time Ha] _]; [done|].
      unfold arrival_turn. rewrite Ha. cbn [mbind result_bind].
      apply collect_Ok. intros b_row Hb. apply bus_turn_Ok.
      assert (Hb' : b_row ∈ filter (fun t => at_stop_id t = stop_id_left row)
                             bus_times) by now rewrite Eb.
      apply list_elem_of_filter in Hb' as [? ?].
      now apply (H i_row b_row).
Qed.

Lemma collect_flat_map {A B : Type} (g : A -> result (list B))
    (h : A -> list B) (rows : list A) (l : list B) :
  (forall row lr, row ∈ rows -> g row = Ok lr -> lr = h row) ->
  collect g rows = Ok l -> l = flat_map h rows.
Proof.
  revert l. induction rows as [|row rest IH]; intros l Hg; cbn.
  - now intros [= <-].
  - destruct (g row) as [lr|e] eqn:Eg; cbn; [|discriminate].
    destruct (collect g rest) as [ls|e] eqn:Ec; cbn; [|discriminate].
    intros [= <-]. f_equal.
    + apply Hg; [left|done].
    + apply IH; [|done]. intros r lr' Hr. apply Hg. now right.
Qed.

Lemma emitted_qualifies (max_transfer : Z) (i_row b_row : TimeRow) :
  emitted max_transfer i_row b_row = true <-> qualifies max_transfer i_row b_row.
Proof.
  unfold emitted, qualifies.
  destruct (to_datetime (arrival_time i_row)) as [ion_time|e1];
    [|split; [discriminate | now intros (?&?&?&_)]].
  destruct (to_datetime (departure_time b_row)) as [bus_time|e2];
    [|split; [discriminate | now intros (?&?&_&?&_)]].
  split.
  - intros W. destruct (in_window_Some _ _ _ W) as (d&a&->&->). eauto.
  - now intros (a&d&[= ->]&[= ->]&W).
Qed.

(** The records of a run that completes, with their order and their
    repetitions. *)
Lemma calculate_transfers_opportunities (nearby : list NearRow)
    (ion_times bus_times : list TimeRow) (max_transfer : Z)
    (transfers : list Transfer) :
  calculate_transfers nearby ion_times bus_times max_transfer = Ok transfers ->
  transfers = opportunities nearby ion_times bus_times max_transfer.
Proof.
  rewrite calculate_transfers_collect. apply collect_flat_map.
  intros row lr _. unfold pair_turn. cbv zeta.
  destruct (_ || _) eqn:G.
  - intros [= <-].
    apply orb_true_iff in G as [G|G]; apply Nat.eqb_eq, nil_length_inv in G;
      rewrite G; [done|].
    induction (filter _ ion_times) as [|i_row li IH]; [done|]. cbn. exact IH.
  - apply collect_flat_map. intros i_row li _. unfold arrival_turn.
    destruct (to_datetime (arrival_time i_row)) as [ion_time|e] eqn:Ea; cbn;
      [|discriminate].
    apply collect_flat_map. intros b_row lb _. unfold bus_turn, emitted.
    rewrite Ea.
    destruct (to_datetime (departure_time b_row)) as [bus_time|e]; cbn;
      [|discriminate].
    now intros [= <-].
Qed.

Lemma to_datetime_Raise (cell : option string) (e : exn) :
  to_datetime cell = Raise e ->
  exists s, cell = Some s /\ strptime s = None /\ e = ValueError s.
Proof.
  unfold to_datetime. destruct cell as [s|]; [|discriminate].
  destruct (bool_decide _); [discriminate|].
  destruct (strptime s) eqn:E; [discriminate|]. intros [= <-]. eauto.
Qed.

(** The one exception of the loop: the [ValueError] of a cell, among the
    arrivals and departures, that the parser refuses. *)
Lemma calculate_transfers_Raise (nearby : list NearRow)
    (ion_times bus_times : list TimeRow) (max_transfer : Z) (e : exn) :
  calculate_transfers nearby ion_times bus_times max_transfer = Raise e ->
  exists s, e = ValueError s /\ strptime s = None
    /\ ((exists i_row, i_row ∈ ion_times /\ arrival_time i_row = Some s)
        \/ (exists b_row, b_row ∈ bus_times /\ departure_time b_row = Some s)).
Proof.
  rewrite calculate_transfers_collect.
  intros (row&_&Hp)%collect_Raise. unfold pair_turn in Hp. cbv zeta in Hp.
  destruct (_ || _); [discriminate|].
  apply collect_Raise in Hp as (i_row&[_ Hi]%list_elem_of_filter&Ha).
  unfold arrival_turn in Ha.
  destruct (to_datetime (arrival_time i_row)) as [ion_time|e'] eqn:Ei;
    cbn in Ha.
  - apply collect_Raise in Ha as (b_row&[_ Hb]%list_elem_of_filter&Hd).
    unfold bus_turn in Hd.
    destruct (to_datetime (departure_time b_row)) as [bus_time|e'] eqn:Eb;
      cbn in Hd; [discriminate|].
    injection Hd as ->.
    apply to_datetime_Raise in Eb as (s&Hs&Hnone&->). eauto 10.
  - injection Ha as ->.
    apply to_datetime_Raise in Ei as (s&Hs&Hnone&->). eauto 10.
Qed.

(** The run completes exactly when every cell it reads can be read. *)
Lemma calculate_transfers_Ok (nearby : list NearRow)
    (ion_times bus_times : list TimeRow) (max_transfer : Z) :
  (exists transfers,
     calculate_transfers nearby ion_times bus_times max_transfer = Ok transfers)
  <-> forall row i_row b_row,
        row ∈ nearby -> meets ion_times bus_times row i_row b_row ->
        parses (arrival_time i_row) /\ parses (departure_time b_row).
Proof.
  rewrite calculate_transfers_collect, collect_Ok. split.
  - intros H row i_row b_row Hrow.
    apply (proj1 (pair_turn_Ok _ _ _ _) (H row Hrow)).
  - intros H row Hrow. apply pair_turn_Ok. intros i_row b_row. now apply H.
Qed.

End PairingFacts.

(* ===================================================================== *)
(** * Facts about the aggregation *)
(* ===================================================================== *)

Module AggregationFacts.

Import Clock Geometry Engine PairingFacts.

#[local] Set Warnings "-clear-no-such-hyp".

#[local] Open Scope list_scope.

Lemma routes_at_cons (s : string) (t : Transfer) (transfers : list Transfer) :
  routes_at s (t :: transfers)
  = if decide (ion_stop_id t = s) then bus_route_id t :: routes_at s transfers
    else routes_at s transfers.
Proof. unfold routes_at. rewrite filter_cons. now destruct (decide _). Qed.

Lemma elem_of_routes_at (s r : string) (transfers : list Transfer) :
  r ∈ routes_at s transfers <-> mkTransfer s r ∈ transfers.
Proof.
  unfold routes_at. rewrite list_elem_of_fmap. split.
  - intros ([s' r']&->&[Hs Ht]%list_elem_of_filter). cbn in *. now subst.
  - intros H. exists (mkTransfer s r). split; [done|].
    now apply list_elem_of_filter.
Qed.

Lemma groups_foldl (transfers : list Transfer) (g : gmap string (gset string))
    (s : string) :
  foldl (fun g t =>
           <[ion_stop_id t :=
               {[bus_route_id t]} ∪ default ∅ (g !! ion_stop_id t)]> g)
        g transfers !! s
  = match routes_at s transfers with
    | [] => g !! s
    | l => Some (list_to_set l ∪ default ∅ (g !! s))
    end.
Proof.
  revert g. induction transfers as [|t transfers IH]; intros g; [done|].
  cbn [foldl]. rewrite IH, routes_at_cons.
  destruct (decide (ion_stop_id t = s)) as [<-|Hne].
  - rewrite lookup_insert_eq. cbn [default].
    destruct (routes_at (ion_stop_id t) transfers) as [|r l]; f_equal;
      set_solver.
  - now rewrite lookup_insert_ne.
Qed.

Lemma groups_lookup (transfers : list Transfer) (s : string) :
  groups transfers !! s
  = match routes_at s transfers with
    | [] => None
    | l => Some (list_to_set l)
    end.
Proof.
  unfold groups. rewrite groups_foldl, lookup_empty. cbn [default].
  destruct (routes_at s transfers); [done|]. f_equal. set_solver.
Qed.

(** The series of the counts: defined where the stop has a record. *)
Lemma groupby_nunique_lookup (transfers : list Transfer) (s : string) :
  groupby_nunique transfers !! s
  = match routes_at s transfers with
    | [] => None
    | _ => Some (count_at transfers s)
    end.
Proof.
  unfold groupby_nunique, count_at. rewrite lookup_fmap, groups_lookup.
  now destruct (routes_at s transfers).
Qed.

Lemma groupby_nunique_default (transfers : list Transfer) (s : string) :
  default 0%nat (groupby_nunique transfers !! s) = count_at transfers s.
Proof.
  rewrite groupby_nunique_lookup. unfold count_at.
  now destruct (routes_at s transfers).
Qed.

(** ** The left merge *)

Lemma filter_key_nodup {V : Type} (l : list (string * V)) (k : string) :
  NoDup l.*1 ->
  filter (fun r => r.1 = k) l
  = match (list_to_map l : gmap string V) !! k with
    | Some v => [(k, v)]
    | None => []
    end.
Proof.
  intros Hnd. induction l as [|[k' v'] l IH]; [done|].
  cbn in Hnd. apply NoDup_cons in Hnd as [Hk' Hnd].
  rewrite filter_cons, list_to_map_cons. cbn [fst].
  destruct (decide (k' = k)) as [->|Hne].
  - rewrite lookup_insert_eq, (IH Hnd).
    destruct (list_to_map l !! k) as [v|] eqn:E; [|done].
    exfalso. apply Hk'. apply list_elem_of_fmap. exists (k, v). split; [done|].
    now apply elem_of_list_to_map.
  - rewrite lookup_insert_ne by done. apply (IH Hnd).
Qed.

Lemma filter_key_map_to_list (m : gmap string nat) (k : string) :
  filter (fun r => r.1 = k) (map_to_list m)
  = match m !! k with
    | Some v => [(k, v)]
    | None => []
    end.
Proof.
  rewrite filter_key_nodup by apply NoDup_fst_map_to_list.
  now rewrite list_to_map_to_list.
Qed.

Lemma xfer_counts_filter (transfers : list Transfer) (k : string) :
  filter (fun r => r.1 = k) (xfer_counts transfers)
  = match groupby_nunique transfers !! k with
    | Some v => [(k, v)]
    | None => []
    end.
Proof.
  unfold xfer_counts. destruct transfers as [|t transfers].
  - now rewrite groupby_nunique_lookup.
  - apply filter_key_map_to_list.
Qed.

(** [output] has one row for every row of [ion_stops], in the same order,
    with the number of distinct routes of the stop. *)
Lemma output_rows (ion_stops : list StopRow) (transfers : list Transfer) :
  output ion_stops transfers
  = map (fun s => mkIndexRow s (count_at transfers (stop_id s))) ion_stops.
Proof.
  unfold output, merge_left.
  induction ion_stops as [|s ion_stops IH]; [done|].
  cbn [flat_map]. rewrite map_app, IH. clear IH.
  rewrite xfer_counts_filter. cbn [map].
  rewrite <- (groupby_nunique_default transfers (stop_id s)).
  now destruct (groupby_nunique transfers !! stop_id s).
Qed.

(** ** The dictionary of the interactive script *)

Lemma list_to_map_keyed {A : Type} (f : A -> string) (g : string -> nat)
    (l : list A) (k : string) :
  (list_to_map (map (fun x => (f x, g (f x))) l) : gmap string nat) !! k
  = if decide (k ∈ map f l) then Some (g k) else None.
Proof.
  induction l as [|x l IH]; cbn [map].
  - rewrite list_to_map_nil, lookup_empty.
    destruct (decide _) as [H|]; [inversion H|done].
  - rewrite list_to_map_cons. destruct (decide (f x = k)) as [<-|Hne].
    + rewrite lookup_insert_eq.
      destruct (decide (f x ∈ f x :: map f l)) as [|H]; [done|].
      exfalso. apply H. left.
    + rewrite lookup_insert_ne, IH by done.
      destruct (decide (k ∈ map f l)) as [H|H];
        destruct (decide (k ∈ f x :: map f l)) as [H'|H']; try done.
      * exfalso. apply H'. now right.
      * apply elem_of_cons in H' as [->|]; done.
Qed.

Lemma index_dict_lookup (ion_stops : list StopRow) (transfers : list Transfer)
    (k : string) :
  index_dict ion_stops transfers !! k
  = if decide (k ∈ map stop_id ion_stops) then Some (count_at transfers k)
    else None.
Proof. apply (list_to_map_keyed stop_id (count_at transfers)). Qed.

Lemma loc_assign_Ok (frame counts : gmap string nat) :
  dom counts ⊆ dom frame -> loc_assign frame counts = Ok (counts ∪ frame).
Proof.
  intros Hsub. unfold loc_assign.
  destruct (filter _ _) as [|k l] eqn:E; [done|].
  assert (Hk : k ∈ filter (fun k => frame !! k = None)
                      (map fst (map_to_list counts))) by (rewrite E; left).
  apply list_elem_of_filter in Hk as [Hnone Hk].
  apply list_elem_of_fmap in Hk as ([k' v]&->&Hkv).
  apply elem_of_map_to_list in Hkv.
  assert (k' ∈ dom frame) as [? ?]%elem_of_dom
    by (apply Hsub, elem_of_dom; eauto).
  cbn in Hnone. congruence.
Qed.

(** The dictionary when the labels of the series are stops of the frame:
    the count of every stop. *)
Lemma assigned_dict (ion_stops : list StopRow) (transfers : list Transfer) :
  (forall t, t ∈ transfers -> ion_stop_id t ∈ map stop_id ion_stops) ->
  groupby_nunique transfers
    ∪ list_to_map (map (fun s => (stop_id s, 0%nat)) ion_stops)
  = index_dict ion_stops transfers.
Proof.
  intros Hids. apply map_eq. intros k.
  rewrite lookup_union, index_dict_lookup, groupby_nunique_lookup.
  rewrite (list_to_map_keyed stop_id (fun _ => 0%nat)).
  destruct (routes_at k transfers) as [|r l] eqn:E.
  - destruct (decide _); cbn; [|done].
    unfold count_at. now rewrite E.
  - assert (Hr : r ∈ routes_at k transfers) by (rewrite E; left).
    apply elem_of_routes_at, Hids in Hr. cbn in Hr.
    now destruct (decide _).
Qed.

End AggregationFacts.

(* ===================================================================== *)
(** * Facts about the engine as a whole *)
(* ===================================================================== *)

Module EngineFacts.

Import Clock Geometry Engine GeometryFacts PairingFacts AggregationFacts.

#[local] Open Scope list_scope.
#[local] Set Warnings "-clear-no-such-hyp".

(** ** The rows of [nearby] *)

Lemma nearby_elem (ion_stops bus_stops : list StopRow) (buffer_m : Z)
    (row : NearRow) :
  row ∈ nearby ion_stops bus_stops buffer_m
  <-> exists b s, b ∈ bus_stops /\ s ∈ ion_stops
        /\ within (geometry b) (buffer (geometry s) buffer_m) = true
        /\ row = mkNear (stop_id b) (stop_id s).
Proof.
  unfold nearby, sjoin_within, ion_buffers.
  rewrite list_elem_of_In, in_flat_map. split.
  - intros (b&Hb&Hrow). apply in_flat_map in Hrow as ([s poly]&Hs&Hrow).
    apply in_map_iff in Hs as (s'&[= -> <-]&Hs). cbn [fst snd] in Hrow.
    destruct (within _ _) eqn:W; [|destruct Hrow].
    destruct Hrow as [<-|[]]. exists b, s.
    rewrite !list_elem_of_In. auto.
  - intros (b&s&Hb&Hs&W&->). apply list_elem_of_In in Hb, Hs. exists b.
    split; [done|]. apply in_flat_map.
    exists (s, buffer (geometry s) buffer_m). split.
    + apply in_map_iff. now exists s.
    + cbn [fst snd]. rewrite W. now left.
Qed.



Lemma nearby_mono (ion_stops bus_stops : list StopRow) (r1 r2 : Z)
    (row : NearRow) :
  (r1 <= r2)%Z ->
  row ∈ nearby ion_stops bus_stops r1 -> row ∈ nearby ion_stops bus_stops r2.
Proof.
  intros Hle (b&s&Hb&Hs&W&->)%nearby_elem. apply nearby_elem.
  exists b, s. eauto using within_buffer_mono.
Qed.

Lemma nearby_nonpositive (ion_stops bus_stops : list StopRow) (r : Z) :
  (r <= 0)%Z -> nearby ion_stops bus_stops r = [].
Proof.
  intros Hr. destruct (nearby ion_stops bus_stops r) as [|row l] eqn:E; [done|].
  assert (Hrow : row ∈ nearby ion_stops bus_stops r) by (rewrite E; left).
  apply nearby_elem in Hrow as (b&s&_&_&W&_).
  now rewrite buffer_nonpositive in W.
Qed.

(** ** Runs compared *)

(** Fewer rows of [nearby] and a shorter wait: the run still completes,
    with records that the larger run has too. *)
Lemma calculate_transfers_mono (n1 n2 : list NearRow)
    (ion_times bus_times : list TimeRow) (m1 m2 : Z) (ts2 : list Transfer) :
  (forall row, row ∈ n1 -> row ∈ n2) -> (m1 <= m2)%Z ->
  calculate_transfers n2 ion_times bus_times m2 = Ok ts2 ->
  exists ts1, calculate_transfers n1 ion_times bus_times m1 = Ok ts1
              /\ forall t, t ∈ ts1 -> t ∈ ts2.
Proof.
  intros Hn Hm H2.
  destruct (proj2 (calculate_transfers_Ok n1 ion_times bus_times m1))
    as [ts1 H1].
  { intros row i_row b_row Hrow Hmeet.
    apply (proj1 (calculate_transfers_Ok n2 ion_times bus_times m2)
             (ex_intro _ _ H2) row); auto. }
  exists ts1. split; [done|]. intros t Ht.
  apply (calculate_transfers_elem _ _ _ _ _ _ H1) in Ht
    as (row&i_row&b_row&Hrow&Hmeet&(a&d&Ha&Hd&W)&->).
  apply (calculate_transfers_elem _ _ _ _ _ _ H2).
  exists row, i_row, b_row. split; [auto|]. split; [done|]. split; [|done].
  exists a, d. split; [done|]. split; [done|].
  apply in_window_seconds. apply in_window_seconds in W. lia.
Qed.

(** The same rows and cells in any order: the run completes alike, with
    the same records up to order and repetition. *)
Lemma calculate_transfers_same (n1 n2 : list NearRow)
    (it1 it2 bt1 bt2 : list TimeRow) (m : Z) (ts2 : list Transfer) :
  (forall row, row ∈ n1 <-> row ∈ n2) ->
  (forall e, e ∈ it1 <-> e ∈ it2) -> (forall e, e ∈ bt1 <-> e ∈ bt2) ->
  calculate_transfers n2 it2 bt2 m = Ok ts2 ->
  exists ts1, calculate_transfers n1 it1 bt1 m = Ok ts1
              /\ forall t, t ∈ ts1 <-> t ∈ ts2.
Proof.
  intros Hn Hi Hb H2.
  assert (Hmeet : forall row i_row b_row,
             meets it1 bt1 row i_row b_row <-> meets it2 bt2 row i_row b_row).
  { intros row i_row b_row. unfold meets. now rewrite Hi, Hb. }
  destruct (proj2 (calculate_transfers_Ok n1 it1 bt1 m)) as [ts1 H1].
  { intros row i_row b_row Hrow Hm.
    apply (proj1 (calculate_transfers_Ok n2 it2 bt2 m) (ex_intro _ _ H2) row).
    - now apply Hn.
    - now apply Hmeet. }
  exists ts1. split; [done|]. intros t.
  rewrite (calculate_transfers_elem _ _ _ _ _ _ H1),
          (calculate_transfers_elem _ _ _ _ _ _ H2).
  split; intros (row&i_row&b_row&Hrow&Hm&Hq&->);
    exists row, i_row, b_row; (split; [now apply Hn|]);
    (split; [now apply Hmeet|]); auto.
Qed.

(** ** Counts compared *)

Lemma routes_at_subseteq (ts1 ts2 : list Transfer) (s : string) :
  (forall t, t ∈ ts1 -> t ∈ ts2) ->
  (list_to_set (routes_at s ts1) : gset string)
  ⊆ list_to_set (routes_at s ts2).
Proof.
  intros H r. rewrite !elem_of_list_to_set, !elem_of_routes_at. apply H.
Qed.

Lemma count_at_mono (ts1 ts2 : list Transfer) (s : string) :
  (forall t, t ∈ ts1 -> t ∈ ts2) -> count_at ts1 s <= count_at ts2 s.
Proof.
  intros H. unfold count_at. now apply subseteq_size, routes_at_subseteq.
Qed.

Lemma count_at_same (ts1 ts2 : list Transfer) (s : string) :
  (forall t, t ∈ ts1 <-> t ∈ ts2) -> count_at ts1 s = count_at ts2 s.
Proof.
  intros H. apply Nat.le_antisymm; apply count_at_mono; intros t; apply H.
Qed.

(** The count of a stop is the length of any duplicate-free list of the
    routes of its records. *)
Lemma count_at_distinct (transfers : list Transfer) (s : string) :
  exists routes : list string,
    NoDup routes
    /\ (forall r, r ∈ routes <-> mkTransfer s r ∈ transfers)
    /\ count_at transfers s = length routes.
Proof.
  exists (elements (list_to_set (routes_at s transfers) : gset string)).
  split; [apply NoDup_elements|]. split; [|done].
  intros r. now rewrite elem_of_elements, elem_of_list_to_set, elem_of_routes_at.
Qed.

(** ** The two engines, from the records on *)

Lemma transfer_index_eq (ion_stops bus_stops : list StopRow)
    (ion_times bus_times : list TimeRow) (buffer_m max_transfer : Z) :
  transfer_index ion_stops bus_stops ion_times bus_times buffer_m max_transfer
  = (transfers ← calculate_transfers (nearby ion_stops bus_stops buffer_m)
                   ion_times bus_times max_transfer;
     mret (map (fun s => mkIndexRow s (count_at transfers (stop_id s)))
               ion_stops)).
Proof.
  unfold transfer_index.
  destruct (calculate_transfers _ _ _ _) as [ts|e]; cbn; [|done].
  now rewrite output_rows.
Qed.

(** The stop of every record is a rail stop. *)
Lemma transfers_at_ion_stops (ion_stops bus_stops : list StopRow)
    (ion_times bus_times : list TimeRow) (buffer_m max_transfer : Z)
    (transfers : list Transfer) (t : Transfer) :
  calculate_transfers (nearby ion_stops bus_stops buffer_m)
    ion_times bus_times max_transfer = Ok transfers ->
  t ∈ transfers -> ion_stop_id t ∈ map stop_id ion_stops.
Proof.
  intros H Ht.
  apply (calculate_transfers_elem _ _ _ _ _ _ H) in Ht
    as (row&i_row&b_row&Hrow&_&_&->).
  apply nearby_elem in Hrow as (b&s&_&Hs&_&->). cbn.
  apply list_elem_of_fmap. eauto.
Qed.

(** The interactive engine never meets a label it does not have. *)
Lemma calculate_transfers_for_distance_eq (ion_stops bus_stops : list StopRow)
    (ion_times bus_times : list TimeRow) (buffer_m : Z) :
  calculate_transfers_for_distance ion_stops bus_stops ion_times bus_times
    buffer_m
  = (transfers ← calculate_transfers (nearby ion_stops bus_stops buffer_m)
                   ion_times bus_times MAX_TRANSFER_M;
     mret (index_dict ion_stops transfers)).
Proof.
  unfold calculate_transfers_for_distance.
  destruct (calculate_transfers _ _ _ _) as [ts|e] eqn:E; cbn; [|done].
  pose proof (assigned_dict ion_stops ts
                (fun t => transfers_at_ion_stops _ _ _ _ _ _ _ t E)) as Hd.
  destruct ts as [|t ts].
  - rewrite <- Hd. unfold mret, result_ret. f_equal.
    unfold groupby_nunique, groups. cbn [foldl].
    now rewrite fmap_empty, (left_id_L ∅ (∪)).
  - rewrite loc_assign_Ok; [now rewrite Hd|].
    intros k [n Hk]%elem_of_dom. apply elem_of_dom.
    rewrite groupby_nunique_lookup in Hk.
    destruct (routes_at k (t :: ts)) as [|r l] eqn:Er; [discriminate|].
    assert (Hr : r ∈ routes_at k (t :: ts)) by (rewrite Er; left).
    apply elem_of_routes_at in Hr.
    apply (transfers_at_ion_stops _ _ _ _ _ _ _ _ E) in Hr. cbn in Hr.
    rewrite (list_to_map_keyed stop_id (fun _ => 0%nat)).
    destruct (decide _); [eauto|done].
Qed.

(** With no arrival or no departure at all, nothing is read and nothing
    is added. *)
Lemma calculate_transfers_no_events (nearby : list NearRow)
    (ion_times bus_times : list TimeRow) (max_transfer : Z) :
  ion_times = [] \/ bus_times = [] ->
  calculate_transfers nearby ion_times bus_times max_transfer = Ok [].
Proof.
  intros Hempty.
  destruct (proj2 (calculate_transfers_Ok nearby ion_times bus_times
                     max_transfer)) as [ts Hts].
  { intros row i_row b_row _ (Hi&_&Hb&_).
    destruct Hempty as [-> | ->]; [inversion Hi | inversion Hb]. }
  rewrite Hts. f_equal. destruct ts as [|t ts]; [done|].
  assert (Ht : t ∈ t :: ts) by left.
  apply (calculate_transfers_elem _ _ _ _ _ _ Hts) in Ht
    as (row&i_row&b_row&_&(Hi&_&Hb&_)&_).
  destruct Hempty as [-> | ->]; [inversion Hi | inversion Hb].
Qed.

Lemma index_dict_dom (ion_stops : list StopRow) (transfers : list Transfer) :
  dom (index_dict ion_stops transfers)
  = (list_to_set (map stop_id ion_stops) : gset string).
Proof.
  unfold index_dict. rewrite dom_list_to_map_L. f_equal.
  now rewrite <- list_fmap_compose.
Qed.

(** Without events both engines complete, with the count 0 for every rail
    stop. *)
Lemma no_events_index (ion_stops bus_stops : list StopRow)
    (ion_times bus_times : list TimeRow) (buffer_m max_transfer : Z) :
  ion_times = [] \/ bus_times = [] ->
  transfer_index ion_stops bus_stops ion_times bus_times buffer_m max_transfer
  = Ok (map (fun s => mkIndexRow s 0) ion_stops)
  /\ exists counts,
       calculate_transfers_for_distance ion_stops bus_stops ion_times
         bus_times buffer_m = Ok counts
       /\ dom counts = list_to_set (map stop_id ion_stops)
       /\ forall k n, counts !! k = Some n -> n = 0%nat.
Proof.
  intros Hempty.
  rewrite transfer_index_eq, calculate_transfers_for_distance_eq.
  rewrite !calculate_transfers_no_events by done. cbn. split; [done|].
  eexists. split; [reflexivity|]. split; [apply index_dict_dom|].
  intros k n. rewrite index_dict_lookup.
  destruct (decide _); [|discriminate]. now intros [= <-].
Qed.

(** With a negative wait nothing qualifies. *)
Lemma calculate_transfers_negative_wait (nearby : list NearRow)
    (ion_times bus_times : list TimeRow) (max_transfer : Z)
    (transfers : list Transfer) :
  (max_transfer < 0)%Z ->
  calculate_transfers nearby ion_times bus_times max_transfer = Ok transfers ->
  transfers = [].
Proof.
  intros Hneg Hts. destruct transfers as [|t ts]; [done|].
  assert (Ht : t ∈ t :: ts) by left.
  apply (calculate_transfers_elem _ _ _ _ _ _ Hts) in Ht
    as (row&i_row&b_row&_&_&(a&d&_&_&W)&_).
  apply in_window_seconds in W. lia.
Qed.

End EngineFacts.

(* ===================================================================== *)
(** * Facts about the scripts *)
(* ===================================================================== *)

Module ScriptFacts.

Import Clock Geometry Engine Scripts.
Import PairingFacts AggregationFacts EngineFacts.

#[local] Open Scope list_scope.

Lemma filter_none {A : Type} (P : A -> Prop) `{!forall x, Decision (P x)}
    (l : list A) :
  (forall x, ~ P x) -> filter P l = [].
Proof.
  intros Hnone. induction l as [|x l IH]; [done|].
  rewrite filter_cons. now destruct (decide (P x)) as [HP%Hnone|].
Qed.

Lemma stop_ids_of_nil (feed : Feed) : stop_ids_of feed [] = [].
Proof.
  unfold stop_ids_of. rewrite filter_none; [done|].
  intros st Hst. cbn in Hst. inversion Hst.
Qed.

(** A date without service leaves no trip, hence no stop and no event. *)
Lemma no_service (feed : Feed) (date start stop : string) :
  service_ids feed date = [] ->
  ion_stops feed date = [] /\ bus_stops feed date = []
  /\ ion_times feed date start stop = []
  /\ bus_times feed date start stop = [].
Proof.
  intros Hnone.
  assert (Htrips : trips_of_day feed date = []).
  { unfold trips_of_day. rewrite Hnone. apply filter_none.
    intros t Ht. inversion Ht. }
  assert (Hst : st_with_routes feed date = []).
  { unfold st_with_routes. rewrite Htrips.
    induction (stop_times feed) as [|st l IH]; [done|]. exact IH. }
  unfold ion_stops, bus_stops, ion_times, bus_times, ion_trips, bus_trips.
  rewrite Htrips, Hst, !filter_nil, stop_ids_of_nil.
  repeat split; try done; apply filter_none; intros s Hs; inversion Hs.
Qed.

(** Every dictionary of a sweep is what the engine gave at its key. *)
Lemma sweep_lookup {V : Type} (f : Z -> result V) (ds : list Z)
    (data0 data : gmap Z V) (d : Z) (c : V) :
  for_each ds (fun dist acc => counts ← f dist; mret (<[dist := counts]> acc))
    data0 = Ok data ->
  data !! d = Some c -> f d = Ok c \/ data0 !! d = Some c.
Proof.
  revert data0. induction ds as [|d0 ds IH]; intros data0; cbn.
  - intros [= <-]. now right.
  - destruct (f d0) as [c0|e] eqn:E; cbn; [|discriminate].
    intros Hrun Hd. destruct (IH _ Hrun Hd) as [Hf|Hd0]; [now left|].
    destruct (decide (d0 = d)) as [->|Hne].
    + rewrite lookup_insert_eq in Hd0. left. congruence.
    + rewrite lookup_insert_ne in Hd0 by done. now right.
Qed.

Lemma interactive_main_lookup (feed : Feed)
    (data : gmap Z (gmap string nat)) (d : Z) (c : gmap string nat) :
  build_transfer_index_interactive.main feed = Ok data ->
  data !! d = Some c ->
  calculate_transfers_for_distance
    (ion_stops feed build_transfer_index_interactive.SERVICE_DATE)
    (bus_stops feed build_transfer_index_interactive.SERVICE_DATE)
    (ion_times feed build_transfer_index_interactive.SERVICE_DATE
       build_transfer_index_interactive.PEAK_START
       build_transfer_index_interactive.PEAK_END)
    (bus_times feed build_transfer_index_interactive.SERVICE_DATE
       build_transfer_index_interactive.PEAK_START
       build_transfer_index_interactive.PEAK_END) d = Ok c.
Proof.
  unfold build_transfer_index_interactive.main. intros Hrun Hd.
  destruct (sweep_lookup _ _ _ _ _ _ Hrun Hd) as [Hf|Hnone]; [done|].
  now rewrite lookup_empty in Hnone.
Qed.

End ScriptFacts.

(* ===================================================================== *)
(** * Facts about windows and cells *)
(* ===================================================================== *)

Module WindowFacts.

Import Clock Windows ClockFacts.

#[local] Open Scope Z_scope.

Lemma string_leb_trans (a b c : string) :
  String.leb a b = true -> String.leb b c = true -> String.leb a c = true.
Proof.
  unfold String.leb. revert b c.
  induction a as [|x a IH]; intros [|y b] [|z c]; cbn; try done.
  unfold Ascii.compare.
  destruct (N.compare_spec (N_of_ascii x) (N_of_ascii y)) as [Exy|Lxy|Gxy];
    destruct (N.compare_spec (N_of_ascii y) (N_of_ascii z)) as [Eyz|Lyz|Gyz];
    try done.
  - rewrite Exy, Eyz, N.compare_refl. apply IH.
  - intros _ _. rewrite Exy. now apply N.compare_lt_iff in Lyz as ->.
  - intros _ _. rewrite <- Eyz. now apply N.compare_lt_iff in Lxy as ->.
  - intros _ _.
    assert (H : (N_of_ascii x < N_of_ascii z)%N) by lia.
    now apply N.compare_lt_iff in H as ->.
Qed.

Lemma fields_newline (s : string) (f : Z * Z * Z) :
  fields s = Some f -> str_match (s ++ String "010" EmptyString) = true.
Proof.
  destruct f as [[hh mm] ss]. intros H.
  apply fields_inv in H as (h1&h2&m1&m2&s1&s2&->&Hd&_).
  repeat match goal with
  | H : Forall _ (_ :: _) |- _ => apply Forall_cons in H as [? ?]
  end.
  unfold str_match, time_pattern. cbv [String.append].
  repeat first [ rewrite decimal_digit_ascii by assumption
               | progress cbn [match_atoms Ascii.eqb Bool.eqb] ].
  reflexivity.
Qed.

Lemma fields_newline_none (s : string) (f : Z * Z * Z) :
  fields s = Some f -> fields (s ++ String "010" EmptyString) = None.
Proof.
  destruct f as [[hh mm] ss]. intros H.
  apply fields_inv in H as (h1&h2&m1&m2&s1&s2&->&_). reflexivity.
Qed.

(** The parser refuses a string with three fields and a line feed. *)
Lemma strptime_newline (s : string) (f : Z * Z * Z) :
  fields s = Some f -> strptime (s ++ String "010" EmptyString) = None.
Proof.
  destruct f as [[hh mm] ss]. intros H.
  apply fields_inv in H as (h1&h2&m1&m2&s1&s2&->&Hd&_).
  unfold strptime. cbv [String.append].
  rewrite (format_regex_digits _ _ _ _ _ _ _ Hd).
  destruct (_ && _); [|reflexivity].
  destruct (two_digits s1 s2 <=? 61); reflexivity.
Qed.

Lemma match_digit_inv (p : list atom) (s rest : string) :
  match_atoms (Digit :: p) s = Some rest
  <-> exists d s', decimal_char d /\ s = (d ++ s')%string
                   /\ match_atoms p s' = Some rest.
Proof.
  cbn [match_atoms]. split.
  - destruct (decimal_digit s) as [[v s']|] eqn:E; [|discriminate].
    intros H. apply decimal_digit_split in E as (d&->&Hd).
    exists d, s'. split; [now exists v|done].
  - intros (d&s'&[v Hd]&->&H).
    assert (E : decimal_digit (d ++ s') = Some (v, s')).
    { apply decimal_digit_split. now exists d. }
    now rewrite E.
Qed.

Lemma match_lit_inv (c : ascii) (p : list atom) (s rest : string) :
  match_atoms (Lit c :: p) s = Some rest
  <-> exists s', s = String c s' /\ match_atoms p s' = Some rest.
Proof.
  cbn [match_atoms]. split.
  - destruct s as [|c' s']; [discriminate|].
    destruct (Ascii.eqb_spec c c') as [->|]; [|discriminate]. eauto.
  - intros (s'&->&H). now rewrite Ascii.eqb_refl.
Qed.

Lemma at_dollar_true (s : string) :
  at_dollar s = true <-> s = EmptyString \/ s = String "010" EmptyString.
Proof.
  destruct s as [|c [|c' s]]; cbn.
  - split; [now left|done].
  - split.
    + intros ->%Ascii.eqb_eq. now right.
    + intros [?|[= ->]]; [discriminate|reflexivity].
  - split; [discriminate|]. intros [?|?]; discriminate.
Qed.

(** The strings the shape test lets through: six decimal digits, of any
    script, in three pairs with a colon between them, and then nothing or
    one line feed. *)
Lemma str_match_language (s : string) :
  str_match s = true
  <-> exists d1 d2 d3 d4 d5 d6 tail : string,
        Forall decimal_char [d1; d2; d3; d4; d5; d6]
        /\ (tail = EmptyString \/ tail = String "010" EmptyString)
        /\ s = (d1 ++ d2 ++ ":" ++ d3 ++ d4 ++ ":" ++ d5 ++ d6 ++ tail)%string.
Proof.
  unfold str_match, time_pattern. split.
  - destruct (match_atoms _ s) as [tail|] eqn:E; [|discriminate].
    intros Hend%at_dollar_true.
    apply match_digit_inv in E as (d1&?&H1&->&E).
    apply match_digit_inv in E as (d2&?&H2&->&E).
    apply match_lit_inv in E as (?&->&E).
    apply match_digit_inv in E as (d3&?&H3&->&E).
    apply match_digit_inv in E as (d4&?&H4&->&E).
    apply match_lit_inv in E as (?&->&E).
    apply match_digit_inv in E as (d5&?&H5&->&E).
    apply match_digit_inv in E as (d6&?&H6&->&E).
    cbn in E. injection E as ->.
    exists d1, d2, d3, d4, d5, d6, tail.
    split; [repeat constructor; assumption|]. split; [done|reflexivity].
  - intros (d1&d2&d3&d4&d5&d6&tail&Hd&Hend&->).
    repeat match goal with
    | H : Forall _ (_ :: _) |- _ => apply Forall_cons in H as [? ?]
    end.
    assert (E : match_atoms
                  [Digit; Digit; Lit ":"; Digit; Digit; Lit ":"; Digit; Digit]
                  (d1 ++ d2 ++ ":" ++ d3 ++ d4 ++ ":" ++ d5 ++ d6 ++ tail)
                = Some tail).
    { apply match_digit_inv. eexists d1, _. split; [done|]. split; [done|].
      apply match_digit_inv. eexists d2, _. split; [done|]. split; [done|].
      apply match_lit_inv. eexists. split; [reflexivity|].
      apply match_digit_inv. eexists d3, _. split; [done|]. split; [done|].
      apply match_digit_inv. eexists d4, _. split; [done|]. split; [done|].
      apply match_lit_inv. eexists. split; [reflexivity|].
      apply match_digit_inv. eexists d5, _. split; [done|]. split; [done|].
      apply match_digit_inv. eexists d6, _. split; [done|]. split; [done|].
      reflexivity. }
    rewrite E. now apply at_dollar_true.
Qed.

Lemma short_fields_inv (s : string) (hh mm : Z) :
  short_fields s = Some (hh, mm) ->
  exists h1 h2 m1 m2 : ascii,
    s = String h1 (String h2 (String ":" (String m1 (String m2 EmptyString))))
    /\ Forall (fun c => is_digit c = true) [h1; h2; m1; m2]
    /\ hh = two_digits h1 h2 /\ mm = two_digits m1 m2.
Proof.
  unfold short_fields. intros H.
  do 5 (destruct s as [|? s]; [discriminate|]).
  destruct s; [|discriminate].
  destruct (forallb _ _ && _) eqn:E; [|discriminate].
  apply andb_true_iff in E as [E Ec].
  apply Ascii.eqb_eq in Ec. subst.
  rewrite forallb_forall in E.
  injection H as Hh Hm. subst hh mm.
  eexists _, _, _, _. split; [reflexivity|]. split; [|auto].
  rewrite Forall_forall. intros c Hc. apply E. now apply list_elem_of_In.
Qed.

(** A bound of five characters against a string of eight: the bound is
    first when the five characters are the same. *)
Lemma leb_short_bounds (b s : string) (hb mb x : Z) :
  short_fields b = Some (hb, mb) -> mb <= 59 ->
  sexagesimal s = true -> clock_seconds s = Some x ->
  (String.leb b s = true <-> 3600 * hb + 60 * mb <= x)
  /\ (String.leb s b = true <-> x < 3600 * hb + 60 * mb).
Proof.
  unfold sexagesimal, clock_seconds.
  intros Fb Hmb.
  destruct (fields s) as [[[hs ms] ss]|] eqn:Fs; [|discriminate].
  intros [Hms Hss]%andb_true_iff [= <-].
  apply Z.leb_le in Hms, Hss.
  apply fields_inv in Fs as (a1&a2&a3&a4&a5&a6&->&Ha&->&->&->).
  apply short_fields_inv in Fb as (b1&b2&b3&b4&->&Hb&->&->).
  repeat match goal with
  | H : Forall _ (_ :: _) |- _ => apply Forall_cons in H as [? ?]
  end.
  unfold String.leb. cbn [String.compare].
  change (Ascii.compare ":" ":") with Eq. cbv iota.
  rewrite !ascii_compare_digits by assumption.
  repeat match goal with
  | H : is_digit _ = true |- _ => apply is_digit_range in H as [? _]
  end.
  unfold two_digits in *.
  repeat match goal with
  | |- context [?a ?= ?b] => destruct (Z.compare_spec a b)
  end; split; split; intros; try discriminate; try reflexivity; lia.
Qed.

(** What the mask admits has the shape and is between the bounds. *)
Lemma mask_true (start stop : string) (cell : option string) :
  mask start stop cell = true
  <-> exists s, cell = Some s /\ str_match s = true
        /\ String.leb start s = true /\ String.leb s stop = true.
Proof.
  unfold mask. destruct cell as [s|]; cbn.
  - rewrite !andb_true_iff. split.
    + intros [[Hm Hs] He]. eauto.
    + intros (?&[= <-]&?&?&?). auto.
  - split; [discriminate|]. now intros (?&?&_).
Qed.

(** Within a window that ends by 23:59:59, a string with minute and second
    fields below 60 is one that the parser takes. *)
Lemma admitted_parses (start stop s : string) :
  mask start stop (Some s) = true -> String.leb stop "23:59:59" = true ->
  sexagesimal s = true -> exists t, strptime s = Some t.
Proof.
  intros (?&[= <-]&_&_&Hle)%mask_true Hstop Hs.
  pose proof (string_leb_trans _ _ _ Hle Hstop) as Hday.
  pose proof Hs as Hs'. unfold sexagesimal in Hs'.
  destruct (fields s) as [[[hh mm] ss]|] eqn:Fs; [|discriminate].
  apply andb_true_iff in Hs' as [Hm Hsec]. apply Z.leb_le in Hm, Hsec.
  apply (leb_clock_seconds s "23:59:59" (3600 * hh + 60 * mm + ss) 86399)
    in Hday; [|done|done|unfold clock_seconds; now rewrite Fs|done].
  destruct (fields_ranges _ _ _ _ Fs) as (?&?&?).
  exists (3600 * hh + 60 * mm + ss). apply (strptime_Some s hh mm ss _ Fs).
  repeat split; try done; lia.
Qed.

Lemma refused_not_sexagesimal (start stop s : string) :
  mask start stop (Some s) = true -> String.leb stop "23:59:59" = true ->
  strptime s = None -> sexagesimal s = false.
Proof.
  intros Hmask Hstop Hnone. destruct (sexagesimal s) eqn:E; [|done].
  destruct (admitted_parses _ _ _ Hmask Hstop E) as [t Ht]. congruence.
Qed.

End WindowFacts.

(* ===================================================================== *)
(** * Facts about the tables of a feed *)
(* ===================================================================== *)

Module PipelineFacts.

Import Clock Geometry Engine Scripts Windows.
Import ClockFacts PairingFacts AggregationFacts EngineFacts ScriptFacts.
Import WindowFacts.

#[local] Open Scope list_scope.
#[local] Set Warnings "-clear-no-such-hyp".

(** ** The rows of the merged timetable *)

Lemma st_with_routes_elem (feed : Feed) (date : string) (e : TimeRow) :
  e ∈ st_with_routes feed date
  <-> exists st t,
        st ∈ stop_times feed /\ t ∈ trips feed
        /\ service_id t ∈ service_ids feed date
        /\ t_trip_id t = st_trip_id st
        /\ e = mkTime (st_trip_id st) (st_stop_id st) (st_arrival_time st)
                 (st_departure_time st) (t_route_id t).
Proof.
  unfold st_with_routes, trips_of_day.
  rewrite list_elem_of_In, in_flat_map. split.
  - intros (st&Hst&He). apply in_map_iff in He as (t&<-&Ht).
    apply list_elem_of_In, list_elem_of_filter in Ht as [Hid Ht].
    apply list_elem_of_filter in Ht as [Hs Ht].
    exists st, t. rewrite list_elem_of_In. auto.
  - intros (st&t&Hst&Ht&Hs&Hid&->). exists st.
    split; [now apply list_elem_of_In|]. apply in_map_iff. exists t.
    split; [done|]. apply list_elem_of_In, list_elem_of_filter.
    split; [done|]. now apply list_elem_of_filter.
Qed.

Lemma ion_times_elem (feed : Feed) (date start stop : string) (e : TimeRow) :
  e ∈ ion_times feed date start stop
  <-> e ∈ st_with_routes feed date /\ route_id e ∈ ion_routes feed
      /\ mask start stop (arrival_time e) = true.
Proof. unfold ion_times. rewrite list_elem_of_filter. tauto. Qed.

Lemma bus_times_elem (feed : Feed) (date start stop : string) (e : TimeRow) :
  e ∈ bus_times feed date start stop
  <-> e ∈ st_with_routes feed date /\ route_id e ∈ bus_routes feed
      /\ mask start stop (departure_time e) = true.
Proof. unfold bus_times. rewrite list_elem_of_filter. tauto. Qed.

(** ** Completion of the analysis *)

Lemma cell_parses (start stop : string) (cell : option string) :
  mask start stop cell = true -> String.leb stop "23:59:59" = true ->
  well_timed cell = true -> parses cell.
Proof.
  intros Hmask Hstop Hwell.
  pose proof Hmask as (s&->&Hshape&_)%mask_true.
  cbn in Hwell. rewrite Hshape in Hwell. cbn in Hwell.
  destruct (admitted_parses _ _ _ Hmask Hstop Hwell) as [t Ht].
  exists (Some t). unfold sexagesimal in Hwell.
  destruct (fields s) as [f|] eqn:F; [|discriminate].
  now rewrite (to_datetime_fields s f F), Ht.
Qed.

Lemma analysis_Ok (feed : Feed) (date start stop : string)
    (buffer_m max_transfer : Z) :
  String.leb stop "23:59:59" = true ->
  (forall st, st ∈ stop_times feed ->
     well_timed (st_arrival_time st) = true
     /\ well_timed (st_departure_time st) = true) ->
  exists out, analysis feed date start stop buffer_m max_transfer = Ok out.
Proof.
  intros Hstop Hwell. unfold analysis. rewrite transfer_index_eq.
  destruct (proj2 (calculate_transfers_Ok
                     (nearby (ion_stops feed date) (bus_stops feed date)
                        buffer_m)
                     (ion_times feed date start stop)
                     (bus_times feed date start stop) max_transfer))
    as [ts ->]; [|cbn; eauto].
  intros row i_row b_row _ (Hi&_&Hb&_).
  apply ion_times_elem in Hi as (Hi&_&Hmi).
  apply bus_times_elem in Hb as (Hb&_&Hmb).
  apply st_with_routes_elem in Hi as (sti&ti&Hsti&_&_&_&->).
  apply st_with_routes_elem in Hb as (stb&tb&Hstb&_&_&_&->).
  cbn in *. split.
  - apply (cell_parses start stop); [done..|]. now apply Hwell.
  - apply (cell_parses start stop); [done..|]. now apply Hwell.
Qed.

Lemma analysis_Raise (feed : Feed) (date start stop : string)
    (buffer_m max_transfer : Z) (e : exn) :
  analysis feed date start stop buffer_m max_transfer = Raise e ->
  exists s, e = ValueError s /\ strptime s = None
    /\ mask start stop (Some s) = true
    /\ exists st, st ∈ stop_times feed
          /\ (st_arrival_time st = Some s \/ st_departure_time st = Some s).
Proof.
  unfold analysis. rewrite transfer_index_eq.
  destruct (calculate_transfers _ _ _ _) as [ts|e'] eqn:E; cbn; [discriminate|].
  intros [= ->].
  apply calculate_transfers_Raise in E
    as (s&->&Hnone&[(i_row&Hi&Ha)|(b_row&Hb&Hd)]).
  - apply ion_times_elem in Hi as (Hi&_&Hm).
    apply st_with_routes_elem in Hi as (st&t&Hst&_&_&_&->). cbn in *.
    rewrite Ha in Hm. exists s. eauto 10.
  - apply bus_times_elem in Hb as (Hb&_&Hm).
    apply st_with_routes_elem in Hb as (st&t&Hst&_&_&_&->). cbn in *.
    rewrite Hd in Hm. exists s. eauto 10.
Qed.

(** ** Sweeps over distances *)

Lemma sweep_Ok {V : Type} (f : Z -> result V) (ds : list Z) (data0 : gmap Z V) :
  (forall d, d ∈ ds -> exists c, f d = Ok c) ->
  exists data,
    for_each ds (fun dist acc => counts ← f dist; mret (<[dist := counts]> acc))
      data0 = Ok data.
Proof.
  revert data0. induction ds as [|d ds IH]; intros data0 H; cbn; [eauto|].
  destruct (H d) as [c ->]; [left|]. cbn. apply IH.
  intros d' Hd'. apply H. now right.
Qed.

Lemma sweep_Raise {V : Type} (f : Z -> result V) (ds : list Z)
    (data0 : gmap Z V) (e : exn) :
  for_each ds (fun dist acc => counts ← f dist; mret (<[dist := counts]> acc))
    data0 = Raise e ->
  exists d, d ∈ ds /\ f d = Raise e.
Proof.
  revert data0. induction ds as [|d ds IH]; intros data0; cbn; [discriminate|].
  destruct (f d) as [c|e'] eqn:E; cbn.
  - intros (d'&Hd'&Hf)%IH. exists d'. split; [now right|done].
  - intros [= ->]. exists d. split; [left|done].
Qed.

Lemma sweep_dom {V : Type} (f : Z -> result V) (ds : list Z)
    (data0 data : gmap Z V) :
  for_each ds (fun dist acc => counts ← f dist; mret (<[dist := counts]> acc))
    data0 = Ok data ->
  dom data = list_to_set ds ∪ dom data0.
Proof.
  revert data0. induction ds as [|d ds IH]; intros data0; cbn.
  - intros [= <-]. set_solver.
  - destruct (f d) as [c|e] eqn:E; cbn; [|discriminate].
    intros ->%IH. rewrite dom_insert_L. set_solver.
Qed.

Lemma analysis_inv (feed : Feed) (date start stop : string)
    (buffer_m max_transfer : Z) (out : list IndexRow) :
  analysis feed date start stop buffer_m max_transfer = Ok out ->
  exists transfers,
    calculate_transfers
      (nearby (ion_stops feed date) (bus_stops feed date) buffer_m)
      (ion_times feed date start stop) (bus_times feed date start stop)
      max_transfer = Ok transfers
    /\ out = map (fun s => mkIndexRow s (count_at transfers (stop_id s)))
               (ion_stops feed date).
Proof.
  unfold analysis. rewrite transfer_index_eq.
  destruct (calculate_transfers _ _ _ _) as [ts|e]; cbn; [|discriminate].
  intros [= <-]. eauto.
Qed.

(** ** A feed without one of the two modes *)

Lemma no_ion_route (feed : Feed) (date start stop : string) :
  ion_routes feed = [] ->
  ion_stops feed date = [] /\ ion_times feed date start stop = [].
Proof.
  intros Hnone. unfold ion_stops, ion_times, ion_trips. rewrite Hnone.
  split.
  - rewrite (filter_none (fun t => t_route_id t ∈ [])), stop_ids_of_nil.
    + apply filter_none. intros s Hs. inversion Hs.
    + intros t Ht. inversion Ht.
  - apply filter_none. intros e [He _]. inversion He.
Qed.

Lemma no_bus_route (feed : Feed) (date start stop : string) :
  bus_routes feed = [] -> bus_times feed date start stop = [].
Proof.
  intros Hnone. unfold bus_times. rewrite Hnone.
  apply filter_none. intros e [He _]. inversion He.
Qed.

(** The routes of the records of a run are bus routes of the feed. *)
Lemma analysis_routes (feed : Feed) (date start stop : string)
    (buffer_m max_transfer : Z) (transfers : list Transfer) (t : Transfer) :
  calculate_transfers
    (nearby (ion_stops feed date) (bus_stops feed date) buffer_m)
    (ion_times feed date start stop) (bus_times feed date start stop)
    max_transfer = Ok transfers ->
  t ∈ transfers -> bus_route_id t ∈ bus_routes feed.
Proof.
  intros Hrun Ht.
  apply (calculate_transfers_elem _ _ _ _ _ _ Hrun) in Ht
    as (row&i_row&b_row&_&(_&_&Hb&_)&_&->).
  now apply bus_times_elem in Hb as (_&Hr&_).
Qed.

(** ** The fixed scripts on a well-timed feed *)

Lemma interactive_main_Ok (feed : Feed) :
  (forall st, st ∈ stop_times feed ->
     well_timed (st_arrival_time st) = true
     /\ well_timed (st_departure_time st) = true) ->
  exists data, build_transfer_index_interactive.main feed = Ok data.
Proof.
  intros Hwell. unfold build_transfer_index_interactive.main. apply sweep_Ok.
  intros d _.
  destruct (analysis_Ok feed build_transfer_index_interactive.SERVICE_DATE
              build_transfer_index_interactive.PEAK_START
              build_transfer_index_interactive.PEAK_END d MAX_TRANSFER_M
              eq_refl Hwell) as [out Hout].
  apply analysis_inv in Hout as (ts&Hts&_).
  rewrite calculate_transfers_for_distance_eq, Hts. cbn. eauto.
Qed.

Lemma morning_feed_well_timed (st : StopTimeRow) :
  st ∈ stop_times Examples.morning_feed ->
  well_timed (st_arrival_time st) = true
  /\ well_timed (st_departure_time st) = true.
Proof.
  intros Hst. cbn in Hst.
  repeat (apply elem_of_cons in Hst as [->|Hst]; [split; reflexivity|]).
  inversion Hst.
Qed.

(** ** The service date *)

Lemma remove_dashes_clean (s : string) : has_dash (remove_dashes s) = false.
Proof.
  induction s as [|c s IH]; cbn; [done|].
  destruct (Ascii.eqb c "-") eqn:E; [done|]. cbn. now rewrite E.
Qed.

Lemma remove_dashes_id (s : string) :
  has_dash s = false -> remove_dashes s = s.
Proof.
  induction s as [|c s IH]; cbn; [done|].
  intros [-> Hs]%orb_false_iff. now rewrite IH.
Qed.

Lemma service_ids_elem (feed : Feed) (date id : string) :
  id ∈ service_ids feed date
  <-> exists c, c ∈ calendar_dates feed /\ cd_date c = remove_dashes date
                /\ cd_service_id c = id.
Proof.
  unfold service_ids. rewrite elem_of_remove_dups, list_elem_of_fmap. split.
  - intros (c&->&[Hd Hc]%list_elem_of_filter). eauto.
  - intros (c&Hc&Hd&<-). exists c. split; [done|].
    now apply list_elem_of_filter.
Qed.

End PipelineFacts.

(* ===================================================================== *)
(** * Facts about maps, summary and sweeps *)
(* ===================================================================== *)

Module ReportFacts.

Import Clock Geometry Engine Scripts Windows Reports.
Import PairingFacts AggregationFacts EngineFacts ScriptFacts.
Import WindowFacts PipelineFacts.

#[local] Open Scope list_scope.
#[local] Set Warnings "-clear-no-such-hyp".

(** ** The largest value of a column *)

Lemma foldl_max (l : list nat) (v : nat) :
  (v <= foldl Nat.max v l)%nat
  /\ (forall x, x ∈ l -> x <= foldl Nat.max v l)%nat
  /\ (foldl Nat.max v l = v \/ foldl Nat.max v l ∈ l).
Proof.
  revert v. induction l as [|y l IH]; intros v; cbn.
  - split; [lia|]. split; [|now left]. intros x Hx. inversion Hx.
  - destruct (IH (Nat.max v y)) as (Hge&Hall&Hin). split; [lia|]. split.
    + intros x [->|Hx]%elem_of_cons; [lia|auto].
    + destruct Hin as [Hin|Hin]; [|right; now right].
      rewrite Hin. destruct (Nat.max_spec v y) as [[_ ->]|[_ ->]].
      * right. left.
      * now left.
Qed.

Lemma series_max_Some (l : list nat) (m : nat) :
  series_max l = Some m <-> m ∈ l /\ forall x, x ∈ l -> (x <= m)%nat.
Proof.
  destruct l as [|v l]; cbn.
  - split; [discriminate|]. intros [H _]. inversion H.
  - destruct (foldl_max l v) as (Hge&Hall&Hin). split.
    + intros [= <-]. split.
      * destruct Hin as [->|Hin]; [left | now right].
      * intros x [->|Hx]%elem_of_cons; auto.
    + intros [Hm Hmax]. f_equal. apply Nat.le_antisymm.
      * destruct Hin as [->|Hin]; apply Hmax; [left | now right].
      * apply elem_of_cons in Hm as [->|Hm]; auto.
Qed.

Lemma series_max_None (l : list nat) : series_max l = None <-> l = [].
Proof. now destruct l. Qed.

(** ** The rows in descending order *)

Lemma insert_desc_perm (row : IndexRow) (l : list IndexRow) :
  insert_desc row l ≡ₚ row :: l.
Proof.
  induction l as [|r l IH]; cbn; [done|].
  destruct (_ <=? _)%nat; [done|]. rewrite IH. apply perm_swap.
Qed.

Lemma sort_perm (l : list IndexRow) : foldr insert_desc [] l ≡ₚ l.
Proof.
  induction l as [|r l IH]; cbn; [done|]. now rewrite insert_desc_perm, IH.
Qed.

Lemma insert_desc_sorted (row : IndexRow) (l : list IndexRow) :
  StronglySorted desc l -> StronglySorted desc (insert_desc row l).
Proof.
  induction 1 as [|r l Hl IH Hr]; cbn.
  - repeat constructor.
  - destruct (Nat.leb_spec (bus_xfer_routes r) (bus_xfer_routes row)).
    + constructor; [now constructor|]. constructor; [done|].
      eapply Forall_impl; [exact Hr|]. unfold desc. intros; cbn in *; lia.
    + constructor; [done|]. rewrite insert_desc_perm.
      constructor; [|done]. unfold desc. lia.
Qed.

Lemma sort_sorted (l : list IndexRow) :
  StronglySorted desc (foldr insert_desc [] l).
Proof.
  induction l as [|r l IH]; cbn; [constructor|]. now apply insert_desc_sorted.
Qed.

(** The rows chosen, the rows left, and the order between them. *)
Lemma nlargest_split (n : nat) (frame : list IndexRow) :
  nlargest n frame ++ drop n (foldr insert_desc [] frame) ≡ₚ frame
  /\ StronglySorted desc (nlargest n frame)
  /\ forall x y, x ∈ nlargest n frame ->
       y ∈ drop n (foldr insert_desc [] frame) -> desc x y.
Proof.
  unfold nlargest. pose proof (sort_sorted frame) as Hs.
  rewrite <- (take_drop n (foldr insert_desc [] frame)) in Hs.
  apply StronglySorted_app in Hs as (Hx&Ht&_).
  split; [|done]. now rewrite take_drop, sort_perm.
Qed.

Lemma nlargest_length (n : nat) (frame : list IndexRow) :
  length (nlargest n frame) = Nat.min n (length frame).
Proof. unfold nlargest. now rewrite length_take, sort_perm. Qed.

(** The first of the rows chosen has the largest count. *)
Lemma nlargest_head (n : nat) (frame : list IndexRow) (m : nat) :
  series_max (map bus_xfer_routes frame) = Some m ->
  exists row, head (nlargest (S n) frame) = Some row
              /\ bus_xfer_routes row = m.
Proof.
  intros [Hm Hmax]%series_max_Some. unfold nlargest.
  pose proof (sort_sorted frame) as Hs. pose proof (sort_perm frame) as Hp.
  destruct (foldr insert_desc [] frame) as [|r l].
  - apply Permutation_nil_l in Hp. rewrite <- Hp in Hm. inversion Hm.
  - exists r. split; [done|]. apply Nat.le_antisymm.
    + apply Hmax, list_elem_of_fmap. exists r. split; [done|].
      rewrite <- Hp. left.
    + apply list_elem_of_fmap in Hm as (x&->&Hx). rewrite <- Hp in Hx.
      apply elem_of_cons in Hx as [->|Hx]; [done|].
      apply StronglySorted_inv in Hs as [_ Hall].
      rewrite Forall_forall in Hall. now apply Hall.
Qed.

(** ** The markers *)

Lemma quotient_bounds (v m : nat) :
  (v <= m)%nat ->
  (0 <= inject_Z (Z.of_nat v) / inject_Z (Z.of_nat (Nat.max m 1)) <= 1)%Q.
Proof.
  intros Hle.
  assert (Hd : (0 < inject_Z (Z.of_nat (Nat.max m 1)))%Q).
  { change 0%Q with (inject_Z 0). rewrite <- Zlt_Qlt. lia. }
  assert (Hv : (0 <= inject_Z (Z.of_nat v))%Q).
  { change 0%Q with (inject_Z 0). rewrite <- Zle_Qle. lia. }
  assert (Hvm : (inject_Z (Z.of_nat v) <= inject_Z (Z.of_nat (Nat.max m 1)))%Q).
  { rewrite <- Zle_Qle. lia. }
  split.
  - apply Qle_shift_div_l; [done|]. lra.
  - apply Qle_shift_div_r; [done|]. lra.
Qed.

Lemma quotient_mono (v1 v2 m : nat) :
  (v1 <= v2)%nat ->
  (inject_Z (Z.of_nat v1) / inject_Z (Z.of_nat (Nat.max m 1))
   <= inject_Z (Z.of_nat v2) / inject_Z (Z.of_nat (Nat.max m 1)))%Q.
Proof.
  intros Hle.
  assert (Hd : (0 < inject_Z (Z.of_nat (Nat.max m 1)))%Q).
  { change 0%Q with (inject_Z 0). rewrite <- Zlt_Qlt. lia. }
  assert (Hv : (inject_Z (Z.of_nat v1) <= inject_Z (Z.of_nat v2))%Q).
  { rewrite <- Zle_Qle. lia. }
  unfold Qdiv. apply Qmult_le_compat_r; [done|].
  now apply Qlt_le_weak, Qinv_lt_0_compat.
Qed.

Lemma quotient_one (m : nat) :
  (0 < m)%nat ->
  (inject_Z (Z.of_nat m) / inject_Z (Z.of_nat (Nat.max m 1)) == 1)%Q.
Proof.
  intros Hm. rewrite Nat.max_l by lia. apply Qmult_inv_r.
  intros H. apply (Qeq_bool_neq (inject_Z (Z.of_nat m)) 0); [|done].
  unfold Qeq_bool, inject_Z. cbn. apply Z.eqb_neq. lia.
Qed.

Lemma marker_radius_zero (m : nat) (row : IndexRow) :
  bus_xfer_routes row = 0%nat -> radius (marker m row) = 6%Q.
Proof. unfold marker. cbn. now intros ->. Qed.

Lemma marker_radius_bounds (m : nat) (row : IndexRow) :
  (0 < bus_xfer_routes row <= m)%nat ->
  (8 <= radius (marker m row) <= 20)%Q.
Proof.
  intros [Hpos Hle]. unfold marker. cbn.
  destruct (Nat.eqb_spec (bus_xfer_routes row) 0) as [E|_]; [lia|].
  pose proof (quotient_bounds (bus_xfer_routes row) m Hle). lra.
Qed.

Lemma marker_radius_largest (row : IndexRow) :
  (0 < bus_xfer_routes row)%nat ->
  (radius (marker (bus_xfer_routes row) row) == 20)%Q.
Proof.
  intros Hpos. unfold marker. cbn.
  destruct (Nat.eqb_spec (bus_xfer_routes row) 0) as [E|_]; [lia|].
  rewrite (quotient_one _ Hpos). reflexivity.
Qed.

Lemma marker_radius_mono (m : nat) (row1 row2 : IndexRow) :
  (bus_xfer_routes row1 <= bus_xfer_routes row2 <= m)%nat ->
  (radius (marker m row1) <= radius (marker m row2))%Q.
Proof.
  intros [H12 H2m]. unfold marker. cbn.
  destruct (Nat.eqb_spec (bus_xfer_routes row1) 0) as [E1|N1];
    destruct (Nat.eqb_spec (bus_xfer_routes row2) 0) as [E2|N2].
  - lra.
  - pose proof (quotient_bounds (bus_xfer_routes row2) m H2m). lra.
  - lia.
  - pose proof (quotient_mono _ _ m H12). lra.
Qed.

Lemma marker_fill (m : nat) (row : IndexRow) :
  (bus_xfer_routes row <= m)%nat ->
  fillColor (marker m row)
  = if (0 <? bus_xfer_routes row)%nat then Scale (bus_xfer_routes row) m
    else Grey.
Proof.
  intros Hle. unfold marker. cbn [fillColor].
  destruct (Nat.ltb_spec 0 (bus_xfer_routes row)) as [Hpos|Hz].
  - destruct (Nat.ltb_spec 0 m); [done|lia].
  - now rewrite andb_false_r.
Qed.

(** ** Counts and records *)

Lemma size_list_to_set_le (l : list string) :
  (size (list_to_set l : gset string) <= length l)%nat.
Proof.
  induction l as [|x l IH]; cbn; [now rewrite size_empty|].
  rewrite size_union_alt, size_singleton.
  assert (size (list_to_set l ∖ {[x]} : gset string)
          <= size (list_to_set l : gset string))%nat
    by (apply subseteq_size; set_solver).
  lia.
Qed.

Lemma count_at_le_length (transfers : list Transfer) (s : string) :
  (count_at transfers s <= length transfers)%nat.
Proof.
  unfold count_at, routes_at.
  etransitivity; [apply size_list_to_set_le|].
  rewrite length_map. apply length_filter.
Qed.

Lemma count_at_pos (transfers : list Transfer) (s : string) :
  (0 < count_at transfers s)%nat <-> exists r, mkTransfer s r ∈ transfers.
Proof.
  unfold count_at. split.
  - intros Hpos.
    destruct (routes_at s transfers) as [|r l] eqn:E.
    + cbn in Hpos. rewrite size_empty in Hpos. lia.
    + exists r. apply elem_of_routes_at. rewrite E. left.
  - intros [r Hr%elem_of_routes_at].
    assert (Hin : r ∈ (list_to_set (routes_at s transfers) : gset string))
      by now apply elem_of_list_to_set.
    destruct (size _) eqn:E; [|lia].
    apply size_empty_inv in E. set_solver.
Qed.

(** ** The summary *)

Lemma summary_inv (args : ion_bus_connect.Args) (output : list IndexRow)
    (transfers : list Transfer) (sm : Summary) :
  summary args output transfers = Ok sm ->
  series_max (map bus_xfer_routes output) = Some (max_routes_at_stop sm)
  /\ total_ion_stops sm = length output
  /\ stops_with_transfers sm
     = length (filter (fun row => (0 < bus_xfer_routes row)%nat) output)
  /\ total_transfer_opportunities sm = length transfers
  /\ top_stations sm
     = map (fun row => (stop_name (stop row), bus_xfer_routes row))
           (nlargest 5 output).
Proof.
  unfold summary. destruct (series_max _) as [m|]; [|discriminate].
  now intros [= <-].
Qed.

(** ** Radii compared *)

Lemma for_distance_mono (ion_stops bus_stops : list StopRow)
    (ion_times bus_times : list TimeRow) (r1 r2 : Z)
    (counts2 : gmap string nat) :
  (r1 <= r2)%Z ->
  calculate_transfers_for_distance ion_stops bus_stops ion_times bus_times r2
  = Ok counts2 ->
  exists counts1,
    calculate_transfers_for_distance ion_stops bus_stops ion_times bus_times
      r1 = Ok counts1
    /\ forall k n1, counts1 !! k = Some n1 ->
         exists n2, counts2 !! k = Some n2 /\ (n1 <= n2)%nat.
Proof.
  intros Hr. rewrite !calculate_transfers_for_distance_eq.
  destruct (calculate_transfers (nearby _ _ r2) _ _ _) as [ts2|e] eqn:E2;
    cbn; [|discriminate].
  intros [= <-].
  destruct (calculate_transfers_mono (nearby ion_stops bus_stops r1)
              (nearby ion_stops bus_stops r2) ion_times bus_times
              MAX_TRANSFER_M MAX_TRANSFER_M ts2) as (ts1&->&Hsub);
    [intros row; now apply nearby_mono | apply Z.le_refl | done |].
  cbn. eexists. split; [reflexivity|].
  intros k n1. rewrite !index_dict_lookup.
  destruct (decide _); [|discriminate]. intros [= <-].
  eexists. split; [reflexivity|]. now apply count_at_mono.
Qed.

Lemma analysis_mono (feed : Feed) (date start finish : string)
    (r1 r2 max_transfer : Z) (out2 : list IndexRow) :
  (r1 <= r2)%Z ->
  analysis feed date start finish r2 max_transfer = Ok out2 ->
  exists out1,
    analysis feed date start finish r1 max_transfer = Ok out1
    /\ Forall2 (fun row1 row2 =>
                  stop row1 = stop row2
                  /\ (bus_xfer_routes row1 <= bus_xfer_routes row2)%nat)
               out1 out2.
Proof.
  intros Hr (ts2&E2&->)%analysis_inv. unfold analysis.
  rewrite transfer_index_eq.
  destruct (calculate_transfers_mono
              (nearby (ion_stops feed date) (bus_stops feed date) r1)
              (nearby (ion_stops feed date) (bus_stops feed date) r2)
              (ion_times feed date start finish) (bus_times feed date start finish)
              max_transfer max_transfer ts2) as (ts1&->&Hsub);
    [intros row; now apply nearby_mono | apply Z.le_refl | done |].
  cbn. eexists. split; [reflexivity|].
  apply Forall2_fmap, Forall_Forall2_diag, Forall_forall. intros s _. cbn.
  split; [done|]. now apply count_at_mono.
Qed.

(** The analysis and the interactive engine on the tables of a feed. *)
Lemma analysis_for_distance (feed : Feed) (date start finish : string)
    (dist : Z) :
  (forall out,
     analysis feed date start finish dist MAX_TRANSFER_M = Ok out ->
     exists counts,
       calculate_transfers_for_distance (ion_stops feed date)
         (bus_stops feed date) (ion_times feed date start finish)
         (bus_times feed date start finish) dist = Ok counts
       /\ dom counts = list_to_set (map stop_id (ion_stops feed date))
       /\ Forall (fun row =>
                    counts !! stop_id (stop row) = Some (bus_xfer_routes row))
                 out)
  /\ (forall counts,
        calculate_transfers_for_distance (ion_stops feed date)
          (bus_stops feed date) (ion_times feed date start finish)
          (bus_times feed date start finish) dist = Ok counts ->
        exists out,
          analysis feed date start finish dist MAX_TRANSFER_M = Ok out
          /\ dom counts = list_to_set (map stop_id (ion_stops feed date))
          /\ Forall (fun row =>
                       counts !! stop_id (stop row)
                       = Some (bus_xfer_routes row)) out).
Proof.
  assert (Hrows : forall ts,
    Forall (fun row =>
              index_dict (ion_stops feed date) ts !! stop_id (stop row)
              = Some (bus_xfer_routes row))
           (map (fun s => mkIndexRow s (count_at ts (stop_id s)))
                (ion_stops feed date))).
  { intros ts. rewrite Forall_fmap. apply Forall_forall. intros s Hs. cbn.
    rewrite index_dict_lookup. destruct (decide _) as [|Hn]; [done|].
    exfalso. apply Hn, list_elem_of_fmap. eauto. }
  unfold analysis.
  rewrite transfer_index_eq, calculate_transfers_for_distance_eq.
  destruct (calculate_transfers _ _ _ _) as [ts|e]; cbn;
    (split; [intros out|intros counts]); intros [= <-].
  - eexists. split; [reflexivity|]. split; [apply index_dict_dom|done].
  - eexists. split; [reflexivity|]. split; [apply index_dict_dom|done].
Qed.

(** ** The sweep of the interactive script *)

Lemma distances_elem (d : Z) :
  d ∈ build_transfer_index_interactive.distances
  <-> exists k, (1 <= k <= 10)%Z /\ d = (50 * k)%Z.
Proof.
  unfold build_transfer_index_interactive.distances.
  rewrite list_elem_of_fmap. split.
  - intros (k&->&Hk%elem_of_seqZ). exists k. split; [lia|done].
  - intros (k&Hk&->). exists k. split; [done|]. apply elem_of_seqZ. lia.
Qed.

Lemma interactive_main_dom (feed : Feed) (data : gmap Z (gmap string nat)) :
  build_transfer_index_interactive.main feed = Ok data ->
  dom data = list_to_set build_transfer_index_interactive.distances.
Proof.
  unfold build_transfer_index_interactive.main. intros ->%sweep_dom.
  set_solver.
Qed.

Lemma interactive_main_entry (feed : Feed) (data : gmap Z (gmap string nat))
    (d : Z) :
  build_transfer_index_interactive.main feed = Ok data ->
  d ∈ build_transfer_index_interactive.distances ->
  exists counts,
    data !! d = Some counts
    /\ calculate_transfers_for_distance
         (ion_stops feed build_transfer_index_interactive.SERVICE_DATE)
         (bus_stops feed build_transfer_index_interactive.SERVICE_DATE)
         (ion_times feed build_transfer_index_interactive.SERVICE_DATE
            build_transfer_index_interactive.PEAK_START
            build_transfer_index_interactive.PEAK_END)
         (bus_times feed build_transfer_index_interactive.SERVICE_DATE
            build_transfer_index_interactive.PEAK_START
            build_transfer_index_interactive.PEAK_END) d = Ok counts.
Proof.
  intros Hrun Hd.
  assert (Hin : d ∈ dom data).
  { rewrite (interactive_main_dom feed data Hrun).
    now apply elem_of_list_to_set. }
  apply elem_of_dom in Hin as [counts Hc]. exists counts. split; [done|].
  now apply (interactive_main_lookup feed data).
Qed.

(** ** The maps, and the scripts to their end *)

Lemma centre_Ok {A : Type} (f g : A -> Q) (l : list A) :
  l <> [] -> exists c, folium_Map (mean (map f l)) (mean (map g l)) = Ok c.
Proof. destruct l; [done|]. intros _. cbn [map mean folium_Map]. eauto. Qed.

Lemma create_map_nil : create_map [] = Raise nan_location.
Proof. reflexivity. Qed.

Lemma create_map_cons (gdf : list IndexRow) :
  gdf <> [] ->
  exists c max_routes,
    series_max (map bus_xfer_routes gdf) = Some max_routes
    /\ create_map gdf
       = Ok (mkTransferMap c
               (if (0 <? max_routes)%nat then Some max_routes else None)
               (map (marker max_routes) gdf)).
Proof.
  intros Hne. unfold create_map.
  destruct (centre_Ok (fun row : IndexRow => (geometry (stop row)).2)
              (fun row => (geometry (stop row)).1) gdf Hne) as [c ->].
  destruct (series_max (map bus_xfer_routes gdf)) as [m|] eqn:E.
  - exists c, m. split; reflexivity.
  - apply series_max_None, fmap_nil_inv in E. contradiction.
Qed.

Lemma create_map_inv (gdf : list IndexRow) (m : TransferMap) :
  create_map gdf = Ok m ->
  gdf <> []
  /\ exists max_routes,
       series_max (map bus_xfer_routes gdf) = Some max_routes
       /\ colormap m
          = (if (0 <? max_routes)%nat then Some max_routes else None)
       /\ markers m = map (marker max_routes) gdf.
Proof.
  destruct gdf as [|row gdf]; [discriminate|]. intros H.
  split; [discriminate|].
  destruct (create_map_cons (row :: gdf)) as (c&mx&Hmax&Hrun); [discriminate|].
  rewrite Hrun in H. injection H as <-. exists mx. auto.
Qed.

Lemma create_map_Raise (gdf : list IndexRow) (e : exn) :
  create_map gdf = Raise e -> gdf = [] /\ e = nan_location.
Proof.
  destruct gdf as [|row gdf].
  - rewrite create_map_nil. now intros [= <-].
  - destruct (create_map_cons (row :: gdf)) as (c&mx&_&->); [|discriminate].
    discriminate.
Qed.

Lemma summary_Ok (args : ion_bus_connect.Args) (output : list IndexRow)
    (transfers : list Transfer) :
  output <> [] -> exists sm, summary args output transfers = Ok sm.
Proof.
  intros Hne. unfold summary.
  destruct (series_max (map bus_xfer_routes output)) as [m|] eqn:E; [eauto|].
  apply series_max_None, fmap_nil_inv in E. contradiction.
Qed.

(** The command-line script to its end, against its analysis: an
    exception of the analysis ends it; an index without a row ends it in
    the refusal of the centre of the map; any other index is written,
    with its map and its summary. *)
Lemma cli_run_cases (fromisoformat : string -> bool)
    (args : ion_bus_connect.Args) (feed : Feed) :
  match ion_bus_connect.main fromisoformat args feed with
  | Raise e => Runs.ion_bus_connect.main fromisoformat args feed = Raise e
  | Ok [] => Runs.ion_bus_connect.main fromisoformat args feed = Raise nan_location
  | Ok (row :: rows) =>
      exists o transfers,
        Runs.ion_bus_connect.main fromisoformat args feed = Ok o
        /\ Runs.ion_bus_connect.index o = row :: rows
        /\ create_map (row :: rows) = Ok (Runs.ion_bus_connect.transfer_map o)
        /\ summary args (row :: rows) transfers = Ok (Runs.ion_bus_connect.report o)
  end.
Proof.
  unfold ion_bus_connect.main, Runs.ion_bus_connect.main. cbv zeta.
  destruct (negb _); [reflexivity|].
  destruct (_ =? _)%nat; [reflexivity|].
  unfold analysis, transfer_index.
  destruct (calculate_transfers _ _ _ _) as [ts|e]; cbn [mbind result_bind];
    [|reflexivity].
  cbn [mret result_ret].
  destruct (output _ ts) as [|row rows] eqn:E; [reflexivity|].
  destruct (create_map_cons (row :: rows)) as (c&mx&_&Hmap); [discriminate|].
  destruct (summary_Ok args (row :: rows) ts) as [sm Hsm]; [discriminate|].
  rewrite Hmap, Hsm. cbn [mbind result_bind mret result_ret].
  eexists _, ts. split; [reflexivity|]. cbn [Runs.ion_bus_connect.index Runs.ion_bus_connect.transfer_map
    Runs.ion_bus_connect.report]. auto.
Qed.

(** The interactive script to its end, against [transfer_data]. *)
Lemma interactive_run_cases (feed : Feed) :
  match build_transfer_index_interactive.main feed with
  | Raise e => Runs.build_transfer_index_interactive.main feed = Raise e
  | Ok data =>
      match ion_stops feed build_transfer_index_interactive.SERVICE_DATE with
      | [] => Runs.build_transfer_index_interactive.main feed = Raise nan_location
      | _ :: _ =>
          exists c,
            Runs.build_transfer_index_interactive.main feed
            = Ok (mkInteractiveMap c
                    (stops_data
                       (ion_stops feed
                          build_transfer_index_interactive.SERVICE_DATE)
                       data))
      end
  end.
Proof.
  unfold Runs.build_transfer_index_interactive.main.
  destruct (build_transfer_index_interactive.main feed) as [data|e];
    cbn [mbind result_bind]; [|reflexivity].
  unfold create_interactive_map.
  destruct (ion_stops feed _) as [|s l] eqn:E; [reflexivity|].
  destruct (centre_Ok (fun stop : StopRow => (geometry stop).2)
              (fun stop => (geometry stop).1) (s :: l)) as [c ->];
    [discriminate|].
  exists c. reflexivity.
Qed.

(** An exception of the sweep is the [ValueError] of a time cell. *)
Lemma interactive_main_Raise (feed : Feed) (e : exn) :
  build_transfer_index_interactive.main feed = Raise e ->
  exists s, e = ValueError s /\ strptime s = None
    /\ mask build_transfer_index_interactive.PEAK_START
         build_transfer_index_interactive.PEAK_END (Some s) = true
    /\ exists st, st ∈ stop_times feed
          /\ (st_arrival_time st = Some s \/ st_departure_time st = Some s).
Proof.
  unfold build_transfer_index_interactive.main.
  intros (d&_&Hd)%sweep_Raise.
  rewrite calculate_transfers_for_distance_eq in Hd.
  apply (analysis_Raise feed build_transfer_index_interactive.SERVICE_DATE
           build_transfer_index_interactive.PEAK_START
           build_transfer_index_interactive.PEAK_END d MAX_TRANSFER_M).
  unfold analysis. rewrite transfer_index_eq.
  destruct (calculate_transfers _ _ _ _) as [ts|e']; cbn in *;
    [discriminate|]. now injection Hd as ->.
Qed.

End ReportFacts.

(* ===================================================================== *)
(** * The properties of the specification *)
(* ===================================================================== *)

Module Properties.

Import Clock Geometry Engine Scripts Examples.
Import ClockFacts GeometryFacts PairingFacts AggregationFacts EngineFacts.
Import ScriptFacts.

#[local] Open Scope list_scope.
#[local] Set Warnings "-clear-no-such-hyp".

(** ** The scenario of the specification *)

(** [R1] at [(0, 0)], [B1] at [(50, 0)] on route X: matched at radius 100,
    not at radius 40, nor at radius 50, where it is on the boundary.
    Arrival at 07:00:00, departures at 07:03:00 and
    07:10:00: with a wait of 6 minutes the first departure alone counts,
    and the count is 1; with a wait of 0 the count is 0. *)
Example specification_scenario :
  nearby [R1] [B1] 100 = [mkNear "B1" "R1"]
  /\ nearby [R1] [B1] 40 = []
  /\ nearby [R1] [B1] 50 = []
  /\ calculate_transfers (nearby [R1] [B1] 100) [arrival_0700]
       [departure_0703; departure_0710] 6 = Ok [mkTransfer "R1" "X"]
  /\ transfer_index [R1] [B1] [arrival_0700]
       [departure_0703; departure_0710] 100 6 = Ok [mkIndexRow R1 1]
  /\ transfer_index [R1] [B1] [arrival_0700]
       [departure_0703; departure_0710] 100 0 = Ok [mkIndexRow R1 0]
  /\ build_transfer_index.main morning_feed
     = Ok (build_transfer_index.mkReport [mkIndexRow R1 1] false).
Proof. repeat split; now vm_compute. Qed.

(** ** The time-window filter *)

(** C10, as the specification has it, fails: two strings of the shape
    [dd:dd:dd] need not be in the order of their elapsed seconds.  A
    minute field of 99 puts "07:99:00" before "08:00:00" although it
    stands for 08:39:00, so the window from 08:00:00 to 09:00:00 leaves it
    out. *)
Lemma shape_order_counterexample :
  ~ (forall s t x y,
       str_match s = true -> str_match t = true ->
       clock_seconds s = Some x -> clock_seconds t = Some y ->
       (String.leb s t = true <-> (x <= y)%Z))
  /\ (clock_seconds "07:99:00" = Some 31140%Z
      /\ clock_seconds "08:00:00" = Some 28800%Z
      /\ clock_seconds "09:00:00" = Some 32400%Z
      /\ mask "08:00:00" "09:00:00" (Some "07:99:00") = false).
Proof.
  split; [|now vm_compute].
  intros H.
  destruct (H "07:99:00" "08:00:00" 31140%Z 28800%Z) as [Hle _];
    try reflexivity.
  specialize (Hle eq_refl). lia.
Qed.

(** C10 (amended).  On strings of eight ASCII characters [dd:dd:dd], the
    digits being [0-9], whose minute and second fields are below 60 (the
    hour field is free, 00 to 99), the character-by-character order is
    the order of elapsed seconds; so, between two such bounds, the mask
    admits such a string exactly when its elapsed time is in the closed
    window.  A missing cell and a string that does not match the shape
    are left out; the mask is a total function, it does not fail.  The
    restriction to ASCII digits is needed: the shape [\d] takes the
    decimal digits of every script, and 07:05:00 written with an
    Arabic-Indic five is after 07:09:00 in the order of the strings. *)
Theorem time_window_filter (start stop : string) (a b : Z) :
  sexagesimal start = true -> sexagesimal stop = true ->
  clock_seconds start = Some a -> clock_seconds stop = Some b ->
  (forall s t x y,
     sexagesimal s = true -> sexagesimal t = true ->
     clock_seconds s = Some x -> clock_seconds t = Some y ->
     (String.leb s t = true <-> (x <= y)%Z))
  /\ (forall s x,
        sexagesimal s = true -> clock_seconds s = Some x ->
        (mask start stop (Some s) = true <-> (a <= x <= b)%Z))
  /\ mask start stop None = false
  /\ (forall s, str_match s = false -> mask start stop (Some s) = false)
  /\ (str_match time_0705_arabic = true
      /\ strptime time_0705_arabic = Some 25500%Z
      /\ mask "07:00:00" "07:09:00" (Some time_0705_arabic) = false).
Proof.
  intros Hstart Hstop Ha Hb. split; [|split; [|split; [|split]]];
    [| | | |now vm_compute].
  - intros s t x y. apply leb_clock_seconds.
  - intros s x Hs Hx. unfold mask. cbn [notna str_match_na ge le andb].
    assert (Hm : str_match s = true).
    { unfold clock_seconds in Hx. destruct (fields s) as [f|] eqn:F; [|done].
      now apply (fields_str_match s f). }
    rewrite Hm, andb_true_iff. cbn [andb].
    rewrite (leb_clock_seconds start s a x), (leb_clock_seconds s stop x b);
      done.
  - reflexivity.
  - intros s Hs. unfold mask. cbn. now rewrite Hs.
Qed.

Lemma time_window_filter_witness :
  (sexagesimal "07:00:00" = true /\ sexagesimal "09:00:00" = true
   /\ clock_seconds "07:00:00" = Some 25200%Z
   /\ clock_seconds "09:00:00" = Some 32400%Z)
  /\ ((forall s t x y,
         sexagesimal s = true -> sexagesimal t = true ->
         clock_seconds s = Some x -> clock_seconds t = Some y ->
         (String.leb s t = true <-> (x <= y)%Z))
      /\ (forall s x,
            sexagesimal s = true -> clock_seconds s = Some x ->
            (mask "07:00:00" "09:00:00" (Some s) = true
             <-> (25200 <= x <= 32400)%Z))
      /\ mask "07:00:00" "09:00:00" None = false
      /\ (forall s, str_match s = false ->
                    mask "07:00:00" "09:00:00" (Some s) = false)
      /\ (str_match time_0705_arabic = true
          /\ strptime time_0705_arabic = Some 25500%Z
          /\ mask "07:00:00" "07:09:00" (Some time_0705_arabic) = false)).
Proof.
  split.
  - repeat split; reflexivity.
  - apply (time_window_filter "07:00:00" "09:00:00" 25200 32400); reflexivity.
Defined.

(** ** Elapsed time across midnight *)

(** C1, at a pair of events after midnight.  The train calls at 25:30:00
    and the bus leaves at 25:33:00, three minutes of elapsed time later
    and within the six-minute wait; both strings pass the time window, the
    fixed-date parse refuses the hour field, and the run ends in a
    [ValueError] instead of counting the transfer.  The same parse refuses
    25:30:00 next to 07:00:00.  In general: a cell [dd:dd:dd] of ASCII
    digits that the parser takes is read as its elapsed seconds (no
    wrap); every time that the parser returns is the sum of an hour field
    up to 23, a minute field up to 59 and a second field up to 61, so no
    cell at all is read as a time past 24:00:01; and any cell with an
    hour field of 24 or more raises. *)
Theorem post_midnight_pairing_raises :
  (clock_seconds "25:30:00" = Some 91800%Z
   /\ clock_seconds "25:33:00" = Some 91980%Z
   /\ clock_seconds "07:00:00" = Some 25200%Z)
  /\ (mask "25:00:00" "26:00:00" (Some "25:30:00") = true
      /\ mask "25:00:00" "26:00:00" (Some "25:33:00") = true)
  /\ to_datetime (Some "25:30:00") = Raise (ValueError "25:30:00")
  /\ calculate_transfers [mkNear "B1" "R1"]
       [mkTime "T1" "R1" (Some "25:30:00") (Some "25:30:30") "301"]
       [mkTime "T2" "B1" (Some "25:32:30") (Some "25:33:00") "X"] 6
     = Raise (ValueError "25:30:00")
  /\ (forall fromisoformat,
        ion_bus_connect.main fromisoformat night_args night_feed
        = if fromisoformat "2025-06-10" then Raise (ValueError "25:30:00")
          else Raise (SystemExit 2))
  /\ (forall s f t,
        fields s = Some f -> to_datetime (Some s) = Ok (Some t) ->
        clock_seconds s = Some t)
  /\ (forall cell t,
        to_datetime cell = Ok (Some t) ->
        exists s hh mm ss,
          cell = Some s /\ format_regex s = Some (hh, mm, ss, EmptyString)
          /\ (0 <= hh <= 23)%Z /\ (0 <= mm <= 59)%Z /\ (0 <= ss <= 61)%Z
          /\ t = (3600 * hh + 60 * mm + ss)%Z /\ (0 <= t <= 86401)%Z)
  /\ (forall s hh mm ss,
        fields s = Some (hh, mm, ss) -> (24 <= hh)%Z ->
        to_datetime (Some s) = Raise (ValueError s)).
Proof.
  split; [now vm_compute|]. split; [now vm_compute|].
  split; [now vm_compute|]. split; [now vm_compute|].
  split; [|split; [|split]].
  - intros f. unfold ion_bus_connect.main.
    cbn [ion_bus_connect.date night_args].
    destruct (f "2025-06-10"); cbn [negb]; [|reflexivity].
    now vm_compute.
  - apply to_datetime_elapsed.
  - apply to_datetime_value.
  - apply to_datetime_past_midnight.
Qed.

(** ** The proximity match *)




(** ** The wait-time rule *)

(** C4.  The loop adds a record for an arrival and a departure exactly
    when both cells are read as times [a] and [d] with
    [0 <= diff_minutes <= max_transfer], [diff_minutes] being
    [(d - a) / 60].  The run completes exactly when every cell it reads
    can be read; [transfers] then holds one record for every row of
    [nearby], arrival at its rail stop and departure from its bus stop
    for which the test succeeds, and no other, so the record of a rail
    stop and a route is among [transfers] exactly when some such
    combination at that stop and of that route passes the test.  Both
    ends count: the test is [0 <= d - a <= 60 * max_transfer] in seconds,
    it holds at [d = a] for any threshold that is not negative, fails for
    any wait longer than the threshold, and with a threshold of zero it
    holds at [d = a] only.  The times are the parser's: an hour written
    with one digit is read, and a second field of 60 is the next
    minute. *)
Theorem transfer_window (nearby : list NearRow)
    (ion_times bus_times : list TimeRow) (max_transfer : Z) :
  (forall i_row b_row,
     emitted max_transfer i_row b_row = true
     <-> exists a d,
           to_datetime (arrival_time i_row) = Ok (Some a)
           /\ to_datetime (departure_time b_row) = Ok (Some d)
           /\ (0 <= inject_Z (d - a) / 60
               /\ inject_Z (d - a) / 60 <= inject_Z max_transfer)%Q)
  /\ ((exists transfers,
         calculate_transfers nearby ion_times bus_times max_transfer
         = Ok transfers)
      <-> forall row i_row b_row,
            row ∈ nearby -> meets ion_times bus_times row i_row b_row ->
            (exists t, to_datetime (arrival_time i_row) = Ok t)
            /\ (exists t, to_datetime (departure_time b_row) = Ok t))
  /\ (forall transfers,
        calculate_transfers nearby ion_times bus_times max_transfer
        = Ok transfers ->
        transfers = opportunities nearby ion_times bus_times max_transfer
        /\ forall s r,
             mkTransfer s r ∈ transfers
             <-> exists row i_row b_row,
                   row ∈ nearby /\ stop_id_right row = s
                   /\ meets ion_times bus_times row i_row b_row
                   /\ route_id b_row = r
                   /\ emitted max_transfer i_row b_row = true)
  /\ (forall a d,
        in_window (diff_minutes (Some d) (Some a)) max_transfer = true
        <-> (0 <= d - a <= 60 * max_transfer)%Z)
  /\ (forall a, (0 <= max_transfer)%Z ->
        in_window (diff_minutes (Some a) (Some a)) max_transfer = true)
  /\ (forall a d, (60 * max_transfer < d - a)%Z ->
        in_window (diff_minutes (Some d) (Some a)) max_transfer = false)
  /\ (max_transfer = 0%Z ->
      forall a d,
        in_window (diff_minutes (Some d) (Some a)) max_transfer = true
        <-> d = a)
  /\ (to_datetime (Some "7:00:00") = Ok (Some 25200%Z)
      /\ to_datetime (Some "07:03:60") = Ok (Some 25440%Z)
      /\ emitted 6 arrival_7 departure_070360 = true
      /\ emitted 3 arrival_7 departure_070360 = false
      /\ calculate_transfers [mkNear "B1" "R1"] [arrival_7]
           [departure_070360] 6 = Ok [mkTransfer "R1" "X"]).
Proof.
  assert (Hemit : forall i_row b_row,
    emitted max_transfer i_row b_row = true
    <-> exists a d,
          to_datetime (arrival_time i_row) = Ok (Some a)
          /\ to_datetime (departure_time b_row) = Ok (Some d)
          /\ (0 <= inject_Z (d - a) / 60
              /\ inject_Z (d - a) / 60 <= inject_Z max_transfer)%Q).
  { intros i_row b_row. rewrite emitted_qualifies. unfold qualifies.
    split; intros (a&d&Ha&Hd&W); exists a, d; (split; [done|]);
      (split; [done|]); now apply in_window_minutes. }
  split; [exact Hemit|]. split; [apply calculate_transfers_Ok|].
  split; [|split; [|split; [|split; [|split]]]].
  - intros transfers Hrun.
    split; [now apply calculate_transfers_opportunities|].
    intros s r. rewrite (calculate_transfers_elem _ _ _ _ _ _ Hrun). split.
    + intros (row&i_row&b_row&Hrow&Hm&Hq&[= -> ->]).
      exists row, i_row, b_row. rewrite emitted_qualifies. auto.
    + intros (row&i_row&b_row&Hrow&<-&Hm&<-&Hq).
      exists row, i_row, b_row. rewrite <- emitted_qualifies. auto.
  - intros a d. apply in_window_seconds.
  - intros a Hm. apply in_window_seconds. lia.
  - intros a d Hlong.
    destruct (in_window _ _) eqn:W; [|done].
    apply in_window_seconds in W. lia.
  - intros -> a d. rewrite in_window_seconds. lia.
  - repeat split; now vm_compute.
Qed.

(** The scenario of the specification: of the departures 3 and 10 minutes
    after the arrival, the first one alone gives a record. *)
Lemma transfer_window_witness :
  calculate_transfers (nearby [R1] [B1] 100) [arrival_0700]
    [departure_0703; departure_0710] 6
  = Ok [mkTransfer "R1" "X"]
  /\ [mkTransfer "R1" "X"]
     = opportunities (nearby [R1] [B1] 100) [arrival_0700]
         [departure_0703; departure_0710] 6
  /\ emitted 6 arrival_0700 departure_0703 = true
  /\ emitted 6 arrival_0700 departure_0710 = false.
Proof.
  assert (Hrun : calculate_transfers (nearby [R1] [B1] 100) [arrival_0700]
                   [departure_0703; departure_0710] 6
                 = Ok [mkTransfer "R1" "X"]) by now vm_compute.
  split; [exact Hrun|].
  destruct (transfer_window (nearby [R1] [B1] 100) [arrival_0700]
              [departure_0703; departure_0710] 6) as (_&_&Hlist&_).
  split; [exact (proj1 (Hlist _ Hrun))|]. split; now vm_compute.
Defined.

(** ** The aggregation *)

(** C2.  [output] has exactly one row for every row of [ion_stops], in the
    same order, whatever the records; a stop without a record has the
    count 0.  So every run of the batch engine that reaches the
    aggregation gives an index over exactly the rail stops, and every such
    run of the interactive engine a dictionary whose keys are exactly the
    rail stop ids; it never fails on a label.  With no arrival or no
    departure at all, or no row in [nearby], the run completes and every
    count is 0. *)
Theorem index_total (ion_stops : list StopRow) :
  (forall transfers,
     map (fun row => stop_id (stop row)) (output ion_stops transfers)
     = map stop_id ion_stops)
  /\ (forall transfers row,
        row ∈ output ion_stops transfers ->
        (forall r, mkTransfer (stop_id (stop row)) r ∉ transfers) ->
        bus_xfer_routes row = 0%nat)
  /\ (forall bus_stops ion_times bus_times buffer_m max_transfer out,
        transfer_index ion_stops bus_stops ion_times bus_times buffer_m
          max_transfer = Ok out ->
        map (fun row => stop_id (stop row)) out = map stop_id ion_stops)
  /\ (forall bus_stops ion_times bus_times buffer_m,
        (exists counts,
           calculate_transfers_for_distance ion_stops bus_stops ion_times
             bus_times buffer_m = Ok counts
           /\ dom counts = list_to_set (map stop_id ion_stops))
        \/ (exists time_data,
              calculate_transfers_for_distance ion_stops bus_stops ion_times
                bus_times buffer_m = Raise (ValueError time_data)))
  /\ (forall bus_stops ion_times bus_times buffer_m max_transfer,
        ion_times = [] \/ bus_times = [] ->
        transfer_index ion_stops bus_stops ion_times bus_times buffer_m
          max_transfer
        = Ok (map (fun s => mkIndexRow s 0) ion_stops)
        /\ exists counts,
             calculate_transfers_for_distance ion_stops bus_stops ion_times
               bus_times buffer_m = Ok counts
             /\ dom counts = list_to_set (map stop_id ion_stops)
             /\ forall k n, counts !! k = Some n -> n = 0%nat)
  /\ (forall bus_stops ion_times bus_times buffer_m max_transfer,
        nearby ion_stops bus_stops buffer_m = [] ->
        transfer_index ion_stops bus_stops ion_times bus_times buffer_m
          max_transfer
        = Ok (map (fun s => mkIndexRow s 0) ion_stops)).
Proof.
  split; [|split; [|split; [|split; [|split]]]].
  - intros ts. rewrite output_rows, map_map. done.
  - intros ts row Hrow Hnone. rewrite output_rows in Hrow.
    apply list_elem_of_fmap in Hrow as (s&->&_). cbn in *.
    unfold count_at.
    destruct (routes_at (stop_id s) ts) as [|r l] eqn:E; [done|].
    exfalso. apply (Hnone r). apply elem_of_routes_at. rewrite E. left.
  - intros bus_stops it bt r m out. rewrite transfer_index_eq.
    destruct (calculate_transfers _ _ _ _) as [ts|e]; cbn; [|discriminate].
    intros [= <-]. rewrite map_map. done.
  - intros bus_stops it bt r. rewrite calculate_transfers_for_distance_eq.
    destruct (calculate_transfers _ _ _ _) as [ts|e] eqn:E; cbn.
    + left. eauto using index_dict_dom.
    + right. apply calculate_transfers_Raise in E as (sd&->&_). eauto.
  - intros bus_stops it bt r m. apply no_events_index.
  - intros bus_stops it bt r m Hnone. now rewrite transfer_index_eq, Hnone.
Qed.

(** C3.  The count of a rail stop is the number of distinct route ids
    among its records: the length of a list without repetition that holds
    exactly the routes [r] such that the record of the stop and [r] is
    among [transfers], however many times.  This is the count in [output]
    for any list of records: [output] has one row for every rail stop, in
    order, and the row of a stop has that count.  Hence it is the count in
    the index of every run of the batch engine and in the dictionary of
    every run of the interactive one, whose keys are the ids of the rail
    stops and which gives every rail stop that count.  Two bus stops of
    one route that both contribute give two records and the count 1; so
    do two departures of one route from one bus stop. *)
Theorem distinct_route_count (ion_stops : list StopRow) :
  (forall transfers,
     Forall (fun row =>
               exists routes : list string,
                 NoDup routes
                 /\ (forall r, r ∈ routes
                       <-> mkTransfer (stop_id (stop row)) r ∈ transfers)
                 /\ bus_xfer_routes row = length routes)
            (output ion_stops transfers))
  /\ (forall transfers,
        Forall2 (fun s row =>
                   stop row = s
                   /\ exists routes : list string,
                        NoDup routes
                        /\ (forall r, r ∈ routes
                              <-> mkTransfer (stop_id s) r ∈ transfers)
                        /\ bus_xfer_routes row = length routes)
                ion_stops (output ion_stops transfers))
  /\ (forall bus_stops ion_times bus_times buffer_m max_transfer out,
        transfer_index ion_stops bus_stops ion_times bus_times buffer_m
          max_transfer = Ok out ->
        exists transfers,
          calculate_transfers (nearby ion_stops bus_stops buffer_m)
            ion_times bus_times max_transfer = Ok transfers
          /\ out = output ion_stops transfers)
  /\ (forall bus_stops ion_times bus_times buffer_m counts,
        calculate_transfers_for_distance ion_stops bus_stops ion_times
          bus_times buffer_m = Ok counts ->
        exists transfers,
          calculate_transfers (nearby ion_stops bus_stops buffer_m)
            ion_times bus_times MAX_TRANSFER_M = Ok transfers
          /\ dom counts = list_to_set (map stop_id ion_stops)
          /\ (forall s, s ∈ ion_stops ->
                exists routes : list string,
                  NoDup routes
                  /\ (forall r, r ∈ routes
                        <-> mkTransfer (stop_id s) r ∈ transfers)
                  /\ counts !! stop_id s = Some (length routes))
          /\ forall k n, counts !! k = Some n ->
               exists routes : list string,
                 NoDup routes
                 /\ (forall r, r ∈ routes <-> mkTransfer k r ∈ transfers)
                 /\ n = length routes)
  /\ (calculate_transfers (nearby [R1] [B1; B2] 100) [arrival_0700]
        [departure_0703; departure_0705] 6
      = Ok [mkTransfer "R1" "X"; mkTransfer "R1" "X"]
      /\ transfer_index [R1] [B1; B2] [arrival_0700]
           [departure_0703; departure_0705] 100 6
         = Ok [mkIndexRow R1 1]
      /\ calculate_transfers_for_distance [R1] [B1; B2] [arrival_0700]
           [departure_0703; departure_0705] 100
         = Ok {[ "R1" := 1%nat ]})
  /\ (calculate_transfers (nearby [R1] [B1] 100) [arrival_0700]
        [departure_0703; mkTime "T5" "B1" None (Some "07:05:00") "X"] 6
      = Ok [mkTransfer "R1" "X"; mkTransfer "R1" "X"]
      /\ transfer_index [R1] [B1] [arrival_0700]
           [departure_0703; mkTime "T5" "B1" None (Some "07:05:00") "X"] 100 6
         = Ok [mkIndexRow R1 1]
      /\ calculate_transfers_for_distance [R1] [B1] [arrival_0700]
           [departure_0703; mkTime "T5" "B1" None (Some "07:05:00") "X"] 100
         = Ok {[ "R1" := 1%nat ]}).
Proof.
  split; [|split; [|split; [|split; [|split]]]].
  - intros transfers. rewrite output_rows, Forall_fmap.
    apply Forall_forall. intros s _. cbn. apply count_at_distinct.
  - intros transfers. rewrite output_rows.
    apply Forall2_fmap_r, Forall_Forall2_diag, Forall_forall.
    intros s _. cbn. split; [done|]. apply count_at_distinct.
  - intros bus_stops it bt r m out. unfold transfer_index.
    destruct (calculate_transfers _ _ _ _) as [ts|e]; cbn; [|discriminate].
    intros [= <-]. eauto.
  - intros bus_stops it bt r counts.
    rewrite calculate_transfers_for_distance_eq.
    destruct (calculate_transfers _ _ _ _) as [ts|e]; cbn; [|discriminate].
    intros [= <-]. exists ts. split; [done|].
    split; [apply index_dict_dom|]. split.
    + intros s Hs. rewrite index_dict_lookup.
      destruct (decide _) as [|Hn].
      * destruct (count_at_distinct ts (stop_id s)) as (routes&Hnd&Hr&Hc).
        exists routes. rewrite Hc. auto.
      * exfalso. apply Hn, list_elem_of_fmap. eauto.
    + intros k n. rewrite index_dict_lookup.
      destruct (decide _); [|discriminate]. intros [= <-].
      destruct (count_at_distinct ts k) as (routes&Hnd&Hr&Hn). eauto.
  - split; [now vm_compute|]. split; [now vm_compute|].
    rewrite calculate_transfers_for_distance_eq. now vm_compute.
  - split; [now vm_compute|]. split; [now vm_compute|].
    rewrite calculate_transfers_for_distance_eq. now vm_compute.
Qed.

(** ** Invalid parameters *)

(** C5, at a negative radius and at a negative wait.  Neither is rejected:
    with [--buffer -5], and with [--transfer-time -1], the run goes through
    and writes an index in which the stop has the count 0, where the valid
    parameters give it the count 1.  Only the date is validated.  A
    negative radius gives the all-zero index on any input, and so does any
    run that completes with a negative wait. *)
Theorem negative_parameters_accepted :
  (forall fromisoformat,
     ion_bus_connect.main fromisoformat negative_buffer_args morning_feed
     = if fromisoformat "2025-06-10" then Ok [mkIndexRow R1 0]
       else Raise (SystemExit 2))
  /\ (forall fromisoformat,
        ion_bus_connect.main fromisoformat negative_wait_args morning_feed
        = if fromisoformat "2025-06-10" then Ok [mkIndexRow R1 0]
          else Raise (SystemExit 2))
  /\ (forall fromisoformat,
        ion_bus_connect.main fromisoformat default_args morning_feed
        = if fromisoformat "2025-06-10" then Ok [mkIndexRow R1 1]
          else Raise (SystemExit 2))
  /\ (forall ion_stops bus_stops ion_times bus_times buffer_m max_transfer,
        (buffer_m < 0)%Z ->
        transfer_index ion_stops bus_stops ion_times bus_times buffer_m
          max_transfer
        = Ok (map (fun s => mkIndexRow s 0) ion_stops))
  /\ (forall ion_stops bus_stops ion_times bus_times buffer_m max_transfer out,
        (max_transfer < 0)%Z ->
        transfer_index ion_stops bus_stops ion_times bus_times buffer_m
          max_transfer = Ok out ->
        out = map (fun s => mkIndexRow s 0) ion_stops).
Proof.
  split; [|split; [|split; [|split]]].
  - intros f. unfold ion_bus_connect.main.
    cbn [ion_bus_connect.date negative_buffer_args].
    destruct (f "2025-06-10"); cbn [negb]; [now vm_compute | reflexivity].
  - intros f. unfold ion_bus_connect.main.
    cbn [ion_bus_connect.date negative_wait_args].
    destruct (f "2025-06-10"); cbn [negb]; [now vm_compute | reflexivity].
  - intros f. unfold ion_bus_connect.main.
    cbn [ion_bus_connect.date default_args].
    destruct (f "2025-06-10"); cbn [negb]; [now vm_compute | reflexivity].
  - intros ion_stops bus_stops it bt r m Hr.
    rewrite transfer_index_eq, nearby_nonpositive by lia. done.
  - intros ion_stops bus_stops it bt r m out Hm. rewrite transfer_index_eq.
    destruct (calculate_transfers _ _ _ _) as [ts|e] eqn:E; cbn;
      [|discriminate].
    apply calculate_transfers_negative_wait in E as ->; [|done].
    now intros [= <-].
Qed.

(** ** A day without service *)

(** C6, as the specification has it, fails: the engine's result for an
    empty schedule is the very value it gives for a schedule with service
    but no transfer within the wait (here a single departure ten minutes
    after the arrival). *)
Lemma empty_schedule_counterexample :
  calculate_transfers_for_distance [R1] [B1] [] [] 100
  = calculate_transfers_for_distance [R1] [B1] [arrival_0700]
      [departure_0710] 100
  /\ transfer_index [R1] [B1] [] [] 100 6
     = transfer_index [R1] [B1] [arrival_0700] [departure_0710] 100 6.
Proof. split; now vm_compute. Qed.

(** C6 (amended).  With empty event lists the engine returns the index in
    which every rail stop has the count 0, and this is all it returns: any
    run in which no transfer qualifies gives the same value.  The scripts
    tell the case apart outside the engine.  A date without service ends
    the command-line script with exit status 1, before any index; it
    leaves the batch script without a single rail stop, and the script
    writes an empty index and prints its warning. *)
Theorem empty_schedule (ion_stops bus_stops : list StopRow)
    (buffer_m max_transfer : Z) :
  transfer_index ion_stops bus_stops [] [] buffer_m max_transfer
  = Ok (map (fun s => mkIndexRow s 0) ion_stops)
  /\ (exists counts,
        calculate_transfers_for_distance ion_stops bus_stops [] [] buffer_m
        = Ok counts
        /\ dom counts = list_to_set (map stop_id ion_stops)
        /\ forall k n, counts !! k = Some n -> n = 0%nat)
  /\ (forall ion_times bus_times,
        calculate_transfers (nearby ion_stops bus_stops buffer_m)
          ion_times bus_times max_transfer = Ok [] ->
        transfer_index ion_stops bus_stops ion_times bus_times buffer_m
          max_transfer
        = transfer_index ion_stops bus_stops [] [] buffer_m max_transfer)
  /\ (forall ion_times bus_times,
        calculate_transfers (nearby ion_stops bus_stops buffer_m)
          ion_times bus_times MAX_TRANSFER_M = Ok [] ->
        calculate_transfers_for_distance ion_stops bus_stops ion_times
          bus_times buffer_m
        = calculate_transfers_for_distance ion_stops bus_stops [] [] buffer_m)
  /\ (forall fromisoformat args feed,
        service_ids feed (ion_bus_connect.date args) = [] ->
        ion_bus_connect.main fromisoformat args feed
        = Raise (SystemExit
                   (if fromisoformat (ion_bus_connect.date args) then 1
                    else 2)))
  /\ (forall feed,
        service_ids feed build_transfer_index.SERVICE_DATE = [] ->
        build_transfer_index.main feed
        = Ok (build_transfer_index.mkReport [] true)).
Proof.
  destruct (no_events_index ion_stops bus_stops [] [] buffer_m max_transfer)
    as [Hidx Hdict]; [now left|].
  split; [done|]. split; [done|]. split; [|split; [|split]].
  - intros it bt Hnone. rewrite !transfer_index_eq, Hnone.
    now rewrite calculate_transfers_no_events by now left.
  - intros it bt Hnone. rewrite !calculate_transfers_for_distance_eq, Hnone.
    now rewrite calculate_transfers_no_events by now left.
  - intros f args feed Hnone. unfold ion_bus_connect.main. rewrite Hnone.
    now destruct (f _).
  - intros feed Hnone. unfold build_transfer_index.main, analysis.
    destruct (no_service feed build_transfer_index.SERVICE_DATE
                build_transfer_index.PEAK_START build_transfer_index.PEAK_END
                Hnone) as (-> & -> & -> & ->).
    reflexivity.
Qed.

(** ** Monotonicity *)

(** C8.  For radii [r1 <= r2] and waits [m1 <= m2] over the same stops and
    events: every row of [nearby] at [r1] is a row at [r2]; an arrival and
    a departure that pass the test at [m1] pass it at [m2]; when the run at
    [(r2, m2)] completes, so does the run at [(r1, m1)], every record of
    the smaller run is a record of the larger one, and no stop's count is
    larger in the smaller run, in the index of the batch engine as in the
    dictionary of the interactive one, and so between any two distances
    of the interactive script's sweep. *)
Theorem monotone_in_radius_and_wait (ion_stops bus_stops : list StopRow)
    (ion_times bus_times : list TimeRow) (r1 r2 m1 m2 : Z) :
  (r1 <= r2)%Z -> (m1 <= m2)%Z ->
  (forall row, row ∈ nearby ion_stops bus_stops r1 ->
               row ∈ nearby ion_stops bus_stops r2)
  /\ (forall i_row b_row,
        emitted m1 i_row b_row = true -> emitted m2 i_row b_row = true)
  /\ (forall ts2,
        calculate_transfers (nearby ion_stops bus_stops r2) ion_times
          bus_times m2 = Ok ts2 ->
        exists ts1,
          calculate_transfers (nearby ion_stops bus_stops r1) ion_times
            bus_times m1 = Ok ts1
          /\ forall t, t ∈ ts1 -> t ∈ ts2)
  /\ (forall out2,
        transfer_index ion_stops bus_stops ion_times bus_times r2 m2
        = Ok out2 ->
        exists out1,
          transfer_index ion_stops bus_stops ion_times bus_times r1 m1
          = Ok out1
          /\ Forall2 (fun row1 row2 =>
                        stop row1 = stop row2
                        /\ (bus_xfer_routes row1 <= bus_xfer_routes row2)%nat)
                     out1 out2)
  /\ (forall counts2,
        calculate_transfers_for_distance ion_stops bus_stops ion_times
          bus_times r2 = Ok counts2 ->
        exists counts1,
          calculate_transfers_for_distance ion_stops bus_stops ion_times
            bus_times r1 = Ok counts1
          /\ forall k n1, counts1 !! k = Some n1 ->
               exists n2, counts2 !! k = Some n2 /\ (n1 <= n2)%nat)
  /\ (forall feed data counts1 counts2,
        build_transfer_index_interactive.main feed = Ok data ->
        data !! r1 = Some counts1 -> data !! r2 = Some counts2 ->
        forall k n1, counts1 !! k = Some n1 ->
          exists n2, counts2 !! k = Some n2 /\ (n1 <= n2)%nat).
Proof.
  intros Hr Hm.
  assert (Hnear : forall row, row ∈ nearby ion_stops bus_stops r1 ->
                              row ∈ nearby ion_stops bus_stops r2)
    by (intros row; now apply nearby_mono).
  assert (Hdict : forall stops buses it bt counts2,
    calculate_transfers_for_distance stops buses it bt r2 = Ok counts2 ->
    exists counts1,
      calculate_transfers_for_distance stops buses it bt r1 = Ok counts1
      /\ forall k n1, counts1 !! k = Some n1 ->
           exists n2, counts2 !! k = Some n2 /\ (n1 <= n2)%nat).
  { intros stops buses it bt counts2.
    rewrite !calculate_transfers_for_distance_eq.
    destruct (calculate_transfers (nearby _ _ r2) _ _ _) as [ts2|e] eqn:E2;
      cbn; [|discriminate].
    intros [= <-].
    destruct (calculate_transfers_mono (nearby stops buses r1)
                (nearby stops buses r2) it bt MAX_TRANSFER_M MAX_TRANSFER_M
                ts2) as (ts1&->&Hsub);
      [intros row; now apply nearby_mono | apply Z.le_refl | done |].
    cbn. eexists. split; [reflexivity|].
    intros k n1. rewrite !index_dict_lookup.
    destruct (decide _); [|discriminate]. intros [= <-].
    eexists. split; [reflexivity|]. now apply count_at_mono. }
  split; [done|]. split; [|split; [|split; [|split]]].
  - intros i_row b_row. rewrite !emitted_qualifies.
    intros (a&d&Ha&Hd&W). exists a, d. split; [done|]. split; [done|].
    apply in_window_seconds. apply in_window_seconds in W. lia.
  - intros ts2 H2. now apply (calculate_transfers_mono _ _ _ _ _ _ _ Hnear Hm).
  - intros out2. rewrite !transfer_index_eq.
    destruct (calculate_transfers (nearby _ _ r2) _ _ _) as [ts2|e] eqn:E2;
      cbn; [|discriminate].
    intros [= <-].
    destruct (calculate_transfers_mono _ _ _ _ _ _ _ Hnear Hm E2)
      as (ts1&->&Hsub).
    cbn. eexists. split; [reflexivity|].
    apply Forall2_fmap, Forall2_same_length_lookup_2; [done|].
    intros i x y Hx Hy. rewrite Hx in Hy. injection Hy as <-. cbn.
    split; [done|]. now apply count_at_mono.
  - apply Hdict.
  - intros feed data counts1 counts2 Hrun H1 H2.
    apply (interactive_main_lookup feed data r1 counts1 Hrun) in H1.
    apply (interactive_main_lookup feed data r2 counts2 Hrun) in H2.
    destruct (Hdict _ _ _ _ _ H2) as (c1&Hc1&Hle).
    rewrite H1 in Hc1. injection Hc1 as <-. exact Hle.
Qed.

(** At the radii 50 and 100 of the sweep and the waits 0 and 6. *)
Lemma monotone_in_radius_and_wait_witness :
  ((50 <= 100)%Z /\ (0 <= 6)%Z)
  /\ ((forall row, row ∈ nearby [R1] [B1; B2] 50 ->
                   row ∈ nearby [R1] [B1; B2] 100)
      /\ (forall i_row b_row,
            emitted 0 i_row b_row = true -> emitted 6 i_row b_row = true)
      /\ (forall ts2,
            calculate_transfers (nearby [R1] [B1; B2] 100) [arrival_0700]
              [departure_0703; departure_0705] 6 = Ok ts2 ->
            exists ts1,
              calculate_transfers (nearby [R1] [B1; B2] 50) [arrival_0700]
                [departure_0703; departure_0705] 0 = Ok ts1
              /\ forall t, t ∈ ts1 -> t ∈ ts2)
      /\ (forall out2,
            transfer_index [R1] [B1; B2] [arrival_0700]
              [departure_0703; departure_0705] 100 6 = Ok out2 ->
            exists out1,
              transfer_index [R1] [B1; B2] [arrival_0700]
                [departure_0703; departure_0705] 50 0 = Ok out1
              /\ Forall2 (fun row1 row2 =>
                            stop row1 = stop row2
                            /\ (bus_xfer_routes row1
                                <= bus_xfer_routes row2)%nat)
                         out1 out2)
      /\ (forall counts2,
            calculate_transfers_for_distance [R1] [B1; B2] [arrival_0700]
              [departure_0703; departure_0705] 100 = Ok counts2 ->
            exists counts1,
              calculate_transfers_for_distance [R1] [B1; B2] [arrival_0700]
                [departure_0703; departure_0705] 50 = Ok counts1
              /\ forall k n1, counts1 !! k = Some n1 ->
                   exists n2, counts2 !! k = Some n2 /\ (n1 <= n2)%nat)
      /\ (forall feed data counts1 counts2,
            build_transfer_index_interactive.main feed = Ok data ->
            data !! 50%Z = Some counts1 -> data !! 100%Z = Some counts2 ->
            forall k n1, counts1 !! k = Some n1 ->
              exists n2, counts2 !! k = Some n2 /\ (n1 <= n2)%nat)).
Proof.
  split; [lia|].
  apply (monotone_in_radius_and_wait [R1] [B1; B2] [arrival_0700]
           [departure_0703; departure_0705] 50 100 0 6); lia.
Defined.

(** ** Order-independence *)

(** C9.  Listing the bus stops, the arrivals and the departures in another
    order, or visiting the rows of [nearby] in another order, changes
    neither whether the run completes nor the index or dictionary it
    gives. *)
Theorem order_independence (ion_stops bus_stops bus_stops' : list StopRow)
    (ion_times ion_times' bus_times bus_times' : list TimeRow)
    (buffer_m max_transfer : Z) :
  bus_stops ≡ₚ bus_stops' -> ion_times ≡ₚ ion_times' ->
  bus_times ≡ₚ bus_times' ->
  (forall out,
     transfer_index ion_stops bus_stops ion_times bus_times buffer_m
       max_transfer = Ok out
     <-> transfer_index ion_stops bus_stops' ion_times' bus_times' buffer_m
           max_transfer = Ok out)
  /\ (forall counts,
        calculate_transfers_for_distance ion_stops bus_stops ion_times
          bus_times buffer_m = Ok counts
        <-> calculate_transfers_for_distance ion_stops bus_stops' ion_times'
              bus_times' buffer_m = Ok counts)
  /\ (forall pairs pairs' out,
        pairs ≡ₚ pairs' ->
        (transfers ← calculate_transfers pairs ion_times bus_times
                        max_transfer;
         mret (output ion_stops transfers)) = Ok out
        <-> (transfers ← calculate_transfers pairs' ion_times' bus_times'
                            max_transfer;
             mret (output ion_stops transfers)) = Ok out).
Proof.
  intros Hb Hi Hd.
  assert (Hsame : forall (A : Type) (f : list Transfer -> A) n1 n2 m x,
    (forall ts ts', (forall t, t ∈ ts <-> t ∈ ts') -> f ts = f ts') ->
    (forall row, row ∈ n1 <-> row ∈ n2) ->
    (transfers ← calculate_transfers n1 ion_times bus_times m;
     mret (f transfers)) = Ok x
    <-> (transfers ← calculate_transfers n2 ion_times' bus_times' m;
         mret (f transfers)) = Ok x).
  { intros A f n1 n2 m x Hf Hn.
    assert (Hie : forall e, e ∈ ion_times <-> e ∈ ion_times')
      by (intros e; now rewrite Hi).
    assert (Hde : forall e, e ∈ bus_times <-> e ∈ bus_times')
      by (intros e; now rewrite Hd).
    assert (Hn' : forall row, row ∈ n2 <-> row ∈ n1)
      by (intros row; symmetry; apply Hn).
    assert (Hie' : forall e, e ∈ ion_times' <-> e ∈ ion_times)
      by (intros e; symmetry; apply Hie).
    assert (Hde' : forall e, e ∈ bus_times' <-> e ∈ bus_times)
      by (intros e; symmetry; apply Hde).
    split.
    - destruct (calculate_transfers n1 _ _ _) as [ts|e] eqn:E; cbn;
        [|discriminate].
      intros [= <-].
      destruct (calculate_transfers_same n2 n1 ion_times' ion_times
                  bus_times' bus_times m ts Hn' Hie' Hde' E) as (ts'&->&Hts).
      cbn. unfold mret, result_ret. f_equal. now apply Hf.
    - destruct (calculate_transfers n2 _ _ _) as [ts|e] eqn:E; cbn;
        [|discriminate].
      intros [= <-].
      destruct (calculate_transfers_same n1 n2 ion_times ion_times'
                  bus_times bus_times' m ts Hn Hie Hde E) as (ts'&->&Hts).
      cbn. unfold mret, result_ret. f_equal. now apply Hf. }
  assert (Hnear : forall row,
             row ∈ nearby ion_stops bus_stops buffer_m
             <-> row ∈ nearby ion_stops bus_stops' buffer_m).
  { intros row. rewrite !nearby_elem.
    split; intros (b&s&Hbs&?); exists b, s; (split; [|done]).
    - now rewrite <- Hb.
    - now rewrite Hb. }
  split; [|split].
  - intros out. rewrite !transfer_index_eq. apply Hsame; [|done].
    intros ts ts' Hts. apply map_ext. intros s. f_equal.
    now apply count_at_same.
  - intros counts. rewrite !calculate_transfers_for_distance_eq.
    apply Hsame; [|done].
    intros ts ts' Hts. apply map_eq. intros k. rewrite !index_dict_lookup.
    destruct (decide _); [|done]. f_equal. now apply count_at_same.
  - intros pairs pairs' out Hp. apply Hsame.
    + intros ts ts' Hts. rewrite !output_rows. apply map_ext. intros s.
      f_equal. now apply count_at_same.
    + intros row. now rewrite Hp.
Qed.

Lemma order_independence_witness :
  ([B1; B2] ≡ₚ [B2; B1]
   /\ [arrival_0700] ≡ₚ [arrival_0700]
   /\ [departure_0703; departure_0705; departure_0710]
      ≡ₚ [departure_0710; departure_0703; departure_0705])
  /\ transfer_index [R1] [B2; B1] [arrival_0700]
       [departure_0710; departure_0703; departure_0705] 100 6
     = Ok [mkIndexRow R1 1].
Proof.
  assert (P1 : [B1; B2] ≡ₚ [B2; B1]) by apply perm_swap.
  assert (P2 : [arrival_0700] ≡ₚ [arrival_0700]) by reflexivity.
  assert (P3 : [departure_0703; departure_0705; departure_0710]
               ≡ₚ [departure_0710; departure_0703; departure_0705]).
  { etransitivity; [apply perm_skip, perm_swap|]. apply perm_swap. }
  split; [auto|].
  destruct (order_independence [R1] [B1; B2] [B2; B1] [arrival_0700]
              [arrival_0700] [departure_0703; departure_0705; departure_0710]
              [departure_0710; departure_0703; departure_0705] 100 6 P1 P2 P3)
    as [Hindex _].
  apply (proj1 (Hindex [mkIndexRow R1 1])). now vm_compute.
Defined.

End Properties.

(* ===================================================================== *)
(** * Further properties of the scripts *)
(* ===================================================================== *)

Module Coverage.

Import Clock Geometry Engine Scripts Examples.
Import Windows Reports.
Import ClockFacts GeometryFacts PairingFacts AggregationFacts EngineFacts.
Import ScriptFacts.
Import WindowFacts PipelineFacts ReportFacts.

#[local] Open Scope list_scope.
#[local] Set Warnings "-clear-no-such-hyp".

(** ** The shape test and the parser *)

(** X1.  The shape test [str.match(r'^\d{2}:\d{2}:\d{2}$')] accepts the
    strings made of six decimal digits, of any script, in three pairs
    with a colon between them, and those strings followed by one line
    feed, and nothing else; of the characters of one byte, the decimal
    digits are [0-9].  The parser of the pairing loop has another
    language.  Of the strings of eight ASCII characters [dd:dd:dd], all
    of which pass the shape test, it takes exactly those with an hour up
    to 23, a minute up to 59 and a second up to 61, and it refuses every
    one of them followed by a line feed, which the shape test accepts.
    It takes 7:00:00, which the shape test refuses; it reads a second
    field of 60 as the next minute; and it reads a digit of another
    script in the units place of a field. *)
Theorem shape_test_language :
  (forall s,
     str_match s = true
     <-> exists d1 d2 d3 d4 d5 d6 tail : string,
           Forall decimal_char [d1; d2; d3; d4; d5; d6]
           /\ (tail = EmptyString \/ tail = String "010" EmptyString)
           /\ s = (d1 ++ d2 ++ ":" ++ d3 ++ d4 ++ ":" ++ d5 ++ d6
                   ++ tail)%string)
  /\ (forall c, decimal_char (String c EmptyString) <-> is_digit c = true)
  /\ (forall s hh mm ss,
        fields s = Some (hh, mm, ss) ->
        str_match s = true
        /\ strptime s
           = (if ((hh <=? 23) && (mm <=? 59) && (ss <=? 61))%Z
              then Some (3600 * hh + 60 * mm + ss)%Z else None)
        /\ str_match (s ++ String "010" EmptyString) = true
        /\ strptime (s ++ String "010" EmptyString) = None)
  /\ (str_match "7:00:00" = false /\ strptime "7:00:00" = Some 25200%Z)
  /\ strptime "07:03:60" = Some 25440%Z
  /\ (str_match time_0705_arabic = true
      /\ fields time_0705_arabic = None
      /\ strptime time_0705_arabic = Some 25500%Z).
Proof.
  split; [apply str_match_language|]. split; [apply decimal_digit_byte|].
  split; [|repeat split; now vm_compute].
  intros s hh mm ss Hf.
  split; [now apply (fields_str_match s (hh, mm, ss))|].
  split; [now apply strptime_fields|].
  split; [now apply (fields_newline s (hh, mm, ss))|].
  now apply (strptime_newline s (hh, mm, ss)).
Qed.

(** ** A window given to the minute *)

(** X2.  With the bounds of the time window given as [hh:mm] in ASCII
    digits, as in the example [--time 17:00 19:00] of the command-line
    help, a time string of eight ASCII characters [dd:dd:dd] with minute
    and second fields below 60 is admitted exactly when its elapsed time
    is at or after the start minute and strictly before the end minute:
    the event at the end bound itself, 19:00:00, is left out. *)
Theorem minute_window_half_open (start stop : string) (hs ms he me : Z) :
  short_fields start = Some (hs, ms) -> short_fields stop = Some (he, me) ->
  (ms <= 59)%Z -> (me <= 59)%Z ->
  forall s x,
    sexagesimal s = true -> clock_seconds s = Some x ->
    mask start stop (Some s) = true
    <-> (3600 * hs + 60 * ms <= x < 3600 * he + 60 * me)%Z.
Proof.
  intros Hstart Hstop Hms Hme s x Hs Hx.
  destruct (leb_short_bounds start s hs ms x Hstart Hms Hs Hx) as [Hge _].
  destruct (leb_short_bounds stop s he me x Hstop Hme Hs Hx) as [_ Hlt].
  assert (Hm : str_match s = true).
  { unfold clock_seconds in Hx. destruct (fields s) as [f|] eqn:F; [|done].
    now apply (fields_str_match s f). }
  unfold mask. cbn [notna str_match_na ge le andb].
  rewrite Hm, andb_true_iff. cbn [andb]. now rewrite Hge, Hlt.
Qed.

Lemma minute_window_half_open_witness :
  (short_fields "17:00" = Some (17, 0)%Z /\ short_fields "19:00" = Some (19, 0)%Z
   /\ sexagesimal "19:00:00" = true
   /\ clock_seconds "19:00:00" = Some 68400%Z)
  /\ (mask "17:00" "19:00" (Some "19:00:00") = true
      <-> (3600 * 17 + 60 * 0 <= 68400 < 3600 * 19 + 60 * 0)%Z)
  /\ mask "17:00" "19:00" (Some "19:00:00") = false
  /\ mask "17:00" "19:00" (Some "17:00:00") = true
  /\ mask "17:00" "19:00" (Some "18:59:59") = true.
Proof.
  split; [repeat split; reflexivity|]. split; [|repeat split; reflexivity].
  apply (minute_window_half_open "17:00" "19:00" 17 0 19 0);
    try reflexivity; lia.
Defined.

(** ** When the pairing loop completes *)

(** X3.  The pairing loop completes exactly when every cell it parses can
    be parsed: the arrival cells at the rail stop and the departure cells
    at the bus stop of a row of [nearby] that has at least one arrival and
    one departure.  A cell of a stop that is in no such row is never
    parsed.  Whether the loop completes does not depend on the wait, and
    when it does not, it ends in the [ValueError] of an arrival or
    departure cell that the parser refuses.  An hour of one digit and a
    second field of 60 are parsed, and so is a cell that stands for a
    missing time, which gives no record; a minute field of 75 is not. *)
Theorem pairing_completion (nearby : list NearRow)
    (ion_times bus_times : list TimeRow) (max_transfer : Z) :
  ((exists transfers,
      calculate_transfers nearby ion_times bus_times max_transfer
      = Ok transfers)
   <-> forall row i_row b_row,
         row ∈ nearby ->
         i_row ∈ ion_times -> at_stop_id i_row = stop_id_right row ->
         b_row ∈ bus_times -> at_stop_id b_row = stop_id_left row ->
         (exists t, to_datetime (arrival_time i_row) = Ok t)
         /\ (exists t, to_datetime (departure_time b_row) = Ok t))
  /\ (forall e,
        calculate_transfers nearby ion_times bus_times max_transfer = Raise e ->
        exists s, e = ValueError s /\ strptime s = None
          /\ ((exists i_row, i_row ∈ ion_times /\ arrival_time i_row = Some s)
              \/ (exists b_row, b_row ∈ bus_times
                                /\ departure_time b_row = Some s)))
  /\ (forall max_transfer',
        (exists transfers,
           calculate_transfers nearby ion_times bus_times max_transfer
           = Ok transfers)
        <-> (exists transfers,
               calculate_transfers nearby ion_times bus_times max_transfer'
               = Ok transfers))
  /\ (calculate_transfers [mkNear "B1" "R1"] [arrival_7] [departure_070360] 6
      = Ok [mkTransfer "R1" "X"]
      /\ calculate_transfers [mkNear "B1" "R1"]
           [mkTime "T1" "R1" (Some "NaT") None "301"] [departure_0703] 6
         = Ok []
      /\ calculate_transfers [mkNear "B1" "R1"] [arrival_0700]
           [mkTime "T2" "B1" None (Some "07:75:00") "X"] 6
         = Raise (ValueError "07:75:00")).
Proof.
  split; [|split; [|split]].
  - rewrite calculate_transfers_Ok. unfold meets, parses. split.
    + intros H row i_row b_row Hrow Hi Hir Hb Hbr. now apply (H row).
    + intros H row i_row b_row Hrow (Hi&Hir&Hb&Hbr). now apply (H row).
  - intros e. apply calculate_transfers_Raise.
  - intros m'. now rewrite !calculate_transfers_Ok.
  - repeat split; now vm_compute.
Qed.

(** ** Feeds on which the scripts complete *)

(** X4.  On a feed in which every time cell of the shape [dd:dd:dd] is
    made of ASCII digits, with minute and second fields below 60 and no
    line feed after it, the pairing loop never fails: the analysis
    completes for every date and wait, every radius within the limit of
    a float and every window that ends by 23:59:59.  The batch script
    completes.  The interactive script completes if a rail stop is found
    on its date, and ends in the refusal of the centre of its map if
    none is.  The command-line script ends with its files written, in
    one of its two exits, or, when no rail stop is found on the date, in
    the refusal of the centre of its map. *)
Theorem well_timed_feed_completes (feed : Feed) :
  (forall st, st ∈ stop_times feed ->
     well_timed (st_arrival_time st) = true
     /\ well_timed (st_departure_time st) = true) ->
  (forall date start stop buffer_m max_transfer,
     String.leb stop "23:59:59" = true ->
     (Z.abs buffer_m <= float_limit)%Z ->
     exists out, analysis feed date start stop buffer_m max_transfer = Ok out)
  /\ (exists report, build_transfer_index.main feed = Ok report)
  /\ (ion_stops feed build_transfer_index_interactive.SERVICE_DATE <> [] ->
      exists im, Runs.build_transfer_index_interactive.main feed = Ok im)
  /\ (ion_stops feed build_transfer_index_interactive.SERVICE_DATE = [] ->
      Runs.build_transfer_index_interactive.main feed = Raise nan_location)
  /\ (forall fromisoformat args,
        String.leb (ion_bus_connect.time args).2 "23:59:59" = true ->
        (Z.abs (ion_bus_connect.buffer args) <= float_limit)%Z ->
        (exists o, Runs.ion_bus_connect.main fromisoformat args feed = Ok o)
        \/ (exists code,
              Runs.ion_bus_connect.main fromisoformat args feed
              = Raise (SystemExit code))
        \/ (ion_stops feed (ion_bus_connect.date args) = []
            /\ Runs.ion_bus_connect.main fromisoformat args feed
               = Raise nan_location)).
Proof.
  intros Hwell.
  destruct (interactive_main_Ok feed Hwell) as [data Hdata].
  pose proof (interactive_run_cases feed) as Hcases. rewrite Hdata in Hcases.
  split; [|split; [|split; [|split]]].
  - intros date start stop r m Hstop _. now apply analysis_Ok.
  - unfold build_transfer_index.main.
    destruct (analysis_Ok feed build_transfer_index.SERVICE_DATE
                build_transfer_index.PEAK_START build_transfer_index.PEAK_END
                build_transfer_index.BUFFER_METRES
                build_transfer_index.MAX_TRANSFER_M eq_refl Hwell) as [out ->].
    cbn. eauto.
  - intros Hne. destruct (ion_stops feed _); [contradiction|].
    destruct Hcases as [c Hc]. eauto.
  - intros He. rewrite He in Hcases. exact Hcases.
  - intros f args Hstop _.
    pose proof (cli_run_cases f args feed) as Hc.
    destruct (ion_bus_connect.main f args feed) as [out|e] eqn:E.
    + destruct out as [|row rows].
      * right. right. split; [|exact Hc].
        unfold ion_bus_connect.main in E.
        destruct (negb _); [discriminate|].
        destruct (_ =? _)%nat; [discriminate|].
        apply analysis_inv in E as (ts&_&Hout). symmetry in Hout.
        now apply fmap_nil_inv in Hout.
      * left. destruct Hc as (o&ts&Ho&_). eauto.
    + right. left. unfold ion_bus_connect.main in E.
      destruct (negb _); [injection E as <-; eauto|].
      destruct (_ =? _)%nat; [injection E as <-; eauto|].
      destruct (analysis_Ok feed (ion_bus_connect.date args)
                  (ion_bus_connect.time args).1 (ion_bus_connect.time args).2
                  (ion_bus_connect.buffer args)
                  (ion_bus_connect.transfer_time args) Hstop Hwell)
        as [out Hout].
      rewrite Hout in E. discriminate.
Qed.

Lemma well_timed_feed_completes_witness :
  (forall st, st ∈ stop_times morning_feed ->
     well_timed (st_arrival_time st) = true
     /\ well_timed (st_departure_time st) = true)
  /\ (exists report, build_transfer_index.main morning_feed = Ok report)
  /\ (exists im, Runs.build_transfer_index_interactive.main morning_feed = Ok im).
Proof.
  pose proof morning_feed_well_timed as Hwell.
  split; [exact Hwell|].
  destruct (well_timed_feed_completes morning_feed Hwell)
    as (_&Hbatch&Hrun&_).
  split; [exact Hbatch|]. apply Hrun. vm_compute. discriminate.
Defined.

(** X5.  When the analysis, at a radius within the limit of a float, ends
    in an exception, the exception is the [ValueError] of a time cell of
    [stop_times.txt] that passed the time filter and that the parser
    refuses.  If the window ends by 23:59:59, as the peak window of the
    two fixed scripts does, the hour is never the cause: the cell is not
    a string of eight ASCII characters [dd:dd:dd] with minute and second
    fields below 60. *)
Theorem analysis_failure_cause (feed : Feed) (date start stop : string)
    (buffer_m max_transfer : Z) (e : exn) :
  (Z.abs buffer_m <= float_limit)%Z ->
  analysis feed date start stop buffer_m max_transfer = Raise e ->
  exists s,
    e = ValueError s /\ strptime s = None
    /\ mask start stop (Some s) = true
    /\ (exists st, st ∈ stop_times feed
           /\ (st_arrival_time st = Some s \/ st_departure_time st = Some s))
    /\ (String.leb stop "23:59:59" = true -> sexagesimal s = false).
Proof.
  intros _ (s&->&Hnone&Hmask&Hst)%analysis_Raise.
  exists s. repeat split; try done.
  intros Hstop. now apply (refused_not_sexagesimal start stop).
Qed.

Lemma analysis_failure_cause_witness :
  analysis late_minute_feed build_transfer_index.SERVICE_DATE
    build_transfer_index.PEAK_START build_transfer_index.PEAK_END
    build_transfer_index.BUFFER_METRES build_transfer_index.MAX_TRANSFER_M
  = Raise (ValueError "07:75:00")
  /\ build_transfer_index.main late_minute_feed
     = Raise (ValueError "07:75:00")
  /\ exists s,
       ValueError "07:75:00" = ValueError s /\ strptime s = None
       /\ mask build_transfer_index.PEAK_START build_transfer_index.PEAK_END
            (Some s) = true
       /\ (exists st, st ∈ stop_times late_minute_feed
              /\ (st_arrival_time st = Some s
                  \/ st_departure_time st = Some s))
       /\ (String.leb build_transfer_index.PEAK_END "23:59:59" = true ->
           sexagesimal s = false).
Proof.
  assert (Hrun : analysis late_minute_feed build_transfer_index.SERVICE_DATE
                   build_transfer_index.PEAK_START
                   build_transfer_index.PEAK_END
                   build_transfer_index.BUFFER_METRES
                   build_transfer_index.MAX_TRANSFER_M
                 = Raise (ValueError "07:75:00")) by now vm_compute.
  assert (Hr : (Z.abs build_transfer_index.BUFFER_METRES <= float_limit)%Z)
    by (vm_compute; discriminate).
  split; [exact Hrun|]. split; [now vm_compute|].
  exact (analysis_failure_cause _ _ _ _ _ _ _ Hr Hrun).
Defined.

(** ** A feed without one of the two modes *)

(** X6.  When [routes.txt] has no route 301, no rail stop is found
    whatever the date, and the analysis gives an index without a row.
    The batch script writes the empty index and prints its warning.  The
    interactive script and the command-line script have no such case:
    once the index is computed they centre a map on the mean of the
    coordinates of no stop, and end in the [ValueError] of a location
    with a [nan]; the command-line script does so whenever its date is
    valid and has service. *)
Theorem no_rail_route (feed : Feed) :
  ion_routes feed = [] ->
  (forall date, ion_stops feed date = [])
  /\ (forall date start stop buffer_m max_transfer,
        (Z.abs buffer_m <= float_limit)%Z ->
        analysis feed date start stop buffer_m max_transfer = Ok [])
  /\ build_transfer_index.main feed
     = Ok (build_transfer_index.mkReport [] true)
  /\ Runs.build_transfer_index_interactive.main feed = Raise nan_location
  /\ (forall fromisoformat args,
        (Z.abs (ion_bus_connect.buffer args) <= float_limit)%Z ->
        Runs.ion_bus_connect.main fromisoformat args feed
        = if negb (fromisoformat (ion_bus_connect.date args))
          then Raise (SystemExit 2)
          else if (length (service_ids feed (ion_bus_connect.date args))
                   =? 0)%nat
          then Raise (SystemExit 1)
          else Raise nan_location).
Proof.
  intros Hnone.
  assert (Hrun : forall date start stop r m,
            analysis feed date start stop r m = Ok []).
  { intros date start stop r m. unfold analysis.
    destruct (no_ion_route feed date start stop Hnone) as [-> ->].
    rewrite transfer_index_eq, calculate_transfers_no_events by now left.
    reflexivity. }
  assert (Hstops : forall date, ion_stops feed date = []).
  { intros date. now destruct (no_ion_route feed date "" "" Hnone). }
  split; [exact Hstops|]. split; [intros; apply Hrun|].
  split; [|split].
  - unfold build_transfer_index.main. now rewrite Hrun.
  - assert (Hd : forall d,
              calculate_transfers_for_distance
                (ion_stops feed build_transfer_index_interactive.SERVICE_DATE)
                (bus_stops feed build_transfer_index_interactive.SERVICE_DATE)
                (ion_times feed build_transfer_index_interactive.SERVICE_DATE
                   build_transfer_index_interactive.PEAK_START
                   build_transfer_index_interactive.PEAK_END)
                (bus_times feed build_transfer_index_interactive.SERVICE_DATE
                   build_transfer_index_interactive.PEAK_START
                   build_transfer_index_interactive.PEAK_END) d = Ok ∅).
    { intros d. rewrite calculate_transfers_for_distance_eq.
      destruct (no_ion_route feed build_transfer_index_interactive.SERVICE_DATE
                  build_transfer_index_interactive.PEAK_START
                  build_transfer_index_interactive.PEAK_END Hnone) as [-> ->].
      now rewrite calculate_transfers_no_events by now left. }
    assert (Hex : exists data,
              build_transfer_index_interactive.main feed = Ok data).
    { unfold build_transfer_index_interactive.main. apply sweep_Ok.
      intros d _. rewrite Hd. eauto. }
    destruct Hex as [data Hdata].
    pose proof (interactive_run_cases feed) as Hc.
    rewrite Hdata, Hstops in Hc. exact Hc.
  - intros f args _.
    pose proof (cli_run_cases f args feed) as Hc.
    unfold ion_bus_connect.main in Hc.
    destruct (negb _); [exact Hc|].
    destruct (_ =? _)%nat; [exact Hc|].
    rewrite Hrun in Hc. exact Hc.
Qed.

Lemma no_rail_route_witness :
  ion_routes no_rail_feed = []
  /\ build_transfer_index.main no_rail_feed
     = Ok (build_transfer_index.mkReport [] true)
  /\ Runs.build_transfer_index_interactive.main no_rail_feed = Raise nan_location.
Proof.
  split; [reflexivity|].
  destruct (no_rail_route no_rail_feed eq_refl) as (_&_&Hbatch&Hrun&_).
  split; [exact Hbatch|exact Hrun].
Defined.

(** X7.  When [routes.txt] has no route of type 3, there is no bus
    departure: the analysis completes, whatever the time cells of the
    feed, and every rail stop of the day has the count 0. *)
Theorem no_bus_route_index (feed : Feed) :
  bus_routes feed = [] ->
  forall date start stop buffer_m max_transfer,
    analysis feed date start stop buffer_m max_transfer
    = Ok (map (fun s => mkIndexRow s 0) (ion_stops feed date)).
Proof.
  intros Hnone date start stop r m. unfold analysis.
  rewrite (no_bus_route feed date start stop Hnone).
  rewrite transfer_index_eq, calculate_transfers_no_events by now right.
  reflexivity.
Qed.

Lemma no_bus_route_index_witness :
  bus_routes no_bus_feed = []
  /\ analysis no_bus_feed "2025-06-10" "07:00:00" "09:00:00" 100 6
     = Ok [mkIndexRow R1 0].
Proof.
  split; [reflexivity|].
  apply (no_bus_route_index no_bus_feed eq_refl "2025-06-10").
Defined.

(** X8.  The routes counted at a rail stop are bus routes of the feed:
    every record of a run has the id of a route of type 3 of
    [routes.txt], so no count of the index is larger than the number of
    distinct bus routes, and route 301 is counted only if [routes.txt]
    gives it the type 3. *)
Theorem counts_bounded_by_bus_routes (feed : Feed) (date start stop : string)
    (buffer_m max_transfer : Z) (out : list IndexRow) :
  analysis feed date start stop buffer_m max_transfer = Ok out ->
  Forall (fun row =>
            exists routes : list string,
              NoDup routes
              /\ (forall r, r ∈ routes -> r ∈ bus_routes feed)
              /\ bus_xfer_routes row = length routes)
         out
  /\ Forall (fun row =>
               (bus_xfer_routes row
                <= length (remove_dups (bus_routes feed)))%nat) out.
Proof.
  intros (ts&Hts&->)%analysis_inv.
  assert (Hsub : forall s,
            (list_to_set (routes_at s ts) : gset string)
            ⊆ list_to_set (bus_routes feed)).
  { intros s r. rewrite !elem_of_list_to_set, elem_of_routes_at.
    intros Hr. apply (analysis_routes _ _ _ _ _ _ _ _ Hts) in Hr. exact Hr. }
  split; rewrite Forall_fmap; apply Forall_forall; intros s _; cbn.
  - exists (elements (list_to_set (routes_at (stop_id s) ts) : gset string)).
    split; [apply NoDup_elements|]. split; [|done].
    intros r Hr%elem_of_elements. apply Hsub in Hr.
    now apply elem_of_list_to_set in Hr.
  - unfold count_at.
    rewrite <- (size_list_to_set (C := gset string) (remove_dups _))
      by apply NoDup_remove_dups.
    apply subseteq_size. intros r Hr%Hsub.
    apply elem_of_list_to_set. apply elem_of_remove_dups.
    now apply elem_of_list_to_set in Hr.
Qed.

Lemma counts_bounded_by_bus_routes_witness :
  analysis morning_feed "2025-06-10" "07:00:00" "09:00:00" 100 6
  = Ok [mkIndexRow R1 1]
  /\ Forall (fun row =>
               (bus_xfer_routes row
                <= length (remove_dups (bus_routes morning_feed)))%nat)
            [mkIndexRow R1 1].
Proof.
  assert (Hrun : analysis morning_feed "2025-06-10" "07:00:00" "09:00:00"
                   100 6 = Ok [mkIndexRow R1 1]) by now vm_compute.
  split; [exact Hrun|].
  exact (proj2 (counts_bounded_by_bus_routes _ _ _ _ _ _ _ Hrun)).
Defined.

(** ** The counts of the aggregation *)

(** X9.  [xfer_counts] lists every rail stop that has at least one record
    once, with the number of distinct routes of its records, which is at
    least 1, and no other stop.  So a row of [output] has the count 0
    exactly when its stop has no record: the zero is the [fillna(0)] of a
    stop missing from [xfer_counts], never a count. *)
Theorem xfer_counts_entries (transfers : list Transfer) :
  NoDup (map fst (xfer_counts transfers))
  /\ (forall s n,
        (s, n) ∈ xfer_counts transfers
        <-> (exists r, mkTransfer s r ∈ transfers)
            /\ n = count_at transfers s)
  /\ (forall s n, (s, n) ∈ xfer_counts transfers -> (1 <= n)%nat)
  /\ (forall ion_stops row,
        row ∈ output ion_stops transfers ->
        bus_xfer_routes row = 0%nat
        <-> forall r, mkTransfer (stop_id (stop row)) r ∉ transfers).
Proof.
  assert (Hentry : forall s n,
    (s, n) ∈ xfer_counts transfers
    <-> (exists r, mkTransfer s r ∈ transfers) /\ n = count_at transfers s).
  { intros s n. rewrite <- count_at_pos.
    assert (Hlook : (s, n) ∈ xfer_counts transfers
                    <-> groupby_nunique transfers !! s = Some n).
    { unfold xfer_counts. destruct transfers as [|t ts].
      - rewrite groupby_nunique_lookup. cbn. split; [intros H; inversion H|done].
      - apply elem_of_map_to_list. }
    rewrite Hlook, groupby_nunique_lookup. unfold count_at.
    destruct (routes_at s transfers) as [|r l] eqn:E.
    - cbn. rewrite size_empty. split; [done|]. intros [? _]. lia.
    - split.
      + intros [= <-]. split; [|done].
        assert (Hr : r ∈ (list_to_set (r :: l) : gset string)) by set_solver.
        destruct (size _) eqn:Es; [|lia].
        apply size_empty_inv in Es. set_solver.
      + now intros [_ ->]. }
  split; [|split; [exact Hentry|split]].
  - unfold xfer_counts. destruct transfers; [constructor|].
    apply NoDup_fst_map_to_list.
  - intros s n [Hrec ->]%Hentry. now apply count_at_pos in Hrec.
  - intros ion_stops row Hrow. rewrite output_rows in Hrow.
    apply list_elem_of_fmap in Hrow as (s&->&_). cbn.
    pose proof (count_at_pos transfers (stop_id s)) as Hpos. split.
    + intros Hz r Hr. assert (0 < count_at transfers (stop_id s))%nat; [|lia].
      apply Hpos. eauto.
    + intros Hnone. destruct (count_at transfers (stop_id s)); [done|].
      destruct (proj1 Hpos) as [r Hr]; [lia|]. now apply Hnone in Hr.
Qed.

(** ** The markers of the map *)

(** X10.  [create_map] refuses an index without a row: the centre of the
    map, the mean of the coordinates of no stop, is a [nan].  For any
    other index it draws one marker for every row, in order, at the point
    of its stop.  A stop without a transfer gets radius 6 and the grey
    fill; a stop with at least one gets a radius from 8 to 20 and a
    colour of the scale, whose legend is then on the map, so the test
    [max_routes > 0] of the colour is implied by the test on the count.
    The stops with the largest count, if it is not 0, get radius 20, and
    a larger count never gets a smaller radius.  The legend is missing
    exactly when no stop has a transfer. *)
Theorem marker_styling (gdf : list IndexRow) :
  (gdf = [] -> create_map gdf = Raise nan_location)
  /\ (gdf <> [] -> exists m, create_map gdf = Ok m)
  /\ (forall m,
        create_map gdf = Ok m ->
        Forall2 (fun row k =>
                   location k
                   = ((geometry (stop row)).2, (geometry (stop row)).1)
                   /\ (bus_xfer_routes row = 0%nat ->
                       radius k = 6%Q /\ fillColor k = Grey)
                   /\ ((0 < bus_xfer_routes row)%nat ->
                       (8 <= radius k <= 20)%Q
                       /\ exists vmax,
                            colormap m = Some vmax
                            /\ fillColor k = Scale (bus_xfer_routes row) vmax
                            /\ (bus_xfer_routes row <= vmax)%nat)
                   /\ ((0 < bus_xfer_routes row)%nat ->
                       (forall row', row' ∈ gdf ->
                          (bus_xfer_routes row' <= bus_xfer_routes row)%nat) ->
                       (radius k == 20)%Q))
                gdf (markers m)
        /\ (colormap m = None
            <-> forall row, row ∈ gdf -> bus_xfer_routes row = 0%nat)
        /\ (forall i j row1 row2 k1 k2,
              gdf !! i = Some row1 -> gdf !! j = Some row2 ->
              markers m !! i = Some k1 -> markers m !! j = Some k2 ->
              (bus_xfer_routes row1 <= bus_xfer_routes row2)%nat ->
              (radius k1 <= radius k2)%Q)).
Proof.
  split; [intros ->; apply create_map_nil|]. split.
  { intros Hne. destruct (create_map_cons gdf Hne) as (c&mx&_&->). eauto. }
  intros tm (Hne&m&E&Hcol&Hmark)%create_map_inv. rewrite Hcol, Hmark.
  apply series_max_Some in E as [Hm Hmax].
  assert (Hle : forall row, row ∈ gdf -> (bus_xfer_routes row <= m)%nat).
  { intros row Hrow. apply Hmax, list_elem_of_fmap. eauto. }
  split; [|split].
  - apply Forall2_fmap_r, Forall_Forall2_diag, Forall_forall.
    intros row Hrow. unfold compose. specialize (Hle row Hrow).
    split; [done|]. split; [|split].
    + intros Hz. split; [now apply marker_radius_zero|].
      rewrite marker_fill by done. now rewrite Hz.
    + intros Hpos. split; [now apply marker_radius_bounds|].
      exists m. destruct (Nat.ltb_spec 0 m); [|lia].
      split; [done|]. split; [|done]. rewrite marker_fill by done.
      now destruct (Nat.ltb_spec 0 (bus_xfer_routes row)); [|lia].
    + intros Hpos Htop.
      assert (m = bus_xfer_routes row) as ->.
      { apply Nat.le_antisymm; [|done].
        apply list_elem_of_fmap in Hm as (row'&->&Hrow'). auto. }
      now apply marker_radius_largest.
  - destruct (Nat.ltb_spec 0 m) as [Hpos|Hz]; split; try done.
    + intros Hall. apply list_elem_of_fmap in Hm as (row&->&Hrow).
      rewrite (Hall row Hrow) in Hpos. lia.
    + intros _ row Hrow. specialize (Hle row Hrow). lia.
  - intros i j row1 row2 k1 k2 H1 H2. rewrite !list_lookup_fmap, H1, H2.
    intros [= <-] [= <-] H12. apply marker_radius_mono.
    split; [done|]. apply Hle. now apply list_elem_of_lookup_2 in H2.
Qed.

(** ** The summary of the command-line script *)

(** X11.  The figures of [analysis_summary.json] agree with each other.
    For the index and the records of a run: the number of stops is the
    number of rail stops; the stops with transfers are no more than the
    stops; the largest count is the count of some rail stop, bounds every
    count, and is no larger than the number of transfer opportunities;
    and no stop has a transfer exactly when the largest count is 0,
    exactly when there is no transfer opportunity. *)
Theorem summary_consistent (ion_stops bus_stops : list StopRow)
    (ion_times bus_times : list TimeRow) (buffer_m max_transfer : Z)
    (args : ion_bus_connect.Args) (transfers : list Transfer) (sm : Summary) :
  calculate_transfers (nearby ion_stops bus_stops buffer_m) ion_times
    bus_times max_transfer = Ok transfers ->
  summary args (output ion_stops transfers) transfers = Ok sm ->
  total_ion_stops sm = length ion_stops
  /\ (stops_with_transfers sm <= total_ion_stops sm)%nat
  /\ (max_routes_at_stop sm <= total_transfer_opportunities sm)%nat
  /\ (exists s, s ∈ ion_stops
                /\ count_at transfers (stop_id s) = max_routes_at_stop sm)
  /\ (forall row, row ∈ output ion_stops transfers ->
        (bus_xfer_routes row <= max_routes_at_stop sm)%nat)
  /\ (stops_with_transfers sm = 0%nat <-> max_routes_at_stop sm = 0%nat)
  /\ (max_routes_at_stop sm = 0%nat
      <-> total_transfer_opportunities sm = 0%nat).
Proof.
  intros Hrun (Hmax&Htot&Hwith&Hopp&_)%summary_inv.
  rewrite Htot, Hwith, Hopp. clear Htot Hwith Hopp.
  apply series_max_Some in Hmax as [Hm Hall].
  assert (Hle : forall row, row ∈ output ion_stops transfers ->
            (bus_xfer_routes row <= max_routes_at_stop sm)%nat).
  { intros row Hrow. apply Hall, list_elem_of_fmap. eauto. }
  apply list_elem_of_fmap in Hm as (top&Htop&Hin).
  pose proof Hin as Hin'. rewrite output_rows in Hin'.
  apply list_elem_of_fmap in Hin' as (s&->&Hs). cbn in Htop.
  split; [now rewrite output_rows, length_map|].
  split; [apply length_filter|].
  split; [rewrite Htop; apply count_at_le_length|].
  split; [eauto|]. split; [exact Hle|]. split; [split|split].
  - intros Hz%nil_length_inv.
    destruct (max_routes_at_stop sm) as [|n]; [done|].
    assert (Hf : mkIndexRow s (count_at transfers (stop_id s))
                 ∈ filter (fun row => (0 < bus_xfer_routes row)%nat)
                     (output ion_stops transfers)).
    { apply list_elem_of_filter. split; [cbn; lia|done]. }
    rewrite Hz in Hf. inversion Hf.
  - intros Hz.
    destruct (filter _ (output ion_stops transfers)) as [|row l] eqn:E;
      [done|].
    assert (Hf : row ∈ filter (fun row => (0 < bus_xfer_routes row)%nat)
                   (output ion_stops transfers)) by (rewrite E; left).
    apply list_elem_of_filter in Hf as [Hpos Hrow%Hle]. lia.
  - intros Hz. destruct transfers as [|t ts]; [done|].
    assert (Ht : t ∈ t :: ts) by left.
    pose proof (transfers_at_ion_stops _ _ _ _ _ _ _ _ Hrun Ht) as Hid.
    apply list_elem_of_fmap in Hid as (s'&Hid&Hs').
    assert (Hpos : (0 < count_at (t :: ts) (stop_id s'))%nat).
    { apply count_at_pos. exists (bus_route_id t). rewrite <- Hid.
      now destruct t. }
    assert (Hrow : mkIndexRow s' (count_at (t :: ts) (stop_id s'))
                   ∈ output ion_stops (t :: ts)).
    { rewrite output_rows. apply list_elem_of_fmap. eauto. }
    apply Hle in Hrow. cbn in Hrow. lia.
  - intros ->%nil_length_inv. rewrite Htop. unfold count_at. cbn.
    now rewrite size_empty.
Qed.

Lemma summary_consistent_witness :
  (calculate_transfers (nearby [R1] [B1] 100) [arrival_0700]
     [departure_0703; departure_0710] 6 = Ok [mkTransfer "R1" "X"]
   /\ summary default_args (output [R1] [mkTransfer "R1" "X"])
        [mkTransfer "R1" "X"]
      = Ok (mkSummary "2025-06-10" "07:00:00 - 09:00:00" 100 6 1 1 1 1
              [("Rail 1", 1%nat)]))
  /\ (1 <= 1)%nat.
Proof.
  assert (Hrun : calculate_transfers (nearby [R1] [B1] 100) [arrival_0700]
                   [departure_0703; departure_0710] 6
                 = Ok [mkTransfer "R1" "X"]) by now vm_compute.
  assert (Hsum : summary default_args (output [R1] [mkTransfer "R1" "X"])
                   [mkTransfer "R1" "X"]
                 = Ok (mkSummary "2025-06-10" "07:00:00 - 09:00:00" 100 6
                         1 1 1 1 [("Rail 1", 1%nat)])) by now vm_compute.
  split; [auto|].
  destruct (summary_consistent _ _ _ _ _ _ _ _ _ Hrun Hsum) as (_&_&Hle&_).
  exact Hle.
Defined.

(** X12.  [top_stations] holds the five rows of the index with the largest
    counts, or all of them if there are fewer, as names and counts in
    descending order of the count: no row that is left out has a larger
    count than a row that is listed, and the first one listed has the
    largest count of the index. *)
Theorem top_stations_largest (args : ion_bus_connect.Args)
    (output : list IndexRow) (transfers : list Transfer) (sm : Summary) :
  summary args output transfers = Ok sm ->
  length (top_stations sm) = Nat.min 5 (length output)
  /\ StronglySorted (fun x y => (y.2 <= x.2)%nat) (top_stations sm)
  /\ (exists rest,
        map (fun row => (stop_name (stop row), bus_xfer_routes row)) output
        ≡ₚ top_stations sm ++ rest
        /\ forall x y, x ∈ top_stations sm -> y ∈ rest -> (y.2 <= x.2)%nat)
  /\ (exists name, head (top_stations sm) = Some (name, max_routes_at_stop sm)).
Proof.
  intros (Hmax&_&_&_&->)%summary_inv.
  destruct (nlargest_split 5 output) as (Hperm&Hsorted&Hdom).
  split; [now rewrite length_map, nlargest_length|].
  split; [|split].
  - apply (StronglySorted_fmap _ desc); [|done]. now intros x y.
  - exists (map (fun row => (stop_name (stop row), bus_xfer_routes row))
               (drop 5 (foldr insert_desc [] output))).
    split; [now rewrite <- map_app, Hperm|].
    intros x y (rx&->&Hx)%list_elem_of_fmap (ry&->&Hy)%list_elem_of_fmap.
    apply (Hdom rx ry Hx Hy).
  - destruct (nlargest_head 4 output _ Hmax) as (row&Hhead&<-).
    exists (stop_name (stop row)).
    destruct (nlargest 5 output) as [|r l]; [discriminate|].
    now injection Hhead as ->.
Qed.

Lemma top_stations_largest_witness :
  summary default_args sample_output sample_transfers
  = Ok (mkSummary "2025-06-10" "07:00:00 - 09:00:00" 100 6 6 4 3 9
          [("Rail 6", 3%nat); ("Rail 3", 2%nat); ("Rail 4", 2%nat);
           ("Rail 1", 1%nat); ("Rail 2", 0%nat)])
  /\ length [("Rail 6", 3%nat); ("Rail 3", 2%nat); ("Rail 4", 2%nat);
             ("Rail 1", 1%nat); ("Rail 2", 0%nat)]
     = Nat.min 5 (length sample_output).
Proof.
  assert (Hsum : summary default_args sample_output sample_transfers
                 = Ok (mkSummary "2025-06-10" "07:00:00 - 09:00:00" 100 6
                         6 4 3 9
                         [("Rail 6", 3%nat); ("Rail 3", 2%nat);
                          ("Rail 4", 2%nat); ("Rail 1", 1%nat);
                          ("Rail 2", 0%nat)])) by now vm_compute.
  split; [exact Hsum|].
  exact (proj1 (top_stations_largest _ _ _ _ Hsum)).
Defined.

(** ** The interactive script *)

(** X13.  The interactive script completes exactly when the engine
    completes at the largest distance, 500, and a rail stop is found on
    the date.  It then hands to its page the data made of
    [transfer_data], which has an entry for each of the ten distances
    50, 100, ..., 500, the positions of the slider, and for no other,
    every entry with exactly the rail stop ids for keys.  Otherwise it
    ends in a [ValueError]: that of a time cell of [stop_times.txt]
    which passed the time filter and which the parser refuses, or, the
    sweep being done, that of the centre of a map of no stop. *)
Theorem interactive_sweep (feed : Feed) :
  (forall data,
     build_transfer_index_interactive.main feed = Ok data ->
     (forall d, is_Some (data !! d)
                <-> exists k, (1 <= k <= 10)%Z /\ d = (50 * k)%Z)
     /\ forall d counts,
          data !! d = Some counts ->
          dom counts
          = list_to_set
              (map stop_id
                 (ion_stops feed build_transfer_index_interactive.SERVICE_DATE)))
  /\ ((exists im, Runs.build_transfer_index_interactive.main feed = Ok im)
      <-> (exists counts,
             calculate_transfers_for_distance
               (ion_stops feed build_transfer_index_interactive.SERVICE_DATE)
               (bus_stops feed build_transfer_index_interactive.SERVICE_DATE)
               (ion_times feed build_transfer_index_interactive.SERVICE_DATE
                  build_transfer_index_interactive.PEAK_START
                  build_transfer_index_interactive.PEAK_END)
               (bus_times feed build_transfer_index_interactive.SERVICE_DATE
                  build_transfer_index_interactive.PEAK_START
                  build_transfer_index_interactive.PEAK_END) 500 = Ok counts)
          /\ ion_stops feed build_transfer_index_interactive.SERVICE_DATE
             <> [])
  /\ (forall im,
        Runs.build_transfer_index_interactive.main feed = Ok im ->
        exists data,
          build_transfer_index_interactive.main feed = Ok data
          /\ im_stops_data im
             = stops_data
                 (ion_stops feed build_transfer_index_interactive.SERVICE_DATE)
                 data)
  /\ (forall e,
        Runs.build_transfer_index_interactive.main feed = Raise e ->
        (exists s,
           e = ValueError s /\ strptime s = None
           /\ mask build_transfer_index_interactive.PEAK_START
                build_transfer_index_interactive.PEAK_END (Some s) = true
           /\ exists st, st ∈ stop_times feed
                /\ (st_arrival_time st = Some s
                    \/ st_departure_time st = Some s))
        \/ (e = nan_location
            /\ ion_stops feed build_transfer_index_interactive.SERVICE_DATE
               = []
            /\ exists data,
                 build_transfer_index_interactive.main feed = Ok data)).
Proof.
  pose proof (interactive_run_cases feed) as Hcases.
  split; [|split; [|split]].
  - intros data Hrun. split.
    + intros d. rewrite <- distances_elem, <- elem_of_dom.
      rewrite (interactive_main_dom feed data Hrun).
      apply elem_of_list_to_set.
    + intros d counts Hd.
      apply (interactive_main_lookup feed data d counts Hrun) in Hd.
      rewrite calculate_transfers_for_distance_eq in Hd.
      destruct (calculate_transfers _ _ _ _); cbn in Hd; [|discriminate].
      injection Hd as <-. apply index_dict_dom.
  - split.
    + intros [im Him].
      destruct (build_transfer_index_interactive.main feed) as [data|e]
        eqn:Hrun; [|rewrite Him in Hcases; discriminate].
      destruct (interactive_main_entry feed data 500 Hrun) as (c&_&Hc).
      { apply distances_elem. exists 10%Z. split; [lia|done]. }
      split; [eauto|]. intros He. rewrite He, Him in Hcases. discriminate.
    + intros [[counts Hc] Hne].
      assert (Hex : exists data,
                build_transfer_index_interactive.main feed = Ok data).
      { unfold build_transfer_index_interactive.main.
        apply sweep_Ok. intros d (k&Hk&->)%distances_elem.
        assert (Hle : (50 * k <= 500)%Z) by lia.
        destruct (for_distance_mono _ _ _ _ (50 * k) 500 counts Hle Hc)
          as (c&Hcd&_).
        eauto. }
      destruct Hex as [data Hrun]. rewrite Hrun in Hcases.
      destruct (ion_stops feed _); [contradiction|].
      destruct Hcases as [c Hrun']. eauto.
  - intros im Him.
    destruct (build_transfer_index_interactive.main feed) as [data|e];
      [|rewrite Him in Hcases; discriminate].
    exists data. split; [reflexivity|].
    destruct (ion_stops feed _);
      [rewrite Him in Hcases; discriminate|].
    destruct Hcases as [c Hc]. rewrite Him in Hc. now injection Hc as ->.
  - intros e He.
    destruct (build_transfer_index_interactive.main feed) as [data|e']
      eqn:Hrun.
    + right.
      destruct (ion_stops feed _) as [|s l] eqn:Hs.
      * rewrite He in Hcases. injection Hcases as ->. eauto.
      * destruct Hcases as [c Hc]. rewrite He in Hc. discriminate.
    + left. rewrite He in Hcases. injection Hcases as ->.
      now apply interactive_main_Raise.
Qed.

(** X14.  [stops_data] has one element for every rail stop, with its id
    and name, and with a count for each of the ten distances.  The count
    is the one the dictionary of that distance has for the stop: the
    default 0 of [transfers.get] is never used.  Along the slider the
    count of a stop never goes down. *)
Theorem stops_data_counts (feed : Feed) (data : gmap Z (gmap string nat))
    (ion_stops_wgs : list StopRow) :
  build_transfer_index_interactive.main feed = Ok data ->
  Forall2 (fun s w => stop_id w = stop_id s /\ stop_name w = stop_name s)
    (ion_stops feed build_transfer_index_interactive.SERVICE_DATE)
    ion_stops_wgs ->
  Forall2 (fun s sd =>
             sd_stop_id sd = stop_id s /\ sd_stop_name sd = stop_name s
             /\ (forall d, is_Some (transfers sd !! d)
                           <-> exists k, (1 <= k <= 10)%Z /\ d = (50 * k)%Z)
             /\ (forall d n,
                   transfers sd !! d = Some n
                   <-> exists counts, data !! d = Some counts
                                      /\ counts !! stop_id s = Some n)
             /\ (forall d1 d2 n1 n2,
                   (d1 <= d2)%Z ->
                   transfers sd !! d1 = Some n1 ->
                   transfers sd !! d2 = Some n2 -> (n1 <= n2)%nat))
    (ion_stops feed build_transfer_index_interactive.SERVICE_DATE)
    (stops_data ion_stops_wgs data).
Proof.
  intros Hrun Hwgs. unfold stops_data. apply Forall2_fmap_r.
  assert (Hkeys : forall d counts s,
    data !! d = Some counts ->
    s ∈ ion_stops feed build_transfer_index_interactive.SERVICE_DATE ->
    is_Some (counts !! stop_id s)).
  { intros d counts s Hd Hs.
    apply (interactive_main_lookup feed data d counts Hrun) in Hd.
    rewrite calculate_transfers_for_distance_eq in Hd.
    destruct (calculate_transfers _ _ _ _); cbn in Hd; [|discriminate].
    injection Hd as <-. rewrite index_dict_lookup.
    destruct (decide _) as [|Hn]; [eauto|].
    exfalso. apply Hn, list_elem_of_fmap. eauto. }
  assert (Hlook : forall s w d n,
    s ∈ ion_stops feed build_transfer_index_interactive.SERVICE_DATE ->
    stop_id w = stop_id s ->
    ((fun counts : gmap string nat => default 0%nat (counts !! stop_id w))
       <$> data) !! d = Some n
    <-> exists counts, data !! d = Some counts
                       /\ counts !! stop_id s = Some n).
  { intros s w d n Hs ->. rewrite lookup_fmap.
    destruct (data !! d) as [counts|] eqn:Hd; cbn.
    - destruct (Hkeys d counts s Hd Hs) as [n' Hn']. rewrite Hn'. cbn. split.
      + intros [= <-]. eauto.
      + intros (c&[= <-]&Hc). congruence.
    - split; [discriminate|]. now intros (c&?&_). }
  apply Forall2_same_length_lookup_2; [now apply Forall2_length in Hwgs|].
  intros i s w Hs Hw.
  destruct (Forall2_lookup_lr _ _ _ _ _ _ Hwgs Hs Hw) as [Hid Hname].
  apply list_elem_of_lookup_2 in Hs. cbn. split; [done|]. split; [done|].
  split; [|split].
  - intros d. rewrite lookup_fmap, fmap_is_Some, <- distances_elem.
    rewrite <- elem_of_dom, (interactive_main_dom feed data Hrun).
    apply elem_of_list_to_set.
  - intros d n. now apply Hlook.
  - intros d1 d2 n1 n2 Hle (c1&H1&Hn1)%(Hlook s w d1 n1 Hs Hid)
      (c2&H2&Hn2)%(Hlook s w d2 n2 Hs Hid).
    apply (interactive_main_lookup feed data d1 c1 Hrun) in H1.
    apply (interactive_main_lookup feed data d2 c2 Hrun) in H2.
    destruct (for_distance_mono _ _ _ _ d1 d2 c2 Hle H2) as (c1'&Hc1&Hmono).
    rewrite H1 in Hc1. injection Hc1 as <-.
    destruct (Hmono _ _ Hn1) as (n2'&Hn2'&?). congruence.
Qed.

Lemma stops_data_counts_witness :
  exists data,
    build_transfer_index_interactive.main morning_feed = Ok data
    /\ Forall2 (fun s w => stop_id w = stop_id s /\ stop_name w = stop_name s)
         (ion_stops morning_feed build_transfer_index_interactive.SERVICE_DATE)
         (ion_stops morning_feed build_transfer_index_interactive.SERVICE_DATE)
    /\ Forall2 (fun s sd =>
                  sd_stop_id sd = stop_id s /\ sd_stop_name sd = stop_name s
                  /\ (forall d, is_Some (transfers sd !! d)
                                <-> exists k, (1 <= k <= 10)%Z
                                              /\ d = (50 * k)%Z)
                  /\ (forall d n,
                        transfers sd !! d = Some n
                        <-> exists counts, data !! d = Some counts
                                           /\ counts !! stop_id s = Some n)
                  /\ (forall d1 d2 n1 n2,
                        (d1 <= d2)%Z ->
                        transfers sd !! d1 = Some n1 ->
                        transfers sd !! d2 = Some n2 -> (n1 <= n2)%nat))
         (ion_stops morning_feed build_transfer_index_interactive.SERVICE_DATE)
         (stops_data
            (ion_stops morning_feed
               build_transfer_index_interactive.SERVICE_DATE) data).
Proof.
  destruct (interactive_main_Ok morning_feed morning_feed_well_timed)
    as [data E].
  assert (Hwgs : Forall2 (fun s w => stop_id w = stop_id s
                                     /\ stop_name w = stop_name s)
                   (ion_stops morning_feed
                      build_transfer_index_interactive.SERVICE_DATE)
                   (ion_stops morning_feed
                      build_transfer_index_interactive.SERVICE_DATE)).
  { apply Forall_Forall2_diag, Forall_forall. intros s _. split; reflexivity. }
  exists data. split; [exact E|]. split; [exact Hwgs|].
  exact (stops_data_counts morning_feed data _ E Hwgs).
Defined.

(** ** The scripts compared *)

(** X15.  When the interactive script completes, so does the batch
    script, and the dictionary of the interactive script at 100 m holds,
    for exactly the stops of the batch index, the counts of the batch
    index: the two scripts share the date, the peak window and the wait,
    and 100 m is the radius of the batch script. *)
Theorem interactive_matches_batch (feed : Feed)
    (data : gmap Z (gmap string nat)) :
  build_transfer_index_interactive.main feed = Ok data ->
  exists report counts,
    build_transfer_index.main feed = Ok report
    /\ data !! 100%Z = Some counts
    /\ dom counts
       = list_to_set (map (fun row => stop_id (stop row))
                          (build_transfer_index.rows report))
    /\ Forall (fun row =>
                 counts !! stop_id (stop row) = Some (bus_xfer_routes row))
              (build_transfer_index.rows report).
Proof.
  intros Hrun.
  destruct (interactive_main_entry feed data 100 Hrun) as (counts&Hd&Hc).
  { apply distances_elem. exists 2%Z. split; [lia|done]. }
  apply analysis_for_distance in Hc as (out&Hout&Hdom&Hrows).
  pose proof Hout as (ts&_&Hshape)%analysis_inv.
  exists (build_transfer_index.mkReport out (negb (0 <? length out)%nat)),
         counts.
  split; [|split; [done|split; [|done]]].
  - unfold build_transfer_index.main.
    change (analysis feed build_transfer_index.SERVICE_DATE
              build_transfer_index.PEAK_START build_transfer_index.PEAK_END
              build_transfer_index.BUFFER_METRES
              build_transfer_index.MAX_TRANSFER_M)
      with (analysis feed build_transfer_index_interactive.SERVICE_DATE
              build_transfer_index_interactive.PEAK_START
              build_transfer_index_interactive.PEAK_END 100 MAX_TRANSFER_M).
    now rewrite Hout.
  - cbn. rewrite Hdom, Hshape, map_map. done.
Qed.

Lemma interactive_matches_batch_witness :
  exists data report counts,
    build_transfer_index_interactive.main morning_feed = Ok data
    /\ build_transfer_index.main morning_feed = Ok report
    /\ data !! 100%Z = Some counts
    /\ Forall (fun row =>
                 counts !! stop_id (stop row) = Some (bus_xfer_routes row))
              (build_transfer_index.rows report).
Proof.
  destruct (interactive_main_Ok morning_feed morning_feed_well_timed)
    as [data E].
  destruct (interactive_matches_batch morning_feed data E)
    as (report&counts&Hbatch&Hd&_&Hrows).
  exists data, report, counts. repeat split; assumption.
Defined.

(** ** The sweep of [generate_maps.py] *)

(** X16.  [generate_maps.py] runs the batch script once for each of the
    ten distances of the interactive script; the run at 100 m is the batch
    script itself.  A run that fails does not stop the sweep.  When the
    run at a distance completes, so does the run at every smaller
    distance, with the same stops and counts that are no larger.  When
    the interactive script completes, every run completes, and its index
    holds the counts of the interactive dictionary of its distance.  On a
    feed without service on the date, every run completes with an empty
    index and the warning, the case in which the batch script writes no
    map. *)
Theorem generate_maps_runs (feed : Feed) :
  map fst (generate_maps.main feed) = generate_maps.distances
  /\ generate_maps.distances = build_transfer_index_interactive.distances
  /\ generate_maps.temp_build build_transfer_index.BUFFER_METRES feed
     = build_transfer_index.main feed
  /\ (forall d run,
        (d, run) ∈ generate_maps.main feed
        <-> d ∈ generate_maps.distances
            /\ run = generate_maps.temp_build d feed)
  /\ (forall d1 d2 run1 report2,
        (d1, run1) ∈ generate_maps.main feed ->
        (d2, Ok report2) ∈ generate_maps.main feed ->
        (d1 <= d2)%Z ->
        exists report1,
          run1 = Ok report1
          /\ Forall2 (fun row1 row2 =>
                        stop row1 = stop row2
                        /\ (bus_xfer_routes row1 <= bus_xfer_routes row2)%nat)
                     (build_transfer_index.rows report1)
                     (build_transfer_index.rows report2))
  /\ (forall data d,
        build_transfer_index_interactive.main feed = Ok data ->
        d ∈ generate_maps.distances ->
        exists report counts,
          (d, Ok report) ∈ generate_maps.main feed
          /\ data !! d = Some counts
          /\ Forall (fun row =>
                       counts !! stop_id (stop row)
                       = Some (bus_xfer_routes row))
                    (build_transfer_index.rows report))
  /\ (service_ids feed build_transfer_index.SERVICE_DATE = [] ->
      forall d, d ∈ generate_maps.distances ->
        (d, Ok (build_transfer_index.mkReport [] true))
        ∈ generate_maps.main feed).
Proof.
  assert (Helem : forall d run,
    (d, run) ∈ generate_maps.main feed
    <-> d ∈ generate_maps.distances /\ run = generate_maps.temp_build d feed).
  { intros d run. unfold generate_maps.main. rewrite list_elem_of_fmap. split.
    - intros (d'&[= -> ->]&Hd). auto.
    - intros [Hd ->]. eauto. }
  split; [|split; [|split; [|split; [|split; [|split]]]]].
  - unfold generate_maps.main. rewrite map_map. apply map_id.
  - reflexivity.
  - reflexivity.
  - exact Helem.
  - intros d1 d2 run1 report2 [_ ->]%Helem [_ H2]%Helem Hle.
    unfold generate_maps.temp_build in *.
    destruct (analysis feed _ _ _ d2 _) as [out2|e] eqn:E2; cbn in H2;
      [|discriminate].
    injection H2 as ->.
    destruct (analysis_mono _ _ _ _ _ _ _ _ Hle E2) as (out1&->&Hrows).
    cbn. eauto.
  - intros data d Hrun Hd.
    destruct (interactive_main_entry feed data d Hrun Hd) as (counts&Hlook&Hc).
    apply analysis_for_distance in Hc as (out&Hout&_&Hrows).
    exists (build_transfer_index.mkReport out (negb (0 <? length out)%nat)),
           counts.
    split; [|done]. apply Helem. split; [done|].
    unfold generate_maps.temp_build.
    change (analysis feed build_transfer_index.SERVICE_DATE
              build_transfer_index.PEAK_START build_transfer_index.PEAK_END
              d build_transfer_index.MAX_TRANSFER_M)
      with (analysis feed build_transfer_index_interactive.SERVICE_DATE
              build_transfer_index_interactive.PEAK_START
              build_transfer_index_interactive.PEAK_END d MAX_TRANSFER_M).
    now rewrite Hout.
  - intros Hnone d Hd. apply Helem. split; [done|].
    unfold generate_maps.temp_build, analysis.
    destruct (no_service feed build_transfer_index.SERVICE_DATE
                build_transfer_index.PEAK_START build_transfer_index.PEAK_END
                Hnone) as (-> & -> & -> & ->).
    reflexivity.
Qed.

(** ** The service date *)

(** X17.  The date enters the analysis only as [date.replace('-', '')],
    compared for equality with the [date] column of
    [calendar_dates.txt]: the string compared has no dash, a date
    without a dash is compared as it is, and two dates that differ only
    by dashes give the same analysis.  The services of the date are those
    of the rows whose date is that string; a calendar whose dates are all
    written with dashes has no service on any date. *)
Theorem service_date_matching (feed : Feed) :
  (forall date, has_dash (remove_dashes date) = false)
  /\ (forall date, has_dash date = false -> remove_dashes date = date)
  /\ (forall date id,
        id ∈ service_ids feed date
        <-> exists c, c ∈ calendar_dates feed
                      /\ cd_date c = remove_dashes date
                      /\ cd_service_id c = id)
  /\ ((forall c, c ∈ calendar_dates feed -> has_dash (cd_date c) = true) ->
      forall date, service_ids feed date = [])
  /\ (forall date1 date2 start finish buffer_m max_transfer,
        remove_dashes date1 = remove_dashes date2 ->
        analysis feed date1 start finish buffer_m max_transfer
        = analysis feed date2 start finish buffer_m max_transfer).
Proof.
  split; [apply remove_dashes_clean|]. split; [apply remove_dashes_id|].
  split; [apply service_ids_elem|]. split.
  - intros Hdash date.
    destruct (service_ids feed date) as [|id l] eqn:E; [done|].
    assert (Hid : id ∈ service_ids feed date) by (rewrite E; left).
    apply service_ids_elem in Hid as (c&Hc&Hd&_).
    apply Hdash in Hc. rewrite Hd, remove_dashes_clean in Hc. discriminate.
  - intros date1 date2 start finish r m Heq.
    unfold analysis, ion_stops, bus_stops, ion_times, bus_times,
      st_with_routes, ion_trips, bus_trips, trips_of_day, service_ids.
    now rewrite Heq.
Qed.

(** ** The command-line script without options *)

(** X18.  Without options the command-line script runs the analysis of
    the batch script: its defaults are the date, the peak window, the
    radius and the wait of [build_transfer_index.py].  On a feed with
    service on that date, when the command-line script writes an index,
    the batch script writes the same index, without its warning; when
    the batch script writes an index with at least one row, the
    command-line script writes the same; and an exception of the one
    analysis is the exception of the other.  They part where no rail
    stop is found: the batch script writes an empty index and prints its
    warning, and the command-line script ends in the refusal of the
    centre of its map. *)
Theorem defaults_match_batch (fromisoformat : string -> bool) (feed : Feed) :
  fromisoformat defaults.DEFAULT_SERVICE_DATE = true ->
  service_ids feed defaults.DEFAULT_SERVICE_DATE <> [] ->
  (forall o,
     Runs.ion_bus_connect.main fromisoformat defaults.args feed = Ok o ->
     Runs.ion_bus_connect.index o <> []
     /\ build_transfer_index.main feed
        = Ok (build_transfer_index.mkReport (Runs.ion_bus_connect.index o) false))
  /\ (forall report,
        build_transfer_index.main feed = Ok report ->
        if build_transfer_index.no_stops_warning report
        then build_transfer_index.rows report = []
             /\ Runs.ion_bus_connect.main fromisoformat defaults.args feed
                = Raise nan_location
        else exists o,
               Runs.ion_bus_connect.main fromisoformat defaults.args feed = Ok o
               /\ Runs.ion_bus_connect.index o = build_transfer_index.rows report)
  /\ (forall e,
        build_transfer_index.main feed = Raise e ->
        Runs.ion_bus_connect.main fromisoformat defaults.args feed = Raise e).
Proof.
  intros Hiso Hservice.
  pose proof (cli_run_cases fromisoformat defaults.args feed) as Hc.
  assert (Hmain : ion_bus_connect.main fromisoformat defaults.args feed
                  = analysis feed build_transfer_index.SERVICE_DATE
                      build_transfer_index.PEAK_START
                      build_transfer_index.PEAK_END
                      build_transfer_index.BUFFER_METRES
                      build_transfer_index.MAX_TRANSFER_M).
  { unfold ion_bus_connect.main.
    cbn [ion_bus_connect.date ion_bus_connect.time ion_bus_connect.buffer
         ion_bus_connect.transfer_time defaults.args fst snd].
    rewrite Hiso. cbn [negb].
    destruct (service_ids feed defaults.DEFAULT_SERVICE_DATE) as [|id l];
      [done|].
    reflexivity. }
  rewrite Hmain in Hc. unfold build_transfer_index.main.
  destruct (analysis feed _ _ _ _ _) as [out|e']; cbn [mbind result_bind].
  - destruct out as [|row rows].
    + split; [|split].
      * intros o Ho. rewrite Ho in Hc. discriminate.
      * intros report [= <-]. cbn. auto.
      * discriminate.
    + destruct Hc as (o&ts&Ho&Hidx&_). split; [|split].
      * intros o' Ho'. rewrite Ho in Ho'. injection Ho' as <-.
        rewrite Hidx. split; [discriminate|reflexivity].
      * intros report [= <-]. cbn. eauto.
      * discriminate.
  - split; [|split].
    + intros o Ho. rewrite Ho in Hc. discriminate.
    + discriminate.
    + intros e [= <-]. exact Hc.
Qed.

Lemma defaults_match_batch_witness :
  service_ids morning_feed defaults.DEFAULT_SERVICE_DATE <> []
  /\ build_transfer_index.main morning_feed
     = Ok (build_transfer_index.mkReport [mkIndexRow R1 1] false)
  /\ exists o,
       Runs.ion_bus_connect.main (fun _ => true) defaults.args morning_feed = Ok o
       /\ Runs.ion_bus_connect.index o = [mkIndexRow R1 1].
Proof.
  assert (Hservice : service_ids morning_feed defaults.DEFAULT_SERVICE_DATE
                     <> []) by (vm_compute; discriminate).
  assert (Hbatch : build_transfer_index.main morning_feed
                   = Ok (build_transfer_index.mkReport [mkIndexRow R1 1]
                           false)) by (vm_compute; reflexivity).
  split; [exact Hservice|]. split; [exact Hbatch|].
  destruct (defaults_match_batch (fun _ => true) morning_feed eq_refl
              Hservice) as (_&Hrows&_).
  exact (Hrows _ Hbatch).
Defined.

End Coverage.
